(** * Lumina firmware: state manager, credential store and command codec

    A shallow embedding of the control core of the Lumina lamp firmware
    (LuminaStateManager.h, States.h, SearchingState.h, ProvisioningState.h,
    ConnectedState.h, UpdatingState.h, Config.h).

    Conventions of the embedding:
    - [uint8_t] and [unsigned long] values are [Z] with the wrap-around
      written out ([uint8], [uint32]); a [float] is carried as its IEEE-754
      binary32 bit pattern, which is all the firmware ever does with one
      outside the battery sampling code;
    - an Arduino [String] is a [string]; [char] is [ascii];
    - the hardware and library collaborators (LED ring, UDP socket, WiFi
      radio, OTA service, heap, serial port) are observed through an effect
      trace kept in the manager; the answers the environment gives during one
      call (link status, RSSI, free heap, flash commit outcome, stack garbage)
      are gathered in [Env];
    - serial diagnostics are logged when they report a transition, a refusal
      or an error; purely informational prints are left out. *)

From Stdlib Require Import ZArith List String Ascii Lia Bool.
From Stdlib Require Import Floats.SpecFloat.
From stdpp Require Import base list.
Import ListNotations.
Local Open Scope Z_scope.

(** ** Machine integers and characters *)

Definition uint8 (z : Z) : Z := z mod 256.
Definition uint32 (z : Z) : Z := z mod 2 ^ 32.

Arguments uint8 : simpl never.
Arguments uint32 : simpl never.

Definition is_uint8 (z : Z) : Prop := 0 <= z < 256.

(** [static_cast<uint8_t>(c)] and [static_cast<char>(b)]. *)
Definition char_to_uint8 (c : ascii) : Z := Z.of_N (N_of_ascii c).
Definition uint8_to_char (b : Z) : ascii := ascii_of_N (Z.to_N b).

(** [String::operator[]]: the character at [i], NUL past the end. *)
Definition charAt (s : string) (i : nat) : ascii :=
  match String.get i s with
  | Some c => c
  | None => zero
  end.

(** [s += c]. *)
Definition append_char (s : string) (c : ascii) : string :=
  (s ++ String c EmptyString)%string.

(** The bytes of a C string literal. *)
Definition cstr_bytes (s : string) : list Z :=
  map char_to_uint8 (list_ascii_of_string s).

Definition strlen (s : string) : Z := Z.of_nat (String.length s).

(** [s.c_str()] as a C function reads it: an Arduino String may hold NUL
    characters, the reader stops at the first one. *)
Fixpoint c_str (s : string) : string :=
  match s with
  | EmptyString => EmptyString
  | String c s' => if Ascii.eqb c zero then EmptyString else String c (c_str s')
  end.

(** ** Config.h *)

Module Config.

Definition LED_COUNT : nat := 16.

Definition UDP_PORT : Z := 4210.
Definition HEARTBEAT_INTERVAL : Z := 5000.
Definition WIFI_TIMEOUT : Z := 30000.
Definition PROVISION_TIMEOUT : Z := 300000.
Definition AP_SSID : string := "Lumina-Setup".
Definition AP_PASSWORD : string := "lumina2026".

Definition EEPROM_SIZE : nat := 512.
Definition EEPROM_MAGIC : Z := 0xA5.
Definition ADDR_MAGIC : nat := 0.
Definition ADDR_SSID_LEN : nat := 1.
Definition ADDR_SSID : nat := 2.
Definition ADDR_PASS_LEN : nat := 34.
Definition ADDR_PASS : nat := 35.

Definition BRIGHTNESS_MAX : Z := 200.
Definition BRIGHTNESS_MIN : Z := 10.

Definition CMD_SET_COLOR : Z := 0x01.
Definition CMD_SET_MOOD : Z := 0x02.
Definition CMD_SET_BRIGHTNESS : Z := 0x03.
Definition CMD_GET_STATUS : Z := 0x04.
Definition CMD_PROVISION : Z := 0x05.
Definition CMD_OTA_START : Z := 0x06.
Definition CMD_RESET : Z := 0xFF.

Definition STATUS_HEARTBEAT : Z := 0x10.
Definition STATUS_BATTERY : Z := 0x11.
Definition STATUS_ERROR : Z := 0x12.
Definition STATUS_STATE : Z := 0x13.

Definition FIRMWARE_VERSION : string := "1.0.0".
Definition DEVICE_NAME : string := "Lumina".

Record Color : Type := mkColor { r : Z; g : Z; b : Z }.

Definition to32bit (c : Color) : Z :=
  Z.lor (Z.lor (Z.shiftl (r c) 16) (Z.shiftl (g c) 8)) (b c).

Module Colors.
Definition OFF : Color := mkColor 0 0 0.
Definition SEARCHING : Color := mkColor 0 50 255.
Definition PROVISIONING : Color := mkColor 255 165 0.
Definition CONNECTED : Color := mkColor 0 255 0.
Definition UPDATING : Color := mkColor 255 255 0.
Definition ERROR_COLOR : Color := mkColor 255 0 0.
Definition LOW_BATTERY : Color := mkColor 255 100 0.
End Colors.

End Config.
Import Config.

(** ** States.h: state codes *)

Definition STATE_SEARCHING : Z := 0x01.
Definition STATE_PROVISIONING : Z := 0x02.
Definition STATE_CONNECTED : Z := 0x03.
Definition STATE_UPDATING : Z := 0x04.
Definition STATE_ERROR : Z := 0xFF.

(** ** The persistent byte store (the [EEPROM] object)

    The store is a RAM image of [EEPROM_SIZE] cells.  [EEPROM.write] outside
    the image is ignored and [EEPROM.read] outside it yields 0; [commit]
    reports what the flash driver answers.  Every call is appended to
    [oplog], in program order. *)

Inductive EEPROMOp : Type :=
| OpWrite (addr : nat) (value : Z)
| OpCommit (ok : bool).

Record EEPROMClass : Type := mkEEPROM {
  cells : list Z;
  oplog : list EEPROMOp
}.

Definition EEPROM_begin (size : nat) (flash : nat -> Z) : EEPROMClass :=
  mkEEPROM (map flash (seq 0 size)) [].

Definition EEPROM_read (addr : nat) (e : EEPROMClass) : Z :=
  match cells e !! addr with
  | Some v => v
  | None => 0
  end.

Definition EEPROM_write (addr : nat) (value : Z) (e : EEPROMClass) : EEPROMClass :=
  let v := uint8 value in
  mkEEPROM
    (if (addr <? length (cells e))%nat then <[addr := v]> (cells e) else cells e)
    (oplog e ++ [OpWrite addr v]).

Definition EEPROM_commit (ok : bool) (e : EEPROMClass) : bool * EEPROMClass :=
  (ok, mkEEPROM (cells e) (oplog e ++ [OpCommit ok])).

(** ** LuminaStateManager: credential management *)

(** [for (size_t i = 0; i < s.length(); i++) EEPROM.write(base + i, s[i]);] *)
Definition store_char (base : nat) (s : string) (e : EEPROMClass) (i : nat)
    : EEPROMClass :=
  EEPROM_write (base + i) (char_to_uint8 (charAt s i)) e.

Definition write_chars (base : nat) (s : string) (e : EEPROMClass) : EEPROMClass :=
  fold_left (store_char base s) (seq 0 (String.length s)) e.

(** [s = ""; for (int i = 0; i < n; i++) s += (char) EEPROM.read(base + i);] *)
Definition read_chars (base : nat) (n : nat) (e : EEPROMClass) : string :=
  fold_left
    (fun s i => append_char s (uint8_to_char (EEPROM_read (base + i) e)))
    (seq 0 n) EmptyString.

Definition saveCredentials (commit_ok : bool) (ssid password : string)
    (e : EEPROMClass) : bool * EEPROMClass :=
  if (32 <? String.length ssid)%nat || (64 <? String.length password)%nat
  then (false, e)
  else
    let e := EEPROM_write ADDR_MAGIC EEPROM_MAGIC e in
    let e := EEPROM_write ADDR_SSID_LEN (strlen ssid) e in
    let e := write_chars ADDR_SSID ssid e in
    let e := EEPROM_write ADDR_PASS_LEN (strlen password) e in
    let e := write_chars ADDR_PASS password e in
    EEPROM_commit commit_ok e.

(** [loadCredentials] takes both strings by reference: the result carries the
    flag and the two strings as the call leaves them. *)
Definition loadCredentials (ssid password : string) (e : EEPROMClass)
    : bool * string * string :=
  if negb (EEPROM_read ADDR_MAGIC e =? EEPROM_MAGIC) then (false, ssid, password)
  else
    let ssidLen := EEPROM_read ADDR_SSID_LEN e in
    if 32 <? ssidLen then (false, ssid, password)
    else
      let ssid := read_chars ADDR_SSID (Z.to_nat ssidLen) e in
      let passLen := EEPROM_read ADDR_PASS_LEN e in
      if 64 <? passLen then (false, ssid, password)
      else
        let password := read_chars ADDR_PASS (Z.to_nat passLen) e in
        (true, ssid, password).

Definition clearCredentials (commit_ok : bool) (e : EEPROMClass) : EEPROMClass :=
  let e := EEPROM_write ADDR_MAGIC 0x00 e in
  snd (EEPROM_commit commit_ok e).

(** ** ConnectedState.h: lighting strategies *)

Inductive LightingStrategy : Type :=
| SolidColorStrategy (color : Color)
| CalmBreathingStrategy (baseColor : Color)
| FocusStrategy (color : Color)
| PartyStrategy (color1 color2 color3 : Color).

Definition strategy_getName (s : LightingStrategy) : string :=
  match s with
  | SolidColorStrategy _ => "Solid"
  | CalmBreathingStrategy _ => "Calm"
  | FocusStrategy _ => "Focus"
  | PartyStrategy _ _ _ => "Party"
  end.

(** ** The four state classes

    Each record holds the members of the class, [stateStartTime] being the
    member inherited from [LuminaState]. *)

Module SearchingState.
Record t : Type := mk {
  stateStartTime : Z;
  pulseValue : Z;
  pulseDirection : bool;
  lastPulseUpdate : Z;
  ssid : string;
  password : string;
  lastConnectionAttempt : Z
}.
End SearchingState.

Module ProvisioningState.
Record t : Type := mk {
  stateStartTime : Z;
  lastBroadcast : Z;
  orangePhase : Z;
  lastAnimUpdate : Z
}.
End ProvisioningState.

Module ConnectedState.
(** [currentStrategy] is allocated by the constructor and every assignment
    stores a freshly allocated strategy, so the pointer is never null. *)
Record t : Type := mk {
  stateStartTime : Z;
  currentStrategy : LightingStrategy;
  lastHeartbeat : Z;
  lastStrategyUpdate : Z;
  connectionCheckTime : Z
}.
End ConnectedState.

Module UpdatingState.
(** [previousState] is initialised to [nullptr] and never assigned. *)
Record t : Type := mk {
  stateStartTime : Z;
  lastPulse : Z;
  yellowBrightness : Z;
  pulseDirection : bool;
  otaConfigured : bool;
  lastProgress : Z;
  previousState : option Z
}.
End UpdatingState.

Inductive LuminaState : Type :=
| Searching (s : SearchingState.t)
| Provisioning (s : ProvisioningState.t)
| Connected (s : ConnectedState.t)
| Updating (s : UpdatingState.t).

Definition getName (s : LuminaState) : string :=
  match s with
  | Searching _ => "Searching"
  | Provisioning _ => "Provisioning"
  | Connected _ => "Connected"
  | Updating _ => "Updating"
  end.

Definition getStateCode (s : LuminaState) : Z :=
  match s with
  | Searching _ => STATE_SEARCHING
  | Provisioning _ => STATE_PROVISIONING
  | Connected _ => STATE_CONNECTED
  | Updating _ => STATE_UPDATING
  end.

(** Factory functions: the constructors' member initialisers. *)

Definition createSearchingState : LuminaState :=
  Searching (SearchingState.mk 0 BRIGHTNESS_MIN true 0 EmptyString EmptyString 0).

Definition createProvisioningState : LuminaState :=
  Provisioning (ProvisioningState.mk 0 0 0 0).

Definition createConnectedState : LuminaState :=
  Connected (ConnectedState.mk 0 (CalmBreathingStrategy Colors.CONNECTED) 0 0 0).

Definition createUpdatingState : LuminaState :=
  Updating (UpdatingState.mk 0 0 20 true false 0 None).

(** ** Observable effects *)

Inductive Diagnostic : Type :=
| DiagNullTransition
| DiagTransitioning (from to : string)
| DiagInitialState (to : string)
| DiagHeapAfterTransition (heap : Z)
| DiagEntering (name : string)
| DiagExiting (name : string)
| DiagNoSavedCredentials
| DiagNoWiFiCannotUpdate
| DiagOtaError (error : Z) (msg : string)
| DiagRollingBack
| DiagInvalidProvisionData
| DiagInvalidSsidLength
| DiagInvalidPasswordLength
| DiagUnknownCommand (cmd : Z).

Inductive Effect : Type :=
| Serial (d : Diagnostic)
| LedSetPixelColor (i : nat) (c : Z)
| LedClear
| LedShow
| LedSetBrightness (v : Z)
| Delay (ms : Z)
| UdpBegin (port : Z)
| UdpStop
| UdpBroadcast (port : Z) (pkt : list Z)
| UdpReply (pkt : list Z)
| WifiModeSTA
| WifiModeAP
| WifiBegin (ssid password : string)
| WifiDisconnect
| WifiSoftAP (ssid password : string)
| WifiSoftAPdisconnect
| OtaArm (hostname : string)
| OtaEnd
| DeleteStrategy (s : LightingStrategy)
| DeleteState (name : string)
| Restart.

(** What the environment answers during one call into the core. *)
Record Env : Type := mkEnv {
  wifi_connected : bool;
  wifi_rssi : Z;
  free_heap : Z;
  flash_commit_ok : bool;
  stack_garbage : nat -> Z
}.

(** ** LuminaStateManager *)

Record LuminaStateManager : Type := mkManager {
  currentState : option LuminaState;
  EEPROM : EEPROMClass;
  lastBatteryRead : Z;
  lastBatteryVoltage : Z;
  lastBatteryPercent : Z;
  millis : Z;
  effects : list Effect
}.

Definition set_currentState (s : option LuminaState) (m : LuminaStateManager) :=
  mkManager s (EEPROM m) (lastBatteryRead m) (lastBatteryVoltage m)
    (lastBatteryPercent m) (millis m) (effects m).

Definition set_EEPROM (e : EEPROMClass) (m : LuminaStateManager) :=
  mkManager (currentState m) e (lastBatteryRead m) (lastBatteryVoltage m)
    (lastBatteryPercent m) (millis m) (effects m).

Definition emit (evs : list Effect) (m : LuminaStateManager) :=
  mkManager (currentState m) (EEPROM m) (lastBatteryRead m) (lastBatteryVoltage m)
    (lastBatteryPercent m) (millis m) (effects m ++ evs).

Definition delay (ms : Z) (m : LuminaStateManager) :=
  mkManager (currentState m) (EEPROM m) (lastBatteryRead m) (lastBatteryVoltage m)
    (lastBatteryPercent m) (uint32 (millis m + ms)) (effects m ++ [Delay ms]).

(** [for (int i = 0; i < LED_COUNT; i++) leds->setPixelColor(i, c);] *)
Definition fill_ring (c : Z) : list Effect :=
  map (fun i => LedSetPixelColor i c) (seq 0 LED_COUNT).

(** Faults of a call: a read outside the payload, or the model's recursion
    budget running out. *)
Inductive Fault : Type :=
| OutOfBounds (index : nat)
| OutOfFuel.

Inductive Result (A : Type) : Type :=
| Ok (a : A)
| Crash (f : Fault).
Arguments Ok {A} a.
Arguments Crash {A} f.

Definition bind {A B : Type} (x : Result A) (k : A -> Result B) : Result B :=
  match x with
  | Ok a => k a
  | Crash f => Crash f
  end.

Notation "'do' x <- c1 ; c2" := (bind c1 (fun x => c2))
  (at level 10, x name, c1 at level 100, c2 at level 200).

(** [reboot()]. *)
Definition reboot (m : LuminaStateManager) : LuminaStateManager :=
  emit [Restart] (delay 2000 (emit [LedClear; LedShow] m)).

Definition mgr_saveCredentials (env : Env) (ssid password : string)
    (m : LuminaStateManager) : bool * LuminaStateManager :=
  let '(ok, e) := saveCredentials (flash_commit_ok env) ssid password (EEPROM m) in
  (ok, set_EEPROM e m).

Definition mgr_clearCredentials (env : Env) (m : LuminaStateManager)
    : LuminaStateManager :=
  set_EEPROM (clearCredentials (flash_commit_ok env) (EEPROM m)) m.

(** ** State hooks *)

Definition onExit (m : LuminaStateManager) : LuminaStateManager :=
  match currentState m with
  | None => m
  | Some (Searching _) =>
      emit [Serial (DiagExiting "Searching"); LedClear; LedShow] m
  | Some (Provisioning _) =>
      emit [Serial (DiagExiting "Provisioning"); UdpStop; WifiSoftAPdisconnect;
            LedClear; LedShow] m
  | Some (Connected _) =>
      emit [Serial (DiagExiting "Connected"); UdpStop; LedClear; LedShow] m
  | Some (Updating u) =>
      let u := UpdatingState.mk (UpdatingState.stateStartTime u)
                 (UpdatingState.lastPulse u) (UpdatingState.yellowBrightness u)
                 (UpdatingState.pulseDirection u) false
                 (UpdatingState.lastProgress u) (UpdatingState.previousState u) in
      emit [Serial (DiagExiting "Updating"); OtaEnd; LedClear; LedShow]
        (set_currentState (Some (Updating u)) m)
  end.

(** [delete currentState]: the destructor's effects, then the release. *)
Definition delete_currentState (m : LuminaStateManager) : LuminaStateManager :=
  match currentState m with
  | None => m
  | Some (Connected c) =>
      emit [DeleteStrategy (ConnectedState.currentStrategy c); UdpStop;
            DeleteState "Connected"] m
  | Some (Provisioning _) => emit [UdpStop; DeleteState "Provisioning"] m
  | Some s => emit [DeleteState (getName s)] m
  end.

(** [UpdatingState::setupOTA]. *)
Definition setupOTA (u : UpdatingState.t) (m : LuminaStateManager)
    : UpdatingState.t * LuminaStateManager :=
  if UpdatingState.otaConfigured u then (u, m)
  else
    (UpdatingState.mk (UpdatingState.stateStartTime u)
       (UpdatingState.lastPulse u) (UpdatingState.yellowBrightness u)
       (UpdatingState.pulseDirection u) true
       (UpdatingState.lastProgress u) (UpdatingState.previousState u),
     emit [OtaArm DEVICE_NAME] m).

Section Hooks.

Variable env : Env.

(** The manager's [transitionTo], as the hooks call it back. *)
Variable transitionTo_rec :
  option LuminaState -> LuminaStateManager -> Result LuminaStateManager.

Definition onEnter (m : LuminaStateManager) : Result LuminaStateManager :=
  match currentState m with
  | None => Ok m
  | Some (Searching s) =>
      let m := emit [Serial (DiagEntering "Searching")] m in
      let '(ok, ssid, password) :=
        loadCredentials (SearchingState.ssid s) (SearchingState.password s)
          (EEPROM m) in
      if negb ok then
        let s := SearchingState.mk (millis m)
                   (SearchingState.pulseValue s) (SearchingState.pulseDirection s)
                   (SearchingState.lastPulseUpdate s) ssid password
                   (SearchingState.lastConnectionAttempt s) in
        let m := set_currentState (Some (Searching s)) m in
        transitionTo_rec (Some createProvisioningState)
          (emit [Serial DiagNoSavedCredentials] m)
      else
        let s := SearchingState.mk (millis m) BRIGHTNESS_MIN true (millis m)
                   ssid password (millis m) in
        Ok (emit [WifiModeSTA; WifiBegin (c_str ssid) (c_str password)]
              (set_currentState (Some (Searching s)) m))
  | Some (Provisioning p) =>
      let start := millis m in
      let m := emit [Serial (DiagEntering "Provisioning"); WifiDisconnect] m in
      let m := delay 100 m in
      let m := emit [WifiModeAP; WifiSoftAP AP_SSID AP_PASSWORD; UdpBegin UDP_PORT] m in
      let p := ProvisioningState.mk start 0 0 (millis m) in
      Ok (set_currentState (Some (Provisioning p)) m)
  | Some (Connected c) =>
      let m := emit [Serial (DiagEntering "Connected"); UdpBegin UDP_PORT] m in
      let c := ConnectedState.mk (millis m) (ConnectedState.currentStrategy c)
                 0 (millis m) (millis m) in
      let m := set_currentState (Some (Connected c)) m in
      let m := emit (fill_ring (to32bit Colors.CONNECTED) ++ [LedShow]) m in
      Ok (delay 500 m)
  | Some (Updating u) =>
      let u := UpdatingState.mk (millis m)
                 (UpdatingState.lastPulse u) (UpdatingState.yellowBrightness u)
                 (UpdatingState.pulseDirection u) (UpdatingState.otaConfigured u)
                 (UpdatingState.lastProgress u) (UpdatingState.previousState u) in
      let m := emit [Serial (DiagEntering "Updating")]
                 (set_currentState (Some (Updating u)) m) in
      if negb (wifi_connected env) then
        transitionTo_rec (Some createSearchingState)
          (emit [Serial DiagNoWiFiCannotUpdate] m)
      else
        let '(u, m) := setupOTA u m in
        let u := UpdatingState.mk (UpdatingState.stateStartTime u)
                   (millis m) 20 true (UpdatingState.otaConfigured u)
                   0 (UpdatingState.previousState u) in
        Ok (set_currentState (Some (Updating u)) m)
  end.

End Hooks.

(** [LuminaStateManager::transitionTo].  A hook may call back into it, so the
    definition recurses through [onEnter]; [fuel] bounds the depth of that
    recursion. *)
Fixpoint transitionTo (fuel : nat) (env : Env) (newState : option LuminaState)
    (m : LuminaStateManager) : Result LuminaStateManager :=
  match fuel with
  | O => Crash OutOfFuel
  | S fuel' =>
      match newState with
      | None => Ok (emit [Serial DiagNullTransition] m)
      | Some ns =>
          let m :=
            match currentState m with
            | Some cur =>
                let m := emit [Serial (DiagTransitioning (getName cur) (getName ns))] m in
                delete_currentState (onExit m)
            | None => emit [Serial (DiagInitialState (getName ns))] m
            end in
          let m := set_currentState (Some ns) m in
          do m <- onEnter env (transitionTo fuel' env) m;
          Ok (emit [Serial (DiagHeapAfterTransition (free_heap env))] m)
      end
  end.

(** The deepest chain is Updating -> Searching -> Provisioning. *)
Definition transition_fuel : nat := 3.

(** ** Command payloads and packet buffers *)

(** [data[i]] on a payload of [length data] bytes; a read past the end is a
    fault. *)
Definition payload_at (data : list Z) (i : nat) : Result Z :=
  match data !! i with
  | Some v => Ok v
  | None => Crash (OutOfBounds i)
  end.

(** [s = ""; for (int i = 0; i < n; i++) s += (char) data[off + i];] *)
Definition parse_chars (data : list Z) (off n : nat) : Result string :=
  fold_left
    (fun acc i =>
       do s <- acc;
       do v <- payload_at data (off + i);
       Ok (append_char s (uint8_to_char v)))
    (seq 0 n) (Ok EmptyString).

(** A local array [uint8_t buf[n]] before anything is stored in it. *)
Definition uninitialized (env : Env) (n : nat) : list Z :=
  map (stack_garbage env) (seq 0 n).

Definition buf_at (buf : list Z) (i : nat) : Z :=
  match buf !! i with
  | Some v => v
  | None => 0
  end.

(** [memcpy(&buf[off], src, n)]. *)
Fixpoint memcpy (buf : list Z) (off : nat) (src : list Z) (n : nat) : list Z :=
  match n, src with
  | S n', x :: src' => memcpy (<[off := x]> buf) (S off) src' n'
  | _, _ => buf
  end.

(** The object representation of a 32-bit value on the little-endian target. *)
Definition bytes_of_word32 (w : Z) : list Z :=
  [Z.land w 255; Z.land (Z.shiftr w 8) 255;
   Z.land (Z.shiftr w 16) 255; Z.land (Z.shiftr w 24) 255].

(** ** ConnectedState *)

Definition set_strategy (s : LightingStrategy) (c : ConnectedState.t) :=
  ConnectedState.mk (ConnectedState.stateStartTime c) s
    (ConnectedState.lastHeartbeat c) (ConnectedState.lastStrategyUpdate c)
    (ConnectedState.connectionCheckTime c).

Definition sendHeartbeat (env : Env) (m : LuminaStateManager) : LuminaStateManager :=
  match currentState m with
  | Some (Connected c) =>
      if uint32 (millis m - ConnectedState.lastHeartbeat c) <? HEARTBEAT_INTERVAL
      then m
      else
        let c := ConnectedState.mk (ConnectedState.stateStartTime c)
                   (ConnectedState.currentStrategy c) (millis m)
                   (ConnectedState.lastStrategyUpdate c)
                   (ConnectedState.connectionCheckTime c) in
        let packet := uninitialized env 32 in
        let packet := <[0%nat := STATUS_HEARTBEAT]> packet in
        let packet := <[1%nat := STATE_CONNECTED]> packet in
        let packet := <[2%nat := lastBatteryPercent m]> packet in
        let packet := <[3%nat := uint8 (wifi_rssi env + 128)]> packet in
        let packet := memcpy packet 4 (bytes_of_word32 (lastBatteryVoltage m)) 4 in
        let packet := memcpy packet 8 (bytes_of_word32 (free_heap env)) 4 in
        let name := strategy_getName (ConnectedState.currentStrategy c) in
        let packet := <[12%nat := uint8 (strlen name)]> packet in
        let n := Z.to_nat (buf_at packet 12) in
        let packet := memcpy packet 13 (cstr_bytes name) n in
        emit [UdpBroadcast UDP_PORT (take (13 + n) packet)]
          (set_currentState (Some (Connected c)) m)
  | _ => m
  end.

Definition Connected_handleCommand (fuel : nat) (env : Env) (cmd : Z)
    (data : list Z) (m : LuminaStateManager) : Result LuminaStateManager :=
  match currentState m with
  | Some (Connected c) =>
      let len := length data in
      if cmd =? CMD_SET_COLOR then
        if (len <? 3)%nat then Ok m
        else
          do d0 <- payload_at data 0;
          do d1 <- payload_at data 1;
          do d2 <- payload_at data 2;
          let newColor := mkColor d0 d1 d2 in
          let m := emit [DeleteStrategy (ConnectedState.currentStrategy c)] m in
          Ok (set_currentState
                (Some (Connected (set_strategy (SolidColorStrategy newColor) c))) m)
      else if cmd =? CMD_SET_MOOD then
        if (len <? 4)%nat then Ok m
        else
          do moodType <- payload_at data 0;
          do d1 <- payload_at data 1;
          do d2 <- payload_at data 2;
          do d3 <- payload_at data 3;
          let color := mkColor d1 d2 d3 in
          let m := emit [DeleteStrategy (ConnectedState.currentStrategy c)] m in
          do strategy <-
            (if moodType =? 0 then Ok (CalmBreathingStrategy color)
             else if moodType =? 1 then Ok (FocusStrategy color)
             else if moodType =? 2 then
               if (10 <=? len)%nat then
                 do d4 <- payload_at data 4;
                 do d5 <- payload_at data 5;
                 do d6 <- payload_at data 6;
                 do d7 <- payload_at data 7;
                 do d8 <- payload_at data 8;
                 do d9 <- payload_at data 9;
                 Ok (PartyStrategy color (mkColor d4 d5 d6) (mkColor d7 d8 d9))
               else Ok (PartyStrategy color Colors.CONNECTED Colors.SEARCHING)
             else Ok (SolidColorStrategy color));
          Ok (set_currentState (Some (Connected (set_strategy strategy c))) m)
      else if cmd =? CMD_SET_BRIGHTNESS then
        if (len <? 1)%nat then Ok m
        else
          do brightness <- payload_at data 0;
          Ok (emit [LedSetBrightness brightness; LedShow] m)
      else if cmd =? CMD_GET_STATUS then Ok (sendHeartbeat env m)
      else if cmd =? CMD_OTA_START then
        transitionTo fuel env (Some createUpdatingState) m
      else if cmd =? CMD_RESET then
        Ok (reboot (delay 500 (mgr_clearCredentials env m)))
      else Ok (emit [Serial (DiagUnknownCommand cmd)] m)
  | _ => Ok m
  end.

(** ** ProvisioningState *)

Definition Provisioning_handleCommand (env : Env) (cmd : Z) (data : list Z)
    (m : LuminaStateManager) : Result LuminaStateManager :=
  let len := Z.of_nat (length data) in
  if cmd =? CMD_PROVISION then
    if len <? 2 then Ok (emit [Serial DiagInvalidProvisionData] m)
    else
      do ssidLen <- payload_at data 0;
      if (32 <? ssidLen) || (len <? ssidLen + 2)
      then Ok (emit [Serial DiagInvalidSsidLength] m)
      else
        do ssid <- parse_chars data 1 (Z.to_nat ssidLen);
        do passLen <- payload_at data (1 + Z.to_nat ssidLen);
        if (64 <? passLen) || (len <? ssidLen + passLen + 2)
        then Ok (emit [Serial DiagInvalidPasswordLength] m)
        else
          do password <- parse_chars data (2 + Z.to_nat ssidLen) (Z.to_nat passLen);
          let '(ok, m) := mgr_saveCredentials env ssid password m in
          if ok then
            let m := emit [UdpReply [STATUS_STATE; STATE_SEARCHING]] m in
            let m := emit (fill_ring (to32bit Colors.CONNECTED) ++ [LedShow]) m in
            Ok (reboot (delay 2000 m))
          else Ok m
  else if cmd =? CMD_GET_STATUS then
    let response := uninitialized env 32 in
    let response := <[0%nat := STATUS_STATE]> response in
    let response := <[1%nat := STATE_PROVISIONING]> response in
    let response := <[2%nat := lastBatteryPercent m]> response in
    let response := <[3%nat := uint8 (strlen FIRMWARE_VERSION)]> response in
    let n := Z.to_nat (buf_at response 3) in
    let response := memcpy response 4 (cstr_bytes FIRMWARE_VERSION) n in
    Ok (emit [UdpReply (take (4 + n) response)] m)
  else if cmd =? CMD_RESET then
    let m := mgr_clearCredentials env m in
    let m := emit [UdpReply [STATUS_STATE]] m in
    Ok (reboot (delay 1000 m))
  else Ok (emit [Serial (DiagUnknownCommand cmd)] m).

(** ** SearchingState *)

Definition Searching_handleCommand (env : Env) (cmd : Z) (data : list Z)
    (m : LuminaStateManager) : Result LuminaStateManager :=
  let len := Z.of_nat (length data) in
  if (cmd =? CMD_PROVISION) && (2 <=? len) then
    do ssidLen <- payload_at data 0;
    if (32 <? ssidLen) || (len <? ssidLen + 2) then Ok m
    else
      do newSSID <- parse_chars data 1 (Z.to_nat ssidLen);
      do passLen <- payload_at data (1 + Z.to_nat ssidLen);
      if (64 <? passLen) || (len <? ssidLen + passLen + 2) then Ok m
      else
        do newPassword <- parse_chars data (2 + Z.to_nat ssidLen) (Z.to_nat passLen);
        let '(ok, m) := mgr_saveCredentials env newSSID newPassword m in
        if ok then Ok (reboot (delay 1000 m)) else Ok m
  else if cmd =? CMD_RESET then
    Ok (reboot (mgr_clearCredentials env m))
  else Ok m.

(** ** UpdatingState *)

(** Modelled from the spec: the cause codes of [ota_error_t], declared in the
    OTA library's header: authorization failure 0, begin failure 1, connect
    failure 2, receive failure 3, end failure 4. *)
Definition OTA_AUTH_ERROR : Z := 0.
Definition OTA_BEGIN_ERROR : Z := 1.
Definition OTA_CONNECT_ERROR : Z := 2.
Definition OTA_RECEIVE_ERROR : Z := 3.
Definition OTA_END_ERROR : Z := 4.

Definition ota_errorMsg (error : Z) : string :=
  if error =? OTA_AUTH_ERROR then "Auth Failed"
  else if error =? OTA_BEGIN_ERROR then "Begin Failed"
  else if error =? OTA_CONNECT_ERROR then "Connect Failed"
  else if error =? OTA_RECEIVE_ERROR then "Receive Failed"
  else if error =? OTA_END_ERROR then "End Failed"
  else "Unknown".

(** One round of the red flash: ring red, 200 ms, ring dark, 200 ms. *)
Definition error_flash_round (m : LuminaStateManager) : LuminaStateManager :=
  let m := emit (fill_ring (to32bit Colors.ERROR_COLOR) ++ [LedShow]) m in
  let m := delay 200 m in
  let m := emit [LedClear; LedShow] m in
  delay 200 m.

(** The [ArduinoOTA.onError] callback installed by [setupOTA]. *)
Definition onError (fuel : nat) (env : Env) (error : Z) (m : LuminaStateManager)
    : Result LuminaStateManager :=
  let m := emit [Serial (DiagOtaError error (ota_errorMsg error))] m in
  let m := Nat.iter 3 error_flash_round m in
  let m := emit [Serial DiagRollingBack] m in
  let m := delay 1000 m in
  transitionTo fuel env (Some createConnectedState) m.

(** [manager->sendUDP(data, len)]. *)
Definition sendUDP (env : Env) (pkt : list Z) (m : LuminaStateManager)
    : bool * LuminaStateManager :=
  if negb (wifi_connected env) then (false, m)
  else (true, emit [UdpBroadcast UDP_PORT pkt] m).

Definition Updating_handleCommand (env : Env) (cmd : Z) (data : list Z)
    (m : LuminaStateManager) : Result LuminaStateManager :=
  match currentState m with
  | Some (Updating u) =>
      if cmd =? CMD_GET_STATUS then
        Ok (snd (sendUDP env
                   [STATUS_STATE; STATE_UPDATING; UpdatingState.lastProgress u] m))
      else Ok m
  | _ => Ok m
  end.

(** The virtual call [currentState->handleCommand(cmd, data, len)]. *)
Definition handleCommand (fuel : nat) (env : Env) (cmd : Z) (data : list Z)
    (m : LuminaStateManager) : Result LuminaStateManager :=
  match currentState m with
  | None => Ok m
  | Some (Searching _) => Searching_handleCommand env cmd data m
  | Some (Provisioning _) => Provisioning_handleCommand env cmd data m
  | Some (Connected _) => Connected_handleCommand fuel env cmd data m
  | Some (Updating _) => Updating_handleCommand env cmd data m
  end.

(** The manager as its constructor leaves it, over a given store. *)
Definition newManager (e : EEPROMClass) : LuminaStateManager :=
  mkManager None e 0 0 0 0 [].

(** ** Vocabulary of the properties *)

(** Whether the store holds loadable credentials. *)
Definition has_credentials (e : EEPROMClass) : bool :=
  fst (fst (loadCredentials EmptyString EmptyString e)).

(** [p] is what a reader of C strings gets from the String [s]: [p] holds no
    NUL, and it is [s] itself or the part of [s] before a NUL. *)
Definition reads_as_c_string (s p : string) : Prop :=
  (forall i c, String.get i p = Some c -> c <> zero) /\
  (p = s \/ exists rest, s = (p ++ String zero rest)%string).

(** The [EEPROM.write] calls that store the characters of [s] from [base]. *)
Definition field_writes (base : nat) (s : string) : list EEPROMOp :=
  map (fun i => OpWrite (base + i) (char_to_uint8 (charAt s i)))
      (seq 0 (String.length s)).

(** The last [EEPROM.write] of an operation log, if any. *)
Fixpoint last_write (ops : list EEPROMOp) : option (nat * Z) :=
  match ops with
  | [] => None
  | OpWrite a v :: ops' =>
      match last_write ops' with
      | Some w => Some w
      | None => Some (a, v)
      end
  | OpCommit _ :: ops' => last_write ops'
  end.

(** The sentinel is the final write of the log. *)
Definition sentinel_written_last (ops : list EEPROMOp) : bool :=
  match last_write ops with
  | Some (a, v) => (a =? ADDR_MAGIC)%nat && (v =? EEPROM_MAGIC)
  | None => false
  end.

(** [transitionTo] announces itself on entry and reports the heap on return;
    the depth of a trace counts the calls that are open at once. *)
Definition opens_transition (e : Effect) : bool :=
  match e with
  | Serial (DiagTransitioning _ _) => true
  | Serial (DiagInitialState _) => true
  | _ => false
  end.

Definition closes_transition (e : Effect) : bool :=
  match e with
  | Serial (DiagHeapAfterTransition _) => true
  | _ => false
  end.

Fixpoint max_depth (cur : nat) (tr : list Effect) : nat :=
  match tr with
  | [] => cur
  | e :: tr' =>
      let next := if opens_transition e then S cur
                  else if closes_transition e then Nat.pred cur
                  else cur in
      Nat.max cur (max_depth next tr')
  end.

Definition never_nested (tr : list Effect) : Prop := (max_depth 0 tr <= 1)%nat.

(** The red flash of the update-error path, as the ring shows it. *)
Definition error_flash_sequence : list Effect :=
  let round := fill_ring (to32bit Colors.ERROR_COLOR)
               ++ [LedShow; Delay 200; LedClear; LedShow; Delay 200] in
  round ++ round ++ round.

(** A trace never reports entering Searching or Provisioning. *)
Definition enters_searching_or_provisioning (e : Effect) : bool :=
  match e with
  | Serial (DiagEntering name) =>
      String.eqb name "Searching" || String.eqb name "Provisioning"
  | _ => false
  end.

(** A provision payload that is undersized or whose declared lengths do not
    fit: fewer than two bytes, an SSID length above 32 or running past the
    end, a password length above 64 or running past the end. *)
Definition provision_malformed (data : list Z) : bool :=
  let len := Z.of_nat (length data) in
  match data !! 0%nat with
  | None => true
  | Some ssidLen =>
      (len <? 2) || (32 <? ssidLen) || (len <? ssidLen + 2) ||
      match data !! (1 + Z.to_nat ssidLen)%nat with
      | None => true
      | Some passLen => (64 <? passLen) || (len <? ssidLen + passLen + 2)
      end
  end.

(** IEEE-754 binary32: the value nearest to [num / den] and the encoding of a
    binary32 value as a 32-bit word. *)
Definition binary32_of_ratio (num den : Z) : spec_float :=
  SFdiv 24 128 (binary_normalize 24 128 num 0 false)
               (binary_normalize 24 128 den 0 false).

Definition binary32_bits (f : spec_float) : Z :=
  match f with
  | S754_zero s => if s then 0x80000000 else 0
  | S754_infinity s => (if s then 0x80000000 else 0) + 0x7F800000
  | S754_nan => 0x7FC00000
  | S754_finite s mant e =>
      (if s then 0x80000000 else 0) +
      (if Z.pos mant <? 2 ^ 23 then Z.pos mant
       else (e + 150) * 2 ^ 23 + (Z.pos mant - 2 ^ 23))
  end.


(** The first half of [transitionTo]: announce, run the exit hook of the
    current state and release it. *)
Definition leave (to : string) (m : LuminaStateManager) : LuminaStateManager :=
  match currentState m with
  | Some cur =>
      delete_currentState
        (onExit (emit [Serial (DiagTransitioning (getName cur) to)] m))
  | None => emit [Serial (DiagInitialState to)] m
  end.

(** What leaving the current state for a state named [to] shows: the
    announcement, the exit hook, the destructor and the release. *)
Definition leave_effects (to : string) (m : LuminaStateManager) : list Effect :=
  match currentState m with
  | None => [Serial (DiagInitialState to)]
  | Some (Searching _) =>
      [Serial (DiagTransitioning "Searching" to);
       Serial (DiagExiting "Searching"); LedClear; LedShow;
       DeleteState "Searching"]
  | Some (Provisioning _) =>
      [Serial (DiagTransitioning "Provisioning" to);
       Serial (DiagExiting "Provisioning"); UdpStop; WifiSoftAPdisconnect;
       LedClear; LedShow; UdpStop; DeleteState "Provisioning"]
  | Some (Connected c) =>
      [Serial (DiagTransitioning "Connected" to);
       Serial (DiagExiting "Connected"); UdpStop; LedClear; LedShow;
       DeleteStrategy (ConnectedState.currentStrategy c); UdpStop;
       DeleteState "Connected"]
  | Some (Updating _) =>
      [Serial (DiagTransitioning "Updating" to);
       Serial (DiagExiting "Updating"); OtaEnd; LedClear; LedShow;
       DeleteState "Updating"]
  end.

(** What entering Provisioning and entering Connected show. *)
Definition provisioning_enter_effects : list Effect :=
  [Serial (DiagEntering "Provisioning"); WifiDisconnect; Delay 100;
   WifiModeAP; WifiSoftAP AP_SSID AP_PASSWORD; UdpBegin UDP_PORT].

Definition connected_enter_effects : list Effect :=
  [Serial (DiagEntering "Connected"); UdpBegin UDP_PORT]
  ++ fill_ring (to32bit Colors.CONNECTED) ++ [LedShow; Delay 500].

(** ** Sample inputs *)

Definition erased_store : EEPROMClass := EEPROM_begin EEPROM_SIZE (fun _ => 0xFF).

Definition env_online : Env := mkEnv true (-60) 30000 true (fun _ => 0xCC).
Definition env_offline : Env := mkEnv false (-60) 30000 true (fun _ => 0xCC).

Definition ssid33 : string := "123456789012345678901234567890123".

(** A manager in Connected, five seconds after the last heartbeat slot, with
    battery telemetry 81 % and 3.9 V. *)
Definition manager_connected_sample : LuminaStateManager :=
  mkManager (Some createConnectedState) erased_store 0
    (binary32_bits (binary32_of_ratio 39 10)) 81 6000 [].

(** * The remaining timers, animations and handlers

    The parts below follow the same conventions.  Serial prints are left out
    of the trace; a three-argument [setPixelColor(i, r, g, b)] is logged with
    the packed colour [r << 16 | g << 8 | b]; the two broadcast destinations
    (the subnet's and 255.255.255.255) are both logged as [UdpBroadcast]. *)

(** ** Config.h: animation settings *)

Definition PULSE_SPEED : Z := 50.

(** ** States.h: the timeout helper *)

Definition stateStartTime (s : LuminaState) : Z :=
  match s with
  | Searching d => SearchingState.stateStartTime d
  | Provisioning d => ProvisioningState.stateStartTime d
  | Connected d => ConnectedState.stateStartTime d
  | Updating d => UpdatingState.stateStartTime d
  end.

(** [hasTimedOut(timeout)], with [now] the reading of [millis()]. *)
Definition hasTimedOut (timeout now : Z) (s : LuminaState) : bool :=
  timeout <? uint32 (now - stateStartTime s).

(** ** LuminaStateManager::update: the heap watch

    The block keeps two function-local statics; [now] and [now'] are the two
    readings of [millis()] it takes.  The flag tells whether the leak
    diagnostic is printed. *)

Record HeapWatch : Type := mkHeapWatch {
  lastHeap : Z;
  lastHeapCheck : Z
}.

Definition heap_watch (now now' currentHeap : Z) (w : HeapWatch)
    : bool * HeapWatch :=
  if 30000 <? uint32 (now - lastHeapCheck w) then
    (1024 <? uint32 (lastHeap w - currentHeap), mkHeapWatch currentHeap now')
  else (false, w).

(** ** SearchingState: animation, connection attempts, timeout *)

(** Arduino's [map(x, in_min, in_max, out_min, out_max)] on [long]. *)
Definition arduino_map (x in_min in_max out_min out_max : Z) : Z :=
  Z.quot ((x - in_min) * (out_max - out_min)) (in_max - in_min) + out_min.

Definition updatePulseAnimation (m : LuminaStateManager) : LuminaStateManager :=
  match currentState m with
  | Some (Searching s) =>
      if uint32 (millis m - SearchingState.lastPulseUpdate s) <? PULSE_SPEED then m
      else
        let '(pulseValue, pulseDirection) :=
          if SearchingState.pulseDirection s then
            let v := uint8 (SearchingState.pulseValue s + 5) in
            if BRIGHTNESS_MAX <=? v then (BRIGHTNESS_MAX, false) else (v, true)
          else
            let v := uint8 (SearchingState.pulseValue s - 5) in
            if v <=? BRIGHTNESS_MIN then (BRIGHTNESS_MIN, true) else (v, false) in
        let scaledBlue := uint8 (arduino_map pulseValue 0 255 0 (b Colors.SEARCHING)) in
        let s := SearchingState.mk (SearchingState.stateStartTime s)
                   pulseValue pulseDirection (millis m)
                   (SearchingState.ssid s) (SearchingState.password s)
                   (SearchingState.lastConnectionAttempt s) in
        emit (fill_ring (to32bit (mkColor 0 0 scaledBlue)) ++ [LedShow])
          (set_currentState (Some (Searching s)) m)
  | _ => m
  end.

Definition attemptConnection (fuel : nat) (env : Env) (m : LuminaStateManager)
    : Result LuminaStateManager :=
  match currentState m with
  | Some (Searching s) =>
      if uint32 (millis m - SearchingState.lastConnectionAttempt s) <? 5000 then Ok m
      else
        let s := SearchingState.mk (SearchingState.stateStartTime s)
                   (SearchingState.pulseValue s) (SearchingState.pulseDirection s)
                   (SearchingState.lastPulseUpdate s)
                   (SearchingState.ssid s) (SearchingState.password s)
                   (millis m) in
        let m := set_currentState (Some (Searching s)) m in
        if wifi_connected env
        then transitionTo fuel env (Some createConnectedState) m
        else Ok m
  | _ => Ok m
  end.

(** ** ProvisioningState: animation, presence broadcast, timeout *)

Definition updateOrangeAnimation (m : LuminaStateManager) : LuminaStateManager :=
  match currentState m with
  | Some (Provisioning p) =>
      if uint32 (millis m - ProvisioningState.lastAnimUpdate p) <? 100 then m
      else
        let phase := ProvisioningState.orangePhase p in
        let segments :=
          map (fun i => LedSetPixelColor
                          (Z.to_nat ((phase + i * 4) mod Z.of_nat LED_COUNT))
                          (to32bit Colors.PROVISIONING))
              [0; 1; 2; 3] in
        let p := ProvisioningState.mk (ProvisioningState.stateStartTime p)
                   (ProvisioningState.lastBroadcast p)
                   (uint8 ((phase + 1) mod Z.of_nat LED_COUNT))
                   (millis m) in
        emit ([LedClear] ++ segments ++ [LedShow])
          (set_currentState (Some (Provisioning p)) m)
  | _ => m
  end.

Definition broadcastPresence (env : Env) (m : LuminaStateManager)
    : LuminaStateManager :=
  match currentState m with
  | Some (Provisioning p) =>
      if uint32 (millis m - ProvisioningState.lastBroadcast p) <? 2000 then m
      else
        let p := ProvisioningState.mk (ProvisioningState.stateStartTime p)
                   (millis m) (ProvisioningState.orangePhase p)
                   (ProvisioningState.lastAnimUpdate p) in
        let packet := uninitialized env 64 in
        let packet := <[0%nat := STATUS_STATE]> packet in
        let packet := <[1%nat := STATE_PROVISIONING]> packet in
        let packet := <[2%nat := uint8 (strlen DEVICE_NAME)]> packet in
        let n := Z.to_nat (buf_at packet 2) in
        let packet := memcpy packet 3 (cstr_bytes DEVICE_NAME) n in
        emit [UdpBroadcast UDP_PORT (take (3 + n) packet)]
          (set_currentState (Some (Provisioning p)) m)
  | _ => m
  end.

Definition Provisioning_handleTimeout (fuel : nat) (env : Env)
    (m : LuminaStateManager) : Result LuminaStateManager :=
  transitionTo fuel env (Some createSearchingState) m.

(** ** ConnectedState: link check and the integer lighting strategies *)

Definition checkConnection (fuel : nat) (env : Env) (m : LuminaStateManager)
    : Result LuminaStateManager :=
  match currentState m with
  | Some (Connected c) =>
      if uint32 (millis m - ConnectedState.connectionCheckTime c) <? 5000 then Ok m
      else
        let c := ConnectedState.mk (ConnectedState.stateStartTime c)
                   (ConnectedState.currentStrategy c)
                   (ConnectedState.lastHeartbeat c)
                   (ConnectedState.lastStrategyUpdate c) (millis m) in
        let m := set_currentState (Some (Connected c)) m in
        if negb (wifi_connected env)
        then transitionTo fuel env (Some createSearchingState) m
        else Ok m
  | _ => Ok m
  end.

(** The colour [PartyStrategy::apply] gives to a ring position. *)
Definition Party_band (color1 color2 color3 : Color) (pos : Z) : Color :=
  if pos <? Z.of_nat LED_COUNT / 3 then color1
  else if pos <? 2 * Z.of_nat LED_COUNT / 3 then color2
  else color3.

(** [PartyStrategy::apply]. *)
Definition Party_apply (color1 color2 color3 : Color) (time : Z) : list Effect :=
  let offset := (time / 50) mod Z.of_nat LED_COUNT in
  map (fun i =>
         let pos := (Z.of_nat i + offset) mod Z.of_nat LED_COUNT in
         LedSetPixelColor i (to32bit (Party_band color1 color2 color3 pos)))
      (seq 0 LED_COUNT)
  ++ [LedShow].

(** ** UpdatingState: animation and the start, progress and end callbacks *)

Definition set_lastProgress (v : Z) (u : UpdatingState.t) : UpdatingState.t :=
  UpdatingState.mk (UpdatingState.stateStartTime u) (UpdatingState.lastPulse u)
    (UpdatingState.yellowBrightness u) (UpdatingState.pulseDirection u)
    (UpdatingState.otaConfigured u) v (UpdatingState.previousState u).

Definition updateYellowPulse (m : LuminaStateManager) : LuminaStateManager :=
  match currentState m with
  | Some (Updating u) =>
      if uint32 (millis m - UpdatingState.lastPulse u) <? 30 then m
      else
        let '(yellowBrightness, pulseDirection) :=
          if UpdatingState.pulseDirection u then
            let v := uint8 (UpdatingState.yellowBrightness u + 10) in
            if 200 <=? v then (200, false) else (v, true)
          else
            let v := uint8 (UpdatingState.yellowBrightness u - 10) in
            if v <=? 20 then (20, true) else (v, false) in
        let u := UpdatingState.mk (UpdatingState.stateStartTime u) (millis m)
                   yellowBrightness pulseDirection
                   (UpdatingState.otaConfigured u) (UpdatingState.lastProgress u)
                   (UpdatingState.previousState u) in
        emit (fill_ring (to32bit (mkColor yellowBrightness yellowBrightness 0))
              ++ [LedShow])
          (set_currentState (Some (Updating u)) m)
  | _ => m
  end.

Definition showProgress (percent : Z) (m : LuminaStateManager)
    : LuminaStateManager :=
  match currentState m with
  | Some (Updating u) =>
      if percent =? UpdatingState.lastProgress u then m
      else
        let ledsToLight := Z.to_nat (Z.quot (percent * Z.of_nat LED_COUNT) 100) in
        emit ([LedClear]
              ++ map (fun i => LedSetPixelColor i (to32bit Colors.UPDATING))
                     (seq 0 ledsToLight)
              ++ [LedShow])
          (set_currentState (Some (Updating (set_lastProgress percent u))) m)
  | _ => m
  end.

(** The [onProgress] callback; [unsigned int] arithmetic, and no answer when
    [total] is zero (the division traps). *)
Definition onProgress (progress total : Z) (m : LuminaStateManager)
    : option LuminaStateManager :=
  if total =? 0 then None
  else Some (showProgress (uint8 (uint32 (progress * 100) / total)) m).

(** The [onEnd] callback. *)
Definition onEnd (m : LuminaStateManager) : LuminaStateManager :=
  fold_left
    (fun m i =>
       delay 50 (emit [LedSetPixelColor i (to32bit Colors.CONNECTED); LedShow] m))
    (seq 0 LED_COUNT) m.

(** ** Vocabulary of the further properties *)

(** The payload of a provision command carrying [ssid] and [password]. *)
Definition provision_payload (ssid password : string) : list Z :=
  [strlen ssid] ++ cstr_bytes ssid ++ [strlen password] ++ cstr_bytes password.

(** The pixels a list of effects writes, with their colours. *)
Fixpoint pixel_writes (evs : list Effect) : list (nat * Z) :=
  match evs with
  | [] => []
  | LedSetPixelColor i c :: evs' => (i, c) :: pixel_writes evs'
  | _ :: evs' => pixel_writes evs'
  end.

(** The datagrams a list of effects sends, broadcasts and replies alike. *)
Fixpoint datagrams (evs : list Effect) : list (list Z) :=
  match evs with
  | [] => []
  | UdpBroadcast _ pkt :: evs' => pkt :: datagrams evs'
  | UdpReply pkt :: evs' => pkt :: datagrams evs'
  | _ :: evs' => datagrams evs'
  end.

Definition is_Restart (e : Effect) : bool :=
  match e with
  | Restart => true
  | _ => false
  end.


(** ** Further sample inputs *)

(** A manager in Searching with loaded credentials, one second after entry. *)
Definition manager_searching_sample : LuminaStateManager :=
  mkManager (Some (Searching (SearchingState.mk 0 198 true 0 "MyNet" "secret123" 0)))
    erased_store 0 0 0 1000 [].

(** A manager in Updating with the update service armed. *)
Definition manager_updating_sample : LuminaStateManager :=
  mkManager (Some (Updating (UpdatingState.mk 0 0 20 true true 0 None)))
    erased_store 0 0 0 1000 [].

(** A manager in Provisioning, three seconds after entry. *)
Definition manager_provisioning_sample : LuminaStateManager :=
  mkManager (Some (Provisioning (ProvisioningState.mk 0 0 0 100)))
    erased_store 0 0 77 3000 [].

(** A manager in Provisioning half a second after its last presence packet,
    and one in Connected one second after its last heartbeat. *)
Definition manager_provisioning_recent : LuminaStateManager :=
  mkManager (Some (Provisioning (ProvisioningState.mk 0 2500 0 100)))
    erased_store 0 0 77 3000 [].

Definition manager_connected_recent : LuminaStateManager :=
  mkManager
    (Some (Connected (ConnectedState.mk 0 (CalmBreathingStrategy Colors.CONNECTED)
                        5000 0 0)))
    erased_store 0 0 81 6000 [].

(** The erased store after "MyNet" / "secret123" were saved. *)
Definition saved_store : EEPROMClass :=
  snd (saveCredentials true "MyNet" "secret123" erased_store).

(** A manager in Searching whose last connection attempt is six seconds old. *)
Definition manager_searching_due : LuminaStateManager :=
  mkManager (Some (Searching (SearchingState.mk 0 198 true 0 "MyNet" "secret123" 0)))
    saved_store 0 0 0 6000 [].

(** An environment whose flash refuses to commit. *)
Definition env_flash_failing : Env := mkEnv true (-60) 30000 false (fun _ => 0xCC).

(** * Properties *)

(** ** Characters and bytes *)

Lemma char_to_uint8_range (c : ascii) : 0 <= char_to_uint8 c < 256.
Proof.
  unfold char_to_uint8. pose proof (N_ascii_bounded c). lia.
Qed.

Lemma uint8_char (c : ascii) : uint8 (char_to_uint8 c) = char_to_uint8 c.
Proof.
  unfold uint8. apply Z.mod_small, char_to_uint8_range.
Qed.

Lemma char_roundtrip (c : ascii) : uint8_to_char (char_to_uint8 c) = c.
Proof.
  unfold uint8_to_char, char_to_uint8.
  rewrite N2Z.id. apply ascii_N_embedding.
Qed.

Lemma uint8_small (z : Z) : 0 <= z < 256 -> uint8 z = z.
Proof. intros H. unfold uint8. now apply Z.mod_small. Qed.

Lemma append_char_assoc (acc s : string) (c : ascii) :
  (append_char acc c ++ s)%string = (acc ++ String c s)%string.
Proof.
  unfold append_char. induction acc as [|a acc IH]; simpl.
  - reflexivity.
  - now rewrite IH.
Qed.

Lemma append_empty_r (s : string) : (s ++ EmptyString)%string = s.
Proof.
  induction s as [|a s IH]; simpl; [reflexivity | now rewrite IH].
Qed.

(** ** The byte store *)

Section Store.

Implicit Types (e : EEPROMClass) (a : nat) (v : Z).

Lemma write_length a v e :
  length (cells (EEPROM_write a v e)) = length (cells e).
Proof.
  unfold EEPROM_write; simpl.
  destruct (a <? length (cells e))%nat; [apply length_insert | reflexivity].
Qed.

Lemma read_write_eq a v e :
  (a < length (cells e))%nat -> EEPROM_read a (EEPROM_write a v e) = uint8 v.
Proof.
  intros Hlt. unfold EEPROM_read, EEPROM_write; simpl.
  apply Nat.ltb_lt in Hlt as Hb. rewrite Hb.
  now rewrite list_lookup_insert_eq.
Qed.

Lemma read_write_ne a a' v e :
  a <> a' -> EEPROM_read a (EEPROM_write a' v e) = EEPROM_read a e.
Proof.
  intros Hne. unfold EEPROM_read, EEPROM_write; simpl.
  destruct (a' <? length (cells e))%nat; [|reflexivity].
  rewrite list_lookup_insert_ne; [reflexivity | congruence].
Qed.

Lemma write_oplog a v e :
  oplog (EEPROM_write a v e) = oplog e ++ [OpWrite a (uint8 v)].
Proof. reflexivity. Qed.

(** The character loops, started at an arbitrary index [k]. *)

Variables (base : nat) (s : string).

Lemma write_loop_length n : forall k e,
  length (cells (fold_left (store_char base s) (seq k n) e)) = length (cells e).
Proof.
  induction n as [|n IH]; intros k e; simpl; [reflexivity|].
  rewrite IH. apply write_length.
Qed.

Lemma write_loop_outside n : forall k e a,
  (a < base + k \/ base + k + n <= a)%nat ->
  EEPROM_read a (fold_left (store_char base s) (seq k n) e) = EEPROM_read a e.
Proof.
  induction n as [|n IH]; intros k e a Ha; simpl; [reflexivity|].
  rewrite IH by lia. apply read_write_ne. lia.
Qed.

Lemma write_loop_inside n : forall k e i,
  (k <= i < k + n)%nat ->
  (base + k + n <= length (cells e))%nat ->
  EEPROM_read (base + i) (fold_left (store_char base s) (seq k n) e)
  = char_to_uint8 (charAt s i).
Proof.
  induction n as [|n IH]; intros k e i Hi Hlen; simpl; [lia|].
  destruct (Nat.eq_dec i k) as [->|Hne].
  - rewrite write_loop_outside by lia.
    unfold store_char. rewrite read_write_eq by lia. apply uint8_char.
  - apply IH; [lia|]. unfold store_char. rewrite write_length. lia.
Qed.

Lemma write_loop_oplog n : forall k e,
  oplog (fold_left (store_char base s) (seq k n) e)
  = oplog e ++ map (fun i => OpWrite (base + i) (char_to_uint8 (charAt s i)))
                   (seq k n).
Proof.
  induction n as [|n IH]; intros k e; simpl.
  - now rewrite app_nil_r.
  - rewrite IH. unfold store_char. rewrite write_oplog, uint8_char.
    now rewrite <- app_assoc.
Qed.

End Store.

Lemma write_chars_length base s e :
  length (cells (write_chars base s e)) = length (cells e).
Proof. apply write_loop_length. Qed.

Lemma write_chars_outside base s e a :
  (a < base \/ base + String.length s <= a)%nat ->
  EEPROM_read a (write_chars base s e) = EEPROM_read a e.
Proof. intros H. apply write_loop_outside. lia. Qed.

Lemma write_chars_inside base s e i :
  (i < String.length s)%nat ->
  (base + String.length s <= length (cells e))%nat ->
  EEPROM_read (base + i) (write_chars base s e) = char_to_uint8 (charAt s i).
Proof. intros Hi Hlen. apply write_loop_inside; lia. Qed.

Lemma write_chars_oplog base s e :
  oplog (write_chars base s e) = oplog e ++ field_writes base s.
Proof. apply write_loop_oplog. Qed.

(** Reading back a field whose cells hold the characters of [s]. *)
Lemma read_loop base e : forall s k acc,
  (forall i, (i < String.length s)%nat ->
             EEPROM_read (base + (k + i)) e = char_to_uint8 (charAt s i)) ->
  fold_left
    (fun s i => append_char s (uint8_to_char (EEPROM_read (base + i) e)))
    (seq k (String.length s)) acc
  = (acc ++ s)%string.
Proof.
  induction s as [|c s IH]; intros k acc H; simpl.
  - now rewrite append_empty_r.
  - specialize (H 0%nat) as H0. simpl in H0.
    rewrite Nat.add_0_r in H0. rewrite H0 by lia.
    unfold charAt at 1; simpl. rewrite char_roundtrip.
    rewrite IH.
    + apply append_char_assoc.
    + intros i Hi. specialize (H (S i)). simpl in H.
      replace (S k + i)%nat with (k + S i)%nat by lia.
      rewrite H by lia. reflexivity.
Qed.

Lemma read_chars_spec base s e :
  (forall i, (i < String.length s)%nat ->
             EEPROM_read (base + i) e = char_to_uint8 (charAt s i)) ->
  read_chars base (String.length s) e = s.
Proof.
  intros H. unfold read_chars. rewrite (read_loop base e s 0 EmptyString).
  - reflexivity.
  - intros i Hi. simpl. now apply H.
Qed.

(** ** Credential store *)

Lemma strlen_uint8 (s : string) (n : nat) :
  (String.length s <= n)%nat -> (n < 256)%nat -> uint8 (strlen s) = strlen s.
Proof.
  intros H Hn. apply uint8_small. unfold strlen. lia.
Qed.

Lemma save_accepts ok ssid password e :
  (String.length ssid <= 32)%nat -> (String.length password <= 64)%nat ->
  saveCredentials ok ssid password e
  = EEPROM_commit ok
      (write_chars ADDR_PASS password
         (EEPROM_write ADDR_PASS_LEN (strlen password)
            (write_chars ADDR_SSID ssid
               (EEPROM_write ADDR_SSID_LEN (strlen ssid)
                  (EEPROM_write ADDR_MAGIC EEPROM_MAGIC e))))).
Proof.
  intros Hs Hp. unfold saveCredentials.
  assert ((32 <? String.length ssid)%nat = false) as -> by (apply Nat.ltb_ge; lia).
  assert ((64 <? String.length password)%nat = false) as -> by (apply Nat.ltb_ge; lia).
  reflexivity.
Qed.

(** C2, amended: for every SSID of at most 32 bytes and password of at most 64
    bytes, saveCredentials writes the validity sentinel first, then the length
    byte and the bytes of the SSID, then the length byte and the bytes of the
    password, and commits after all of these writes. *)
Theorem save_writes_sentinel_first :
  forall (ok : bool) (ssid password : string) (e : EEPROMClass),
    (String.length ssid <= 32)%nat ->
    (String.length password <= 64)%nat ->
    oplog (snd (saveCredentials ok ssid password e))
    = oplog e
      ++ [OpWrite ADDR_MAGIC EEPROM_MAGIC]
      ++ [OpWrite ADDR_SSID_LEN (strlen ssid)] ++ field_writes ADDR_SSID ssid
      ++ [OpWrite ADDR_PASS_LEN (strlen password)] ++ field_writes ADDR_PASS password
      ++ [OpCommit ok].
Proof.
  intros ok ssid password e Hs Hp.
  rewrite save_accepts by assumption. simpl.
  rewrite write_chars_oplog, write_oplog, write_chars_oplog, !write_oplog.
  rewrite (strlen_uint8 ssid 32), (strlen_uint8 password 64) by lia.
  rewrite <- !app_assoc. reflexivity.
Qed.

Lemma save_writes_sentinel_first_witness :
  oplog (snd (saveCredentials true "MyNet" "secret123" erased_store))
  = oplog erased_store
    ++ [OpWrite ADDR_MAGIC EEPROM_MAGIC]
    ++ [OpWrite ADDR_SSID_LEN (strlen "MyNet")] ++ field_writes ADDR_SSID "MyNet"
    ++ [OpWrite ADDR_PASS_LEN (strlen "secret123")]
    ++ field_writes ADDR_PASS "secret123"
    ++ [OpCommit true].
Proof.
  apply (save_writes_sentinel_first true "MyNet" "secret123" erased_store);
    simpl; lia.
Defined.

(** C2 as stated fails: saving "MyNet" / "secret123" issues the sentinel write
    before every field write, and the last write is a password byte. *)
Lemma save_sentinel_last_counterexample :
  (String.length "MyNet" <= 32)%nat /\
  (String.length "secret123" <= 64)%nat /\
  hd_error (oplog (snd (saveCredentials true "MyNet" "secret123" erased_store)))
  = Some (OpWrite ADDR_MAGIC EEPROM_MAGIC) /\
  last_write (oplog (snd (saveCredentials true "MyNet" "secret123" erased_store)))
  = Some (43%nat, 51) /\
  sentinel_written_last
    (oplog (snd (saveCredentials true "MyNet" "secret123" erased_store))) = false.
Proof.
  repeat split; try (simpl; lia); vm_compute; reflexivity.
Qed.

(** C4: an SSID longer than 32 bytes or a password longer than 64 bytes makes
    saveCredentials return failure without any write: the store, cells and
    operation log alike, is exactly as before the call. *)
Theorem save_rejects_oversized :
  forall (ok : bool) (ssid password : string) (e : EEPROMClass),
    (32 < String.length ssid)%nat \/ (64 < String.length password)%nat ->
    saveCredentials ok ssid password e = (false, e).
Proof.
  intros ok ssid password e H. unfold saveCredentials.
  destruct H as [H|H]; apply Nat.ltb_lt in H; rewrite H.
  - reflexivity.
  - now rewrite orb_true_r.
Qed.

Lemma save_rejects_oversized_witness :
  String.length ssid33 = 33%nat /\
  saveCredentials true ssid33 "secret123" erased_store = (false, erased_store).
Proof.
  split; [reflexivity|].
  apply (save_rejects_oversized true ssid33 "secret123" erased_store).
  left. simpl. lia.
Defined.

(** C3: for an SSID of at most 32 bytes and a password of at most 64 bytes,
    over a store of EEPROM_SIZE cells, a saveCredentials that reports success
    is followed by a loadCredentials that succeeds and returns exactly that
    SSID and password. *)
Theorem save_then_load_roundtrip :
  forall (ok : bool) (ssid password s0 p0 : string) (e e' : EEPROMClass),
    (String.length ssid <= 32)%nat ->
    (String.length password <= 64)%nat ->
    length (cells e) = EEPROM_SIZE ->
    saveCredentials ok ssid password e = (true, e') ->
    loadCredentials s0 p0 e' = (true, ssid, password).
Proof.
  intros ok ssid password s0 p0 e e' Hs Hp Hsize Hsave.
  rewrite save_accepts in Hsave by assumption.
  unfold EEPROM_commit in Hsave. injection Hsave as _ <-.
  set (e1 := EEPROM_write ADDR_MAGIC EEPROM_MAGIC e).
  set (e2 := EEPROM_write ADDR_SSID_LEN (strlen ssid) e1).
  set (e3 := write_chars ADDR_SSID ssid e2).
  set (e4 := EEPROM_write ADDR_PASS_LEN (strlen password) e3).
  set (e5 := write_chars ADDR_PASS password e4).
  assert (L1 : length (cells e1) = 512%nat) by (unfold e1; now rewrite write_length).
  assert (L2 : length (cells e2) = 512%nat) by (unfold e2; now rewrite write_length).
  assert (L3 : length (cells e3) = 512%nat) by (unfold e3; now rewrite write_chars_length).
  assert (L4 : length (cells e4) = 512%nat) by (unfold e4; now rewrite write_length).
  unfold ADDR_MAGIC, ADDR_SSID_LEN, ADDR_SSID, ADDR_PASS_LEN, ADDR_PASS in *.
  assert (Rmagic : EEPROM_read 0 e5 = EEPROM_MAGIC).
  { unfold e5. rewrite write_chars_outside by lia.
    unfold e4. rewrite read_write_ne by lia.
    unfold e3. rewrite write_chars_outside by lia.
    unfold e2. rewrite read_write_ne by lia.
    unfold e1. rewrite read_write_eq by (rewrite Hsize; unfold EEPROM_SIZE; lia).
    reflexivity. }
  assert (Rslen : EEPROM_read 1 e5 = strlen ssid).
  { unfold e5. rewrite write_chars_outside by lia.
    unfold e4. rewrite read_write_ne by lia.
    unfold e3. rewrite write_chars_outside by lia.
    unfold e2. rewrite read_write_eq by lia.
    apply (strlen_uint8 ssid 32); lia. }
  assert (Rplen : EEPROM_read 34 e5 = strlen password).
  { unfold e5. rewrite write_chars_outside by lia.
    unfold e4. rewrite read_write_eq by lia.
    apply (strlen_uint8 password 64); lia. }
  assert (Rssid : read_chars 2 (String.length ssid) e5 = ssid).
  { apply read_chars_spec. intros i Hi.
    unfold e5. rewrite write_chars_outside by lia.
    unfold e4. rewrite read_write_ne by lia.
    unfold e3. apply write_chars_inside; lia. }
  assert (Rpass : read_chars 35 (String.length password) e5 = password).
  { apply read_chars_spec. intros i Hi.
    unfold e5. apply write_chars_inside; lia. }
  unfold loadCredentials; simpl cells.
  change (mkEEPROM (cells e5) (oplog e5 ++ [OpCommit ok])) with
    (snd (EEPROM_commit ok e5)).
  assert (Rd : forall a, EEPROM_read a (snd (EEPROM_commit ok e5)) = EEPROM_read a e5)
    by reflexivity.
  assert (Rc : forall b n, read_chars b n (snd (EEPROM_commit ok e5)) = read_chars b n e5)
    by reflexivity.
  unfold ADDR_MAGIC, ADDR_SSID_LEN, ADDR_SSID, ADDR_PASS_LEN, ADDR_PASS.
  rewrite !Rd, !Rc, Rmagic, Rslen, Rplen.
  rewrite Z.eqb_refl. simpl negb. cbv iota.
  assert ((32 <? strlen ssid) = false) as -> by (apply Z.ltb_ge; unfold strlen; lia).
  assert ((64 <? strlen password) = false) as -> by (apply Z.ltb_ge; unfold strlen; lia).
  unfold strlen. rewrite !Nat2Z.id, Rssid, Rpass. reflexivity.
Qed.

Lemma save_then_load_roundtrip_witness :
  exists e',
    saveCredentials true "MyNet" "secret123" erased_store = (true, e') /\
    loadCredentials EmptyString EmptyString e' = (true, "MyNet"%string, "secret123"%string).
Proof.
  exists (snd (saveCredentials true "MyNet" "secret123" erased_store)).
  split; [reflexivity|].
  apply (save_then_load_roundtrip true "MyNet" "secret123" EmptyString EmptyString
           erased_store).
  - simpl; lia.
  - simpl; lia.
  - reflexivity.
  - reflexivity.
Defined.

(** C5: whatever the store held, after clearCredentials a loadCredentials
    reports absence (and leaves its two out-parameters alone), and
    clearCredentials writes the sentinel cell only: every other cell, so every
    length byte and field byte, reads as before. *)
Theorem clear_then_load_absent :
  forall (ok : bool) (e : EEPROMClass) (s0 p0 : string),
    loadCredentials s0 p0 (clearCredentials ok e) = (false, s0, p0) /\
    (forall a : nat, a <> ADDR_MAGIC ->
       EEPROM_read a (clearCredentials ok e) = EEPROM_read a e) /\
    length (cells (clearCredentials ok e)) = length (cells e) /\
    oplog (clearCredentials ok e)
    = oplog e ++ [OpWrite ADDR_MAGIC 0; OpCommit ok].
Proof.
  intros ok e s0 p0.
  assert (Rd : forall a, EEPROM_read a (clearCredentials ok e)
                         = EEPROM_read a (EEPROM_write ADDR_MAGIC 0 e))
    by reflexivity.
  repeat split.
  - unfold loadCredentials. rewrite Rd.
    assert (EEPROM_read ADDR_MAGIC (EEPROM_write ADDR_MAGIC 0 e) = 0) as ->.
    { destruct (Nat.lt_ge_cases ADDR_MAGIC (length (cells e))) as [Hlt|Hge].
      - now rewrite read_write_eq.
      - unfold EEPROM_read. rewrite lookup_ge_None_2; [reflexivity|].
        now rewrite write_length. }
    reflexivity.
  - intros a Ha. rewrite Rd. now apply read_write_ne.
  - unfold clearCredentials; simpl. apply write_length.
  - unfold clearCredentials; simpl. now rewrite <- app_assoc.
Qed.

(** ** Transitions *)

(** Reads the fields of a manager given by its constructor and brings the
    effect trace to a right-nested append. *)
Ltac run_manager :=
  cbv [emit delay set_currentState set_EEPROM reboot
       currentState EEPROM lastBatteryRead lastBatteryVoltage
       lastBatteryPercent millis effects bind];
  rewrite <- ?app_assoc; cbn [app].

(** One call of transitionTo: leave the current state, install the new one,
    run its enter hook, report the heap. *)
Lemma transitionTo_unfold fuel env ns m :
  transitionTo (S fuel) env (Some ns) m
  = do m1 <- onEnter env (transitionTo fuel env)
               (set_currentState (Some ns) (leave (getName ns) m));
    Ok (emit [Serial (DiagHeapAfterTransition (free_heap env))] m1).
Proof. reflexivity. Qed.

Lemma install_after_leave ns to m :
  set_currentState (Some ns) (leave to m)
  = mkManager (Some ns) (EEPROM m) (lastBatteryRead m) (lastBatteryVoltage m)
      (lastBatteryPercent m) (millis m) (effects m ++ leave_effects to m).
Proof.
  destruct m as [cur e br bv bp t evs].
  destruct cur as [[s|p|c|u]|]; unfold leave, onExit, delete_currentState;
    run_manager; reflexivity.
Qed.

(** The enter hooks, on a manager in which the new state was just installed. *)

Lemma onEnter_Connected env rec e br bv bp t evs :
  onEnter env rec (mkManager (Some createConnectedState) e br bv bp t evs)
  = Ok (mkManager
          (Some (Connected (ConnectedState.mk t
                              (CalmBreathingStrategy Colors.CONNECTED) 0 t t)))
          e br bv bp (uint32 (t + 500)) (evs ++ connected_enter_effects)).
Proof.
  unfold onEnter, createConnectedState, connected_enter_effects.
  run_manager. reflexivity.
Qed.

Lemma onEnter_Provisioning env rec e br bv bp t evs :
  onEnter env rec (mkManager (Some createProvisioningState) e br bv bp t evs)
  = Ok (mkManager
          (Some (Provisioning (ProvisioningState.mk t 0 0 (uint32 (t + 100)))))
          e br bv bp (uint32 (t + 100)) (evs ++ provisioning_enter_effects)).
Proof.
  unfold onEnter, createProvisioningState, provisioning_enter_effects.
  run_manager. reflexivity.
Qed.

Lemma onEnter_Searching env rec e br bv bp t evs :
  onEnter env rec (mkManager (Some createSearchingState) e br bv bp t evs)
  = let '(ok, ssid, password) := loadCredentials EmptyString EmptyString e in
    if ok then
      Ok (mkManager
            (Some (Searching (SearchingState.mk t BRIGHTNESS_MIN true t
                                ssid password t)))
            e br bv bp t
            (evs ++ [Serial (DiagEntering "Searching"); WifiModeSTA;
                     WifiBegin (c_str ssid) (c_str password)]))
    else
      rec (Some createProvisioningState)
        (mkManager
           (Some (Searching (SearchingState.mk t BRIGHTNESS_MIN true 0
                               ssid password 0)))
           e br bv bp t
           (evs ++ [Serial (DiagEntering "Searching");
                    Serial DiagNoSavedCredentials])).
Proof.
  unfold onEnter, createSearchingState.
  cbv [emit set_currentState currentState EEPROM lastBatteryRead
       lastBatteryVoltage lastBatteryPercent millis effects
       SearchingState.ssid SearchingState.password SearchingState.pulseValue
       SearchingState.pulseDirection SearchingState.lastPulseUpdate
       SearchingState.lastConnectionAttempt].
  destruct (loadCredentials EmptyString EmptyString e) as [[[|] ssid] password];
    cbv [negb]; rewrite <- ?app_assoc; reflexivity.
Qed.

Lemma onEnter_Updating env rec e br bv bp t evs :
  onEnter env rec (mkManager (Some createUpdatingState) e br bv bp t evs)
  = if wifi_connected env then
      Ok (mkManager
            (Some (Updating (UpdatingState.mk t t 20 true true 0 None)))
            e br bv bp t
            (evs ++ [Serial (DiagEntering "Updating"); OtaArm DEVICE_NAME]))
    else
      rec (Some createSearchingState)
        (mkManager
           (Some (Updating (UpdatingState.mk t 0 20 true false 0 None)))
           e br bv bp t
           (evs ++ [Serial (DiagEntering "Updating");
                    Serial DiagNoWiFiCannotUpdate])).
Proof.
  unfold onEnter, createUpdatingState, setupOTA.
  destruct (wifi_connected env);
    cbv [negb UpdatingState.otaConfigured UpdatingState.stateStartTime
         UpdatingState.lastPulse UpdatingState.yellowBrightness
         UpdatingState.pulseDirection UpdatingState.lastProgress
         UpdatingState.previousState];
    run_manager; reflexivity.
Qed.

(** Transitions into the two states whose enter hook requests nothing. *)

Lemma transitionTo_fuel_Connected fuel env m :
  transitionTo (S fuel) env (Some createConnectedState) m
  = Ok (mkManager
          (Some (Connected (ConnectedState.mk (millis m)
                              (CalmBreathingStrategy Colors.CONNECTED)
                              0 (millis m) (millis m))))
          (EEPROM m) (lastBatteryRead m) (lastBatteryVoltage m)
          (lastBatteryPercent m) (uint32 (millis m + 500))
          (effects m ++ leave_effects "Connected" m ++ connected_enter_effects
           ++ [Serial (DiagHeapAfterTransition (free_heap env))])).
Proof.
  rewrite transitionTo_unfold, install_after_leave, onEnter_Connected.
  run_manager. reflexivity.
Qed.

Lemma transitionTo_fuel_Provisioning fuel env m :
  transitionTo (S fuel) env (Some createProvisioningState) m
  = Ok (mkManager
          (Some (Provisioning (ProvisioningState.mk (millis m) 0 0
                                 (uint32 (millis m + 100)))))
          (EEPROM m) (lastBatteryRead m) (lastBatteryVoltage m)
          (lastBatteryPercent m) (uint32 (millis m + 100))
          (effects m ++ leave_effects "Provisioning" m
           ++ provisioning_enter_effects
           ++ [Serial (DiagHeapAfterTransition (free_heap env))])).
Proof.
  rewrite transitionTo_unfold, install_after_leave, onEnter_Provisioning.
  run_manager. reflexivity.
Qed.

(** C7: transitionTo with a null argument is refused whatever the current
    state: the manager keeps its current state, store and clock, no exit hook
    runs and nothing is released (the trace gains a single entry), and that
    entry is the error diagnostic. *)
Theorem transition_to_null_refused :
  forall (fuel : nat) (env : Env) (m : LuminaStateManager),
  exists m',
    transitionTo (S fuel) env None m = Ok m' /\
    currentState m' = currentState m /\
    EEPROM m' = EEPROM m /\
    millis m' = millis m /\
    effects m' = effects m ++ [Serial DiagNullTransition].
Proof.
  intros fuel env m. exists (emit [Serial DiagNullTransition] m).
  split; [reflexivity|]. repeat split.
Qed.

(** The three rounds of the error flash, on the trace. *)
Lemma uint32_add_idemp (a b : Z) : uint32 (uint32 a + b) = uint32 (a + b).
Proof.
  unfold uint32. apply Zplus_mod_idemp_l.
Qed.

Lemma error_flash_rounds e cur br bv bp t evs :
  exists t',
    t' = uint32 (t + 1200) /\
    Nat.iter 3 error_flash_round (mkManager cur e br bv bp t evs)
    = mkManager cur e br bv bp t' (evs ++ error_flash_sequence).
Proof.
  eexists. split; [|unfold error_flash_sequence; cbn [Nat.iter nat_rect];
                    unfold error_flash_round; run_manager; reflexivity].
  repeat (rewrite uint32_add_idemp || rewrite <- Z.add_assoc). reflexivity.
Qed.

(** C6: when the update-error callback fires, with any cause code and from any
    manager state, the ring plays the red error flash (three rounds: all 16
    pixels set to red 0xFF0000 and shown for 200 ms, then the ring cleared
    for 200 ms) and the manager then transitions to Connected, whose enter
    hook paints the ring green; nothing in what follows the flash enters
    Searching or Provisioning.  Cause code 1 is reported as a begin failure. *)
Theorem update_error_rolls_back_to_connected :
  forall (fuel : nat) (env : Env) (error : Z) (m : LuminaStateManager),
  exists m' rest,
    onError (S fuel) env error m = Ok m' /\
    currentState m'
    = Some (Connected (ConnectedState.mk (uint32 (millis m + 2200))
                         (CalmBreathingStrategy Colors.CONNECTED) 0
                         (uint32 (millis m + 2200)) (uint32 (millis m + 2200)))) /\
    EEPROM m' = EEPROM m /\
    effects m'
    = effects m
      ++ [Serial (DiagOtaError error (ota_errorMsg error))]
      ++ concat
           (repeat
              (map (fun i => LedSetPixelColor i 0xFF0000) (seq 0 16)
               ++ [LedShow; Delay 200; LedClear; LedShow; Delay 200]) 3)
      ++ [Serial DiagRollingBack; Delay 1000]
      ++ rest /\
    rest = leave_effects "Connected" m
           ++ [Serial (DiagEntering "Connected"); UdpBegin 4210]
           ++ map (fun i => LedSetPixelColor i 0x00FF00) (seq 0 16)
           ++ [LedShow; Delay 500;
               Serial (DiagHeapAfterTransition (free_heap env))] /\
    forallb (fun e => negb (enters_searching_or_provisioning e)) rest = true /\
    ota_errorMsg OTA_BEGIN_ERROR = "Begin Failed"%string.
Proof.
  intros fuel env error m.
  destruct m as [cur e br bv bp t evs].
  unfold onError, emit at 2. cbn [currentState EEPROM lastBatteryRead
    lastBatteryVoltage lastBatteryPercent millis effects].
  destruct (error_flash_rounds e cur br bv bp t
              (evs ++ [Serial (DiagOtaError error (ota_errorMsg error))]))
    as [t' [Ht' Hflash]].
  rewrite Hflash, transitionTo_fuel_Connected.
  eexists.
  exists (leave_effects "Connected" (mkManager cur e br bv bp t evs)
          ++ [Serial (DiagEntering "Connected"); UdpBegin 4210]
          ++ map (fun i => LedSetPixelColor i 0x00FF00) (seq 0 16)
          ++ [LedShow; Delay 500;
              Serial (DiagHeapAfterTransition (free_heap env))]).
  split; [reflexivity|].
  split.
  { run_manager. rewrite Ht', uint32_add_idemp.
    replace (t + 1200 + 1000) with (t + 2200) by lia. reflexivity. }
  split; [reflexivity|].
  split.
  - run_manager. unfold leave_effects.
    cbn [currentState]. rewrite <- ?app_assoc. reflexivity.
  - split; [reflexivity|]. split; [|reflexivity].
    destruct cur as [[s|p|c|u]|]; reflexivity.
Qed.

(** Entering Searching over a store without loadable credentials. *)
Lemma transitionTo_Searching_no_credentials fuel env m :
  has_credentials (EEPROM m) = false ->
  exists p,
    transitionTo (S (S fuel)) env (Some createSearchingState) m
    = Ok (mkManager (Some (Provisioning p))
            (EEPROM m) (lastBatteryRead m) (lastBatteryVoltage m)
            (lastBatteryPercent m) (uint32 (millis m + 100))
            (effects m ++ leave_effects "Searching" m
             ++ [Serial (DiagEntering "Searching"); Serial DiagNoSavedCredentials;
                 Serial (DiagTransitioning "Searching" "Provisioning");
                 Serial (DiagExiting "Searching"); LedClear; LedShow;
                 DeleteState "Searching"]
             ++ provisioning_enter_effects
             ++ [Serial (DiagHeapAfterTransition (free_heap env));
                 Serial (DiagHeapAfterTransition (free_heap env))])).
Proof.
  intros Hnone. unfold has_credentials in Hnone.
  exists (ProvisioningState.mk (millis m) 0 0 (uint32 (millis m + 100))).
  rewrite transitionTo_unfold, install_after_leave, onEnter_Searching.
  destruct (loadCredentials EmptyString EmptyString (EEPROM m)) as [[ok ssid] password].
  cbn [fst] in Hnone. subst ok.
  rewrite transitionTo_fuel_Provisioning.
  run_manager. unfold leave_effects at 2. cbn [currentState].
  rewrite <- ?app_assoc. reflexivity.
Qed.

(** Entering Searching over a store with loadable credentials. *)
Lemma transitionTo_Searching_credentials fuel env m ssid password :
  loadCredentials EmptyString EmptyString (EEPROM m) = (true, ssid, password) ->
  transitionTo (S fuel) env (Some createSearchingState) m
  = Ok (mkManager
          (Some (Searching (SearchingState.mk (millis m) BRIGHTNESS_MIN true
                              (millis m) ssid password (millis m))))
          (EEPROM m) (lastBatteryRead m) (lastBatteryVoltage m)
          (lastBatteryPercent m) (millis m)
          (effects m ++ leave_effects "Searching" m
           ++ [Serial (DiagEntering "Searching"); WifiModeSTA;
               WifiBegin (c_str ssid) (c_str password);
               Serial (DiagHeapAfterTransition (free_heap env))])).
Proof.
  intros Hload.
  rewrite transitionTo_unfold, install_after_leave, onEnter_Searching, Hload.
  run_manager. reflexivity.
Qed.

(** What a C reader gets from a String. *)
Lemma c_str_reads (s : string) : reads_as_c_string s (c_str s).
Proof.
  induction s as [|c s [IHnul IHcut]]; cbn [c_str].
  - split; [intros i c Hget; destruct i; discriminate | now left].
  - destruct (Ascii.eqb_spec c zero) as [->|Hc].
    + split; [intros i c Hget; destruct i; discriminate|].
      right. exists s. reflexivity.
    + split.
      * intros [|i] c' Hget; cbn [String.get] in Hget.
        -- injection Hget as <-. exact Hc.
        -- exact (IHnul i c' Hget).
      * destruct IHcut as [Heq|[rest Hrest]].
        -- left. now rewrite Heq.
        -- right. exists rest. cbn [String.append]. now rewrite <- Hrest.
Qed.

(** Whether a load succeeds does not depend on what its out-parameters held. *)
Lemma load_ok_indep (s0 p0 : string) (e : EEPROMClass) :
  fst (fst (loadCredentials s0 p0 e)) = has_credentials e.
Proof.
  unfold has_credentials, loadCredentials.
  destruct (negb (EEPROM_read ADDR_MAGIC e =? EEPROM_MAGIC)); [reflexivity|].
  destruct (32 <? EEPROM_read ADDR_SSID_LEN e); [reflexivity|].
  destruct (64 <? EEPROM_read ADDR_PASS_LEN e); reflexivity.
Qed.

Lemma max_depth_ge (tr : list Effect) (cur : nat) : (cur <= max_depth cur tr)%nat.
Proof.
  destruct tr as [|e tr]; cbn [max_depth]; lia.
Qed.

(** Leaving any state opens exactly one transition and closes none. *)
Lemma leave_effects_depth (to : string) (m : LuminaStateManager) (tl : list Effect) :
  max_depth 0 (leave_effects to m ++ tl) = max_depth 1 tl.
Proof.
  pose proof (max_depth_ge tl 1) as Hge.
  destruct m as [cur e br bv bp t evs].
  destruct cur as [[s|p|c|u]|];
    cbn [leave_effects currentState app max_depth opens_transition
         closes_transition]; lia.
Qed.

(** C1, amended: a transition requested by a state from within its own enter
    hook is executed by the manager immediately, nested inside the transition
    that is in flight; the manager has no deferred-transition slot.  When
    Searching's enter hook finds no loadable credentials and requests
    Provisioning, Searching's exit hook runs and Searching is released before
    the outer transitionTo returns, and Provisioning is the active state on
    return.  When Updating's enter hook finds the link down and requests
    Searching, Updating is exited and released in the same way; the active
    state on return is Searching, holding the loaded credentials, when the
    store has loadable credentials, and Provisioning when it has none, the
    third transition then running nested inside the second. *)
Theorem reentrant_transition_runs_nested :
  forall (fuel : nat) (env : Env) (m : LuminaStateManager),
    (has_credentials (EEPROM m) = false ->
     exists m' p evs,
       transitionTo (S (S fuel)) env (Some createSearchingState) m = Ok m' /\
       currentState m' = Some (Provisioning p) /\
       effects m' = effects m ++ evs /\
       evs = leave_effects "Searching" m
             ++ [Serial (DiagEntering "Searching"); Serial DiagNoSavedCredentials;
                 Serial (DiagTransitioning "Searching" "Provisioning");
                 Serial (DiagExiting "Searching"); LedClear; LedShow;
                 DeleteState "Searching"]
             ++ provisioning_enter_effects
             ++ [Serial (DiagHeapAfterTransition (free_heap env));
                 Serial (DiagHeapAfterTransition (free_heap env))] /\
       max_depth 0 evs = 2%nat)
    /\
    (wifi_connected env = false ->
     forall ssid password,
       loadCredentials EmptyString EmptyString (EEPROM m) = (true, ssid, password) ->
       exists m' evs ssid' password',
         transitionTo (S (S (S fuel))) env (Some createUpdatingState) m = Ok m' /\
         currentState m'
         = Some (Searching (SearchingState.mk (millis m) BRIGHTNESS_MIN true
                              (millis m) ssid password (millis m))) /\
         effects m' = effects m ++ evs /\
         evs = leave_effects "Updating" m
               ++ [Serial (DiagEntering "Updating"); Serial DiagNoWiFiCannotUpdate;
                   Serial (DiagTransitioning "Updating" "Searching");
                   Serial (DiagExiting "Updating"); OtaEnd; LedClear; LedShow;
                   DeleteState "Updating"; Serial (DiagEntering "Searching");
                   WifiModeSTA; WifiBegin ssid' password';
                   Serial (DiagHeapAfterTransition (free_heap env));
                   Serial (DiagHeapAfterTransition (free_heap env))] /\
         reads_as_c_string ssid ssid' /\
         reads_as_c_string password password' /\
         max_depth 0 evs = 2%nat)
    /\
    (wifi_connected env = false ->
     has_credentials (EEPROM m) = false ->
     exists m' evs,
       transitionTo (S (S (S fuel))) env (Some createUpdatingState) m = Ok m' /\
       currentState m'
       = Some (Provisioning (ProvisioningState.mk (millis m) 0 0
                               (uint32 (millis m + 100)))) /\
       effects m' = effects m ++ evs /\
       evs = leave_effects "Updating" m
             ++ [Serial (DiagEntering "Updating"); Serial DiagNoWiFiCannotUpdate;
                 Serial (DiagTransitioning "Updating" "Searching");
                 Serial (DiagExiting "Updating"); OtaEnd; LedClear; LedShow;
                 DeleteState "Updating"; Serial (DiagEntering "Searching");
                 Serial DiagNoSavedCredentials;
                 Serial (DiagTransitioning "Searching" "Provisioning");
                 Serial (DiagExiting "Searching"); LedClear; LedShow;
                 DeleteState "Searching"]
             ++ provisioning_enter_effects
             ++ [Serial (DiagHeapAfterTransition (free_heap env));
                 Serial (DiagHeapAfterTransition (free_heap env));
                 Serial (DiagHeapAfterTransition (free_heap env))] /\
       max_depth 0 evs = 3%nat).
Proof.
  intros fuel env m. split; [|split].
  - intros Hnone.
    destruct (transitionTo_Searching_no_credentials fuel env m Hnone) as [p Hp].
    eexists; exists p; eexists.
    split; [exact Hp|]. split; [reflexivity|].
    split; [reflexivity|]. split; [reflexivity|].
    rewrite leave_effects_depth. reflexivity.
  - intros Hoff ssid password Hload.
    rewrite transitionTo_unfold, install_after_leave, onEnter_Updating, Hoff.
    set (m0 := mkManager _ _ _ _ _ _ _).
    rewrite (transitionTo_Searching_credentials (S fuel) env m0 ssid password)
      by exact Hload.
    unfold m0. run_manager. unfold leave_effects at 2. cbn [currentState].
    rewrite <- ?app_assoc. cbn [app].
    eexists; eexists. exists (c_str ssid), (c_str password).
    split; [reflexivity|].
    split; [reflexivity|].
    cbn [effects].
    split; [reflexivity|].
    split; [reflexivity|].
    split; [apply c_str_reads|]. split; [apply c_str_reads|].
    rewrite leave_effects_depth. reflexivity.
  - intros Hoff Hnone.
    rewrite transitionTo_unfold, install_after_leave, onEnter_Updating, Hoff.
    set (m0 := mkManager _ _ _ _ _ _ _).
    rewrite transitionTo_unfold, install_after_leave, onEnter_Searching.
    unfold has_credentials in Hnone. unfold m0 at 1. cbn [EEPROM].
    destruct (loadCredentials EmptyString EmptyString (EEPROM m))
      as [[ok ssid] password].
    cbn [fst] in Hnone. subst ok.
    rewrite transitionTo_fuel_Provisioning.
    unfold m0. run_manager. unfold leave_effects at 2 3. cbn [currentState].
    rewrite <- ?app_assoc. cbn [app].
    eexists; eexists.
    split; [reflexivity|].
    split; [reflexivity|].
    cbn [effects].
    split; [reflexivity|].
    split; [reflexivity|].
    rewrite leave_effects_depth. reflexivity.
Qed.

Lemma reentrant_transition_runs_nested_witness :
  (exists m' p evs,
     transitionTo 3 env_online (Some createSearchingState) (newManager erased_store)
     = Ok m' /\
     currentState m' = Some (Provisioning p) /\
     effects m' = effects (newManager erased_store) ++ evs /\
     evs = leave_effects "Searching" (newManager erased_store)
           ++ [Serial (DiagEntering "Searching"); Serial DiagNoSavedCredentials;
               Serial (DiagTransitioning "Searching" "Provisioning");
               Serial (DiagExiting "Searching"); LedClear; LedShow;
               DeleteState "Searching"]
           ++ provisioning_enter_effects
           ++ [Serial (DiagHeapAfterTransition (free_heap env_online));
               Serial (DiagHeapAfterTransition (free_heap env_online))] /\
     max_depth 0 evs = 2%nat)
  /\
  (exists m' evs,
     transitionTo 3 env_offline (Some createUpdatingState) (newManager saved_store)
     = Ok m' /\
     currentState m'
     = Some (Searching (SearchingState.mk 0 BRIGHTNESS_MIN true 0
                          "MyNet" "secret123" 0)) /\
     effects m' = evs /\
     max_depth 0 evs = 2%nat)
  /\
  (exists m' evs,
     transitionTo 3 env_offline (Some createUpdatingState) (newManager erased_store)
     = Ok m' /\
     currentState m' = Some (Provisioning (ProvisioningState.mk 0 0 0 100)) /\
     effects m' = evs /\
     max_depth 0 evs = 3%nat).
Proof.
  split; [|split].
  - apply (reentrant_transition_runs_nested 1 env_online (newManager erased_store)).
    vm_compute. reflexivity.
  - destruct (reentrant_transition_runs_nested 0 env_offline (newManager saved_store))
      as (_ & H & _).
    destruct (H eq_refl "MyNet"%string "secret123"%string)
      as (m' & evs & ssid' & password' & H1 & H2 & H3 & _ & _ & _ & H4).
    + vm_compute. reflexivity.
    + exists m', evs. repeat split; assumption.
  - destruct (reentrant_transition_runs_nested 0 env_offline (newManager erased_store))
      as (_ & _ & H).
    destruct (H eq_refl) as (m' & evs & H1 & H2 & H3 & _ & H4).
    + vm_compute. reflexivity.
    + exists m', evs. repeat split; assumption.
Defined.

(** C1 as stated fails: at boot over an erased store, the transition that
    Searching's enter hook requests runs while the transition into Searching is
    still open, so two transitionTo calls are open at once. *)
Lemma deferred_transition_counterexample :
  exists m',
    transitionTo transition_fuel env_online (Some createSearchingState)
      (newManager erased_store) = Ok m' /\
    effects m'
    = [Serial (DiagInitialState "Searching");
       Serial (DiagEntering "Searching"); Serial DiagNoSavedCredentials;
       Serial (DiagTransitioning "Searching" "Provisioning");
       Serial (DiagExiting "Searching"); LedClear; LedShow;
       DeleteState "Searching"; Serial (DiagEntering "Provisioning");
       WifiDisconnect; Delay 100; WifiModeAP;
       WifiSoftAP "Lumina-Setup" "lumina2026"; UdpBegin 4210;
       Serial (DiagHeapAfterTransition 30000);
       Serial (DiagHeapAfterTransition 30000)] /\
    max_depth 0 (effects m') = 2%nat /\
    ~ never_nested (effects m').
Proof.
  eexists. split; [vm_compute; reflexivity|].
  split; [reflexivity|]. split; [reflexivity|].
  unfold never_nested. cbn [effects]. vm_compute.
  intros H. inversion H as [|? H1]. inversion H1.
Qed.

(** ** Commands in Connected *)

(** C10: in Connected, a set-mood command of at least 4 payload bytes whose
    type byte is none of 0, 1, 2 is not ignored: the strategy that was active
    is released and a solid-colour strategy with the colour of payload bytes
    1..3 becomes the active strategy; nothing else changes. *)
Theorem set_mood_other_type_installs_solid :
  forall (fuel : nat) (env : Env) (m : LuminaStateManager)
         (c : ConnectedState.t) (data : list Z),
    currentState m = Some (Connected c) ->
    (4 <= length data)%nat ->
    nth 0 data 0 <> 0 -> nth 0 data 0 <> 1 -> nth 0 data 0 <> 2 ->
    exists m',
      handleCommand fuel env CMD_SET_MOOD data m = Ok m' /\
      currentState m'
      = Some (Connected
                (set_strategy
                   (SolidColorStrategy
                      (mkColor (nth 1 data 0) (nth 2 data 0) (nth 3 data 0))) c)) /\
      effects m' = effects m ++ [DeleteStrategy (ConnectedState.currentStrategy c)] /\
      EEPROM m' = EEPROM m /\
      millis m' = millis m.
Proof.
  intros fuel env m c data Hcur Hlen H0 H1 H2.
  destruct data as [|moodType [|d1 [|d2 [|d3 rest]]]]; simpl in Hlen; try lia.
  simpl in H0, H1, H2.
  unfold handleCommand, Connected_handleCommand. rewrite Hcur.
  change (CMD_SET_MOOD =? CMD_SET_COLOR) with false.
  change (CMD_SET_MOOD =? CMD_SET_MOOD) with true.
  cbn [length Nat.ltb Nat.leb payload_at lookup list_lookup bind].
  apply Z.eqb_neq in H0, H1, H2. rewrite H0, H1, H2.
  eexists. split; [reflexivity|].
  repeat split.
Qed.

Lemma set_mood_other_type_installs_solid_witness :
  exists m',
    handleCommand 0 env_online CMD_SET_MOOD [7; 10; 20; 30]
      (set_currentState (Some createConnectedState) (newManager erased_store))
    = Ok m' /\
    currentState m'
    = Some (Connected (ConnectedState.mk 0 (SolidColorStrategy (mkColor 10 20 30))
                         0 0 0)) /\
    effects m' = [DeleteStrategy (CalmBreathingStrategy Colors.CONNECTED)] /\
    EEPROM m' = erased_store /\
    millis m' = 0.
Proof.
  apply (set_mood_other_type_installs_solid 0 env_online
           (set_currentState (Some createConnectedState) (newManager erased_store))
           (ConnectedState.mk 0 (CalmBreathingStrategy Colors.CONNECTED) 0 0 0)
           [7; 10; 20; 30]).
  - reflexivity.
  - simpl; lia.
  - simpl; lia.
  - simpl; lia.
  - simpl; lia.
Defined.

(** ** Provision payloads *)

Lemma payload_at_lt (data : list Z) (i : nat) :
  (i < length data)%nat -> exists v, payload_at data i = Ok v /\ data !! i = Some v.
Proof.
  intros Hi. unfold payload_at.
  destruct (lookup_lt_is_Some_2 data i Hi) as [v Hv].
  exists v. now rewrite Hv.
Qed.

(** The character loop reads inside the payload as long as the field fits. *)
Lemma parse_loop_ok (data : list Z) (off : nat) : forall n k acc,
  (off + k + n <= length data)%nat ->
  exists s,
    fold_left
      (fun acc i =>
         do s <- acc;
         do v <- payload_at data (off + i);
         Ok (append_char s (uint8_to_char v)))
      (seq k n) (Ok acc)
    = Ok s.
Proof.
  induction n as [|n IH]; intros k acc Hfit; simpl.
  - now exists acc.
  - destruct (payload_at_lt data (off + k)) as [v [Hv _]]; [lia|].
    rewrite Hv; simpl. apply IH. lia.
Qed.

Lemma parse_chars_ok (data : list Z) (off n : nat) :
  (off + n <= length data)%nat -> exists s, parse_chars data off n = Ok s.
Proof.
  intros Hfit. unfold parse_chars. apply parse_loop_ok. lia.
Qed.

(** C9: a provision command (opcode 0x05) whose payload of bytes is undersized,
    or declares an SSID longer than 32 or a password longer than 64, or
    declares lengths that run past the end of the payload, is dropped by both
    handlers without a fault: no read leaves the payload, the store is not
    written, no reply is sent and no reboot happens.  Provisioning's handler
    leaves one diagnostic in the trace; Searching's leaves the manager as it
    was. *)
Theorem provision_malformed_dropped :
  forall (env : Env) (data : list Z) (m : LuminaStateManager),
    Forall is_uint8 data ->
    provision_malformed data = true ->
    (exists d,
       Provisioning_handleCommand env CMD_PROVISION data m
       = Ok (emit [Serial d] m)) /\
    Searching_handleCommand env CMD_PROVISION data m = Ok m.
Proof.
  intros env data m Hbytes Hbad.
  unfold Provisioning_handleCommand, Searching_handleCommand, provision_malformed in *.
  change (CMD_PROVISION =? CMD_PROVISION) with true.
  change (CMD_PROVISION =? CMD_RESET) with false.
  cbv iota. rewrite andb_true_l.
  set (len := Z.of_nat (length data)) in *.
  destruct (len <? 2) eqn:Hshort.
  - assert ((2 <=? len) = false) as -> by (apply Z.leb_gt; now apply Z.ltb_lt).
    split; [eexists; reflexivity | reflexivity].
  - apply Z.ltb_ge in Hshort.
    assert ((2 <=? len) = true) as -> by now apply Z.leb_le.
    destruct (payload_at_lt data 0) as [ssidLen [Hrd0 Hlk0]]; [lia|].
    rewrite Hrd0; cbn [bind]. rewrite Hlk0 in Hbad.
    assert (HssidLen : is_uint8 ssidLen).
    { rewrite Forall_forall in Hbytes. apply Hbytes.
      apply list_elem_of_lookup. eauto. }
    unfold is_uint8 in HssidLen.
    destruct ((32 <? ssidLen) || (len <? ssidLen + 2)) eqn:Hssid.
    + split; [eexists; reflexivity | reflexivity].
    + apply orb_false_elim in Hssid as [Hs1 Hs2].
      apply Z.ltb_ge in Hs1, Hs2.
      assert ((32 <? ssidLen) = false) as Hs1b by now apply Z.ltb_ge.
      assert ((len <? ssidLen + 2) = false) as Hs2b by now apply Z.ltb_ge.
      rewrite Hs1b, Hs2b in Hbad. cbn [orb] in Hbad.
      destruct (parse_chars_ok data 1 (Z.to_nat ssidLen)) as [ssid Hparse];
        [unfold len in *; lia|].
      rewrite Hparse; cbn [bind].
      destruct (payload_at_lt data (1 + Z.to_nat ssidLen)) as [passLen [Hrd1 Hlk1]];
        [unfold len in *; lia|].
      rewrite Hrd1; cbn [bind]. rewrite Hlk1 in Hbad. rewrite Hbad.
      split; [eexists; reflexivity | reflexivity].
Qed.

Lemma provision_malformed_dropped_witness :
  (exists d,
     Provisioning_handleCommand env_online CMD_PROVISION [3; 65; 66; 67; 9; 120]
       (newManager erased_store)
     = Ok (emit [Serial d] (newManager erased_store))) /\
  Searching_handleCommand env_online CMD_PROVISION [3; 65; 66; 67; 9; 120]
    (newManager erased_store)
  = Ok (newManager erased_store).
Proof.
  apply (provision_malformed_dropped env_online [3; 65; 66; 67; 9; 120]
           (newManager erased_store)).
  - repeat constructor; unfold is_uint8; lia.
  - reflexivity.
Defined.

(** A payload whose lengths fit is not dropped: the credentials it carries are
    saved and can be loaded back. *)
Example provision_wellformed_saved :
  exists m',
    Provisioning_handleCommand env_online CMD_PROVISION [3; 65; 66; 67; 2; 120; 121]
      (newManager erased_store) = Ok m' /\
    loadCredentials EmptyString EmptyString (EEPROM m')
    = (true, "ABC"%string, "xy"%string).
Proof.
  eexists. split; vm_compute; reflexivity.
Qed.

(** ** Heartbeat *)




(** ** The recursion budget is enough *)

(** With [transition_fuel], transitionTo returns for every target and from
    every manager state. *)
Lemma transitionTo_total (env : Env) (newState : option LuminaState)
    (m : LuminaStateManager) :
  exists m', transitionTo transition_fuel env newState m = Ok m'.
Proof.
  unfold transition_fuel.
  destruct newState as [ns|]; [|eexists; reflexivity].
  rewrite transitionTo_unfold, install_after_leave.
  destruct ns as [s|p|c|u]; unfold onEnter; cbn [currentState].
  - match goal with
    | |- context [loadCredentials ?a ?b ?st] =>
        destruct (loadCredentials a b st) as [[[|] ssid] password]
    end; cbn [negb].
    + eexists; reflexivity.
    + rewrite transitionTo_fuel_Provisioning. eexists; reflexivity.
  - eexists; reflexivity.
  - eexists; reflexivity.
  - destruct (wifi_connected env); cbn [negb].
    + match goal with
      | |- context [setupOTA ?a ?b] => destruct (setupOTA a b) as [u' m']
      end.
      eexists; reflexivity.
    + rewrite transitionTo_unfold, install_after_leave, onEnter_Searching.
      match goal with
      | |- context [loadCredentials ?a ?b ?st] =>
          destruct (loadCredentials a b st) as [[[|] ssid] password]
      end.
      * eexists; reflexivity.
      * rewrite transitionTo_fuel_Provisioning. eexists; reflexivity.
Qed.

(** * Further properties *)

(** ** Colours and timers *)

Lemma lor_shiftl_small (hi lo k : Z) :
  0 <= k -> 0 <= lo < 2 ^ k -> Z.lor (Z.shiftl hi k) lo = hi * 2 ^ k + lo.
Proof.
  intros Hk Hlo.
  assert (Hdisj : Z.land (Z.shiftl hi k) lo = 0).
  { apply Z.bits_inj'. intros n Hn.
    rewrite Z.land_spec, Z.bits_0.
    destruct (Z.lt_ge_cases n k) as [Hlt|Hge].
    - rewrite Z.shiftl_spec_low by assumption. reflexivity.
    - destruct (Z.eq_dec lo 0) as [->|Hne].
      + rewrite Z.bits_0. apply andb_false_r.
      + rewrite (Z.bits_above_log2 lo n); [apply andb_false_r | lia |].
        apply Z.log2_lt_pow2; [lia|].
        apply Z.lt_le_trans with (2 ^ k); [lia|].
        apply Z.pow_le_mono_r; lia. }
  rewrite <- Z.lxor_lor by assumption.
  rewrite <- Z.add_nocarry_lxor by assumption.
  now rewrite Z.shiftl_mul_pow2.
Qed.

Lemma to32bit_value (c : Color) :
  is_uint8 (r c) -> is_uint8 (g c) -> is_uint8 (b c) ->
  to32bit c = r c * 65536 + g c * 256 + b c.
Proof.
  unfold is_uint8, to32bit. intros Hr Hg Hb.
  rewrite (Z.shiftl_mul_pow2 (g c) 8) by lia.
  rewrite (lor_shiftl_small (r c) (g c * 2 ^ 8) 16) by lia.
  replace (r c * 2 ^ 16 + g c * 2 ^ 8) with (Z.shiftl (r c * 2 ^ 8 + g c) 8)
    by (rewrite Z.shiftl_mul_pow2; lia).
  rewrite lor_shiftl_small by lia. lia.
Qed.

(** X1: for a colour whose components are bytes, to32bit packs them as
    0x00RRGGBB: each component is recovered by shifting and masking, and the
    packed value fits in 24 bits. *)
Theorem to32bit_roundtrip :
  forall c : Color,
    is_uint8 (r c) -> is_uint8 (g c) -> is_uint8 (b c) ->
    Z.land (Z.shiftr (to32bit c) 16) 255 = r c /\
    Z.land (Z.shiftr (to32bit c) 8) 255 = g c /\
    Z.land (to32bit c) 255 = b c /\
    0 <= to32bit c < 2 ^ 24.
Proof.
  intros c Hr Hg Hb.
  rewrite (to32bit_value c Hr Hg Hb). unfold is_uint8 in *.
  change 255 with (Z.ones 8).
  rewrite !Z.land_ones, !Z.shiftr_div_pow2 by lia.
  change (2 ^ 16) with 65536. change (2 ^ 8) with 256.
  repeat split; try lia; Z.div_mod_to_equations; lia.
Qed.

Lemma to32bit_roundtrip_witness :
  Z.land (Z.shiftr (to32bit Colors.PROVISIONING) 16) 255 = 255 /\
  Z.land (Z.shiftr (to32bit Colors.PROVISIONING) 8) 255 = 165 /\
  Z.land (to32bit Colors.PROVISIONING) 255 = 0 /\
  0 <= to32bit Colors.PROVISIONING < 2 ^ 24.
Proof.
  apply (to32bit_roundtrip Colors.PROVISIONING); unfold is_uint8; simpl; lia.
Defined.

Lemma uint32_range (z : Z) : 0 <= uint32 z < 2 ^ 32.
Proof. unfold uint32. apply Z.mod_pos_bound. lia. Qed.

Lemma uint32_small (z : Z) : 0 <= z < 2 ^ 32 -> uint32 z = z.
Proof. intros H. unfold uint32. now apply Z.mod_small. Qed.

(** Elapsed time as the firmware computes it: the difference of two clock
    readings taken [d] milliseconds apart, the later one possibly wrapped. *)
Lemma elapsed_wraparound (start d : Z) :
  0 <= d < 2 ^ 32 -> uint32 (uint32 (start + d) - start) = d.
Proof.
  intros Hd. unfold uint32.
  rewrite Zminus_mod_idemp_l.
  replace (start + d - start) with d by lia.
  now apply Z.mod_small.
Qed.

(** X2: hasTimedOut measures elapsed time correctly across the 32-bit
    wrap-around of millis(): [d] milliseconds after the state started
    (d below 2^32) it answers whether d exceeds the timeout, wherever the
    start time lies. *)
Theorem hasTimedOut_wraparound :
  forall (timeout d : Z) (s : LuminaState),
    0 <= d < 2 ^ 32 ->
    hasTimedOut timeout (uint32 (stateStartTime s + d)) s = (timeout <? d).
Proof.
  intros timeout d s Hd. unfold hasTimedOut.
  now rewrite elapsed_wraparound.
Qed.

Lemma hasTimedOut_wraparound_witness :
  hasTimedOut WIFI_TIMEOUT (uint32 (4294960000 + 30001))
    (Searching (SearchingState.mk 4294960000 10 true 0 EmptyString EmptyString 0))
  = true.
Proof.
  apply (hasTimedOut_wraparound WIFI_TIMEOUT 30001
           (Searching (SearchingState.mk 4294960000 10 true 0
                         EmptyString EmptyString 0))).
  lia.
Defined.

(** X3: the heap watch of update() subtracts unsigned values, so once its
    30 s interval has elapsed it reports a leak when the heap shrank by more
    than 1024 bytes and equally whenever the heap grew (by less than
    2^32 - 1024); it stays silent only for a shrink of at most 1024 bytes.
    Either way it records the new sample. *)
Theorem heap_watch_reports :
  forall (now now' currentHeap : Z) (w : HeapWatch),
    30000 < uint32 (now - lastHeapCheck w) ->
    0 <= lastHeap w < 2 ^ 32 ->
    0 <= currentHeap < 2 ^ 32 ->
    heap_watch now now' currentHeap w
    = ((1024 <? lastHeap w - currentHeap)
       || ((lastHeap w <? currentHeap)
           && (currentHeap - lastHeap w <? 2 ^ 32 - 1024)),
       mkHeapWatch currentHeap now').
Proof.
  intros now now' cur w Hdue Hlast Hcur. unfold heap_watch.
  apply Z.ltb_lt in Hdue. rewrite Hdue. f_equal.
  destruct (Z.lt_ge_cases (lastHeap w) cur) as [Hgrow|Hshrink].
  - assert (uint32 (lastHeap w - cur) = 2 ^ 32 - (cur - lastHeap w)) as ->.
    { unfold uint32. symmetry. apply (Z.mod_unique _ _ (-1)); lia. }
    apply Z.ltb_lt in Hgrow as Hb. rewrite Hb. simpl andb.
    destruct (1024 <? lastHeap w - cur) eqn:H1;
      destruct (cur - lastHeap w <? 2 ^ 32 - 1024) eqn:H2;
      destruct (1024 <? 2 ^ 32 - (cur - lastHeap w)) eqn:H3;
      try reflexivity;
      repeat match goal with
        | H : (_ <? _) = true |- _ => apply Z.ltb_lt in H
        | H : (_ <? _) = false |- _ => apply Z.ltb_ge in H
        end; lia.
  - rewrite uint32_small by lia.
    assert ((lastHeap w <? cur) = false) as -> by (apply Z.ltb_ge; lia).
    now rewrite orb_false_r.
Qed.

Lemma heap_watch_reports_witness :
  heap_watch 40000 40001 30000 (mkHeapWatch 28000 0)
  = (true, mkHeapWatch 30000 40001).
Proof.
  apply (heap_watch_reports 40000 40001 30000 (mkHeapWatch 28000 0)).
  - vm_compute. reflexivity.
  - simpl; lia.
  - lia.
Defined.

(** ** Animations *)

Lemma to32bit_blue (v : Z) : 0 <= v -> to32bit (mkColor 0 0 v) = v.
Proof.
  intros Hv. unfold to32bit. cbn [r g b].
  rewrite !Z.shiftl_0_l. cbn [Z.lor]. reflexivity.
Qed.

Lemma arduino_map_identity (x : Z) : arduino_map x 0 255 0 255 = x.
Proof.
  unfold arduino_map. rewrite !Z.sub_0_r, Z.add_0_r.
  apply Z.quot_mul. lia.
Qed.

(** X4: updatePulseAnimation is paced by PULSE_SPEED and keeps Searching's
    pulse value inside [BRIGHTNESS_MIN, BRIGHTNESS_MAX] when it starts there.
    Less than PULSE_SPEED ms after the last frame a call changes nothing.  A
    due call moves the value by 5 in the current direction; a rising value
    that would reach 200 is set to 200 and the direction turns to falling, a
    falling value that would reach 10 is set to 10 and the direction turns to
    rising.  The frame time is stamped, all 16 pixels are painted pure blue
    with exactly the new value and the ring is shown; the credentials, the
    start time, the store and the clock are left alone. *)
Theorem pulse_stays_in_range :
  forall (m : LuminaStateManager) (s : SearchingState.t),
    currentState m = Some (Searching s) ->
    BRIGHTNESS_MIN <= SearchingState.pulseValue s <= BRIGHTNESS_MAX ->
    let v := SearchingState.pulseValue s in
    let next :=
      if SearchingState.pulseDirection s
      then (if v + 5 <? 200 then (v + 5, true) else (200, false))
      else (if 10 <? v - 5 then (v - 5, false) else (10, true)) in
    (uint32 (millis m - SearchingState.lastPulseUpdate s) < PULSE_SPEED ->
     updatePulseAnimation m = m) /\
    (PULSE_SPEED <= uint32 (millis m - SearchingState.lastPulseUpdate s) ->
     updatePulseAnimation m
     = mkManager
         (Some (Searching
                  (SearchingState.mk (SearchingState.stateStartTime s)
                     (fst next) (snd next) (millis m)
                     (SearchingState.ssid s) (SearchingState.password s)
                     (SearchingState.lastConnectionAttempt s))))
         (EEPROM m) (lastBatteryRead m) (lastBatteryVoltage m)
         (lastBatteryPercent m) (millis m)
         (effects m
          ++ map (fun i => LedSetPixelColor i (fst next)) (seq 0 16)
          ++ [LedShow])) /\
    BRIGHTNESS_MIN <= fst next <= BRIGHTNESS_MAX.
Proof.
  intros m s Hcur Hrange v next. unfold updatePulseAnimation. rewrite Hcur.
  unfold BRIGHTNESS_MIN, BRIGHTNESS_MAX in *. fold v in Hrange.
  assert (Hpaint : forall x, 0 <= x < 256 ->
            to32bit (mkColor 0 0 (uint8 (arduino_map x 0 255 0 (b Colors.SEARCHING))))
            = x).
  { intros x Hx. change (b Colors.SEARCHING) with 255.
    rewrite arduino_map_identity, uint8_small by lia.
    apply to32bit_blue. lia. }
  split; [|split].
  - intros Hearly. apply Z.ltb_lt in Hearly. now rewrite Hearly.
  - intros Hdue. apply Z.ltb_ge in Hdue. rewrite Hdue.
    destruct m as [cur e br bv bp t evs].
    cbn [currentState EEPROM lastBatteryRead lastBatteryVoltage
         lastBatteryPercent millis effects].
    unfold next. fold v.
    destruct (SearchingState.pulseDirection s).
    + rewrite (uint8_small (v + 5)) by lia.
      destruct (Z.ltb_spec (v + 5) 200) as [Hlt|Hge].
      * assert ((200 <=? v + 5) = false) as -> by (apply Z.leb_gt; lia).
        run_manager. cbn [fst snd]. rewrite Hpaint by lia. reflexivity.
      * assert ((200 <=? v + 5) = true) as -> by (apply Z.leb_le; lia).
        run_manager. cbn [fst snd]. rewrite Hpaint by lia. reflexivity.
    + rewrite (uint8_small (v - 5)) by lia.
      destruct (Z.ltb_spec 10 (v - 5)) as [Hlt|Hge].
      * assert ((v - 5 <=? 10) = false) as -> by (apply Z.leb_gt; lia).
        run_manager. cbn [fst snd]. rewrite Hpaint by lia. reflexivity.
      * assert ((v - 5 <=? 10) = true) as -> by (apply Z.leb_le; lia).
        run_manager. cbn [fst snd]. rewrite Hpaint by lia. reflexivity.
  - unfold next.
    destruct (SearchingState.pulseDirection s);
      [destruct (Z.ltb_spec (v + 5) 200) | destruct (Z.ltb_spec 10 (v - 5))];
      cbn [fst]; lia.
Qed.

Lemma pulse_stays_in_range_witness :
  updatePulseAnimation manager_searching_sample
  = mkManager
      (Some (Searching (SearchingState.mk 0 200 false 1000 "MyNet" "secret123" 0)))
      erased_store 0 0 0 1000
      (map (fun i => LedSetPixelColor i 200) (seq 0 16) ++ [LedShow]).
Proof.
  destruct (pulse_stays_in_range manager_searching_sample
              (SearchingState.mk 0 198 true 0 "MyNet" "secret123" 0))
    as (_ & Hdue & _).
  - reflexivity.
  - unfold BRIGHTNESS_MIN, BRIGHTNESS_MAX. simpl. lia.
  - apply Hdue. vm_compute. discriminate.
Defined.

(** X5: updateYellowPulse is paced at 30 ms and keeps Updating's brightness
    inside [20, 200] when it starts there.  Less than 30 ms after the last
    frame a call changes nothing.  A due call moves the brightness by 10 in
    the current direction; a rising value that would reach 200 is set to 200
    and the direction turns to falling, a falling value that would reach 20
    is set to 20 and the direction turns to rising.  The frame time is
    stamped and all 16 pixels are painted with red = green = the new
    brightness and blue 0, then shown; the reported progress, the armed flag,
    the store and the clock are left alone. *)
Theorem yellow_pulse_stays_in_range :
  forall (m : LuminaStateManager) (u : UpdatingState.t),
    currentState m = Some (Updating u) ->
    20 <= UpdatingState.yellowBrightness u <= 200 ->
    let v := UpdatingState.yellowBrightness u in
    let next :=
      if UpdatingState.pulseDirection u
      then (if v + 10 <? 200 then (v + 10, true) else (200, false))
      else (if 20 <? v - 10 then (v - 10, false) else (20, true)) in
    (uint32 (millis m - UpdatingState.lastPulse u) < 30 ->
     updateYellowPulse m = m) /\
    (30 <= uint32 (millis m - UpdatingState.lastPulse u) ->
     updateYellowPulse m
     = mkManager
         (Some (Updating
                  (UpdatingState.mk (UpdatingState.stateStartTime u) (millis m)
                     (fst next) (snd next)
                     (UpdatingState.otaConfigured u) (UpdatingState.lastProgress u)
                     (UpdatingState.previousState u))))
         (EEPROM m) (lastBatteryRead m) (lastBatteryVoltage m)
         (lastBatteryPercent m) (millis m)
         (effects m
          ++ map (fun i => LedSetPixelColor i (fst next * 65536 + fst next * 256))
               (seq 0 16)
          ++ [LedShow])) /\
    20 <= fst next <= 200.
Proof.
  intros m u Hcur Hrange v next. unfold updateYellowPulse. rewrite Hcur.
  fold v in Hrange.
  assert (Hpaint : forall x, 0 <= x < 256 ->
            to32bit (mkColor x x 0) = x * 65536 + x * 256).
  { intros x Hx. unfold to32bit. cbn [r g b]. rewrite Z.lor_0_r.
    rewrite !Z.shiftl_mul_pow2 by lia.
    change (2 ^ 16) with 65536. change (2 ^ 8) with 256.
    rewrite <- Z.add_nocarry_lor; [reflexivity|].
    replace (x * 65536) with (Z.shiftl x 16) by (rewrite Z.shiftl_mul_pow2; lia).
    replace (x * 256) with (Z.shiftl x 8) by (rewrite Z.shiftl_mul_pow2; lia).
    apply Z.bits_inj'. intros n Hn.
    rewrite Z.land_spec, Z.bits_0.
    destruct (Z.lt_ge_cases n 16) as [Hlow|Hhigh].
    - rewrite (Z.shiftl_spec_low x 16 n) by lia. reflexivity.
    - rewrite (Z.shiftl_spec x 8 n) by lia.
      assert (Z.testbit x (n - 8) = false) as ->; [|apply andb_false_r].
      destruct (Z.eq_dec x 0) as [->|Hx0]; [apply Z.bits_0|].
      apply Z.bits_above_log2; [lia|].
      assert (Z.log2 x < 8) by (apply Z.log2_lt_pow2; lia). lia. }
  split; [|split].
  - intros Hearly. apply Z.ltb_lt in Hearly. now rewrite Hearly.
  - intros Hdue. apply Z.ltb_ge in Hdue. rewrite Hdue.
    destruct m as [cur e br bv bp t evs].
    cbn [currentState EEPROM lastBatteryRead lastBatteryVoltage
         lastBatteryPercent millis effects].
    unfold next. fold v.
    destruct (UpdatingState.pulseDirection u).
    + rewrite (uint8_small (v + 10)) by lia.
      destruct (Z.ltb_spec (v + 10) 200) as [Hlt|Hge].
      * assert ((200 <=? v + 10) = false) as -> by (apply Z.leb_gt; lia).
        run_manager. cbn [fst snd]. rewrite Hpaint by lia. reflexivity.
      * assert ((200 <=? v + 10) = true) as -> by (apply Z.leb_le; lia).
        run_manager. cbn [fst snd]. rewrite Hpaint by lia. reflexivity.
    + rewrite (uint8_small (v - 10)) by lia.
      destruct (Z.ltb_spec 20 (v - 10)) as [Hlt|Hge].
      * assert ((v - 10 <=? 20) = false) as -> by (apply Z.leb_gt; lia).
        run_manager. cbn [fst snd]. rewrite Hpaint by lia. reflexivity.
      * assert ((v - 10 <=? 20) = true) as -> by (apply Z.leb_le; lia).
        run_manager. cbn [fst snd]. rewrite Hpaint by lia. reflexivity.
  - unfold next.
    destruct (UpdatingState.pulseDirection u);
      [destruct (Z.ltb_spec (v + 10) 200) | destruct (Z.ltb_spec 20 (v - 10))];
      cbn [fst]; lia.
Qed.

Lemma yellow_pulse_stays_in_range_witness :
  updateYellowPulse manager_updating_sample
  = mkManager
      (Some (Updating (UpdatingState.mk 0 1000 30 true true 0 None)))
      erased_store 0 0 0 1000
      (map (fun i => LedSetPixelColor i 0x1E1E00) (seq 0 16) ++ [LedShow]).
Proof.
  destruct (yellow_pulse_stays_in_range manager_updating_sample
              (UpdatingState.mk 0 0 20 true true 0 None))
    as (_ & Hdue & _).
  - reflexivity.
  - simpl. lia.
  - apply Hdue. vm_compute. discriminate.
Defined.

(** X6: the progress callback, for a non-empty image, a position inside it
    and a product that fits 32 bits, computes a percentage between 0 and 100
    and hands it to showProgress.  A percentage equal to the last one shown
    redraws nothing; a new one becomes the state's last reported progress
    (no other field of the state, the store or the clock changes) and is
    drawn as a bar of percent * 16 / 100 yellow (0xFFFF00) pixels from pixel
    0, never more than the 16 of the ring and all 16 once the transfer is
    complete. *)
Theorem progress_bar_bounded :
  forall (progress total : Z) (m : LuminaStateManager) (u : UpdatingState.t),
    currentState m = Some (Updating u) ->
    0 < total ->
    0 <= progress <= total ->
    progress * 100 < 2 ^ 32 ->
    exists percent lit,
      percent = progress * 100 / total /\
      0 <= percent <= 100 /\
      lit = Z.to_nat (percent * 16 / 100) /\
      (lit <= 16)%nat /\
      (progress = total -> lit = 16%nat) /\
      onProgress progress total m = Some (showProgress percent m) /\
      (percent = UpdatingState.lastProgress u -> showProgress percent m = m) /\
      (percent <> UpdatingState.lastProgress u ->
       currentState (showProgress percent m)
       = Some (Updating
                 (UpdatingState.mk (UpdatingState.stateStartTime u)
                    (UpdatingState.lastPulse u) (UpdatingState.yellowBrightness u)
                    (UpdatingState.pulseDirection u) (UpdatingState.otaConfigured u)
                    percent (UpdatingState.previousState u))) /\
       EEPROM (showProgress percent m) = EEPROM m /\
       millis (showProgress percent m) = millis m /\
       effects (showProgress percent m)
       = effects m
         ++ [LedClear]
         ++ map (fun i => LedSetPixelColor i 0xFFFF00) (seq 0 lit)
         ++ [LedShow]).
Proof.
  intros progress total m u Hcur Htotal Hprog Hfit.
  assert (Hpct : 0 <= progress * 100 / total <= 100).
  { split.
    - apply Z.div_pos; lia.
    - apply Z.div_le_upper_bound; lia. }
  exists (progress * 100 / total), (Z.to_nat (progress * 100 / total * 16 / 100)).
  split; [reflexivity|]. split; [exact Hpct|]. split; [reflexivity|].
  split.
  { assert (progress * 100 / total * 16 / 100 <= 16)
      by (apply Z.div_le_upper_bound; lia).
    lia. }
  split.
  { intros ->. rewrite (Z.mul_comm total 100), Z.div_mul by lia. reflexivity. }
  split.
  { unfold onProgress.
    assert ((total =? 0) = false) as -> by (apply Z.eqb_neq; lia).
    rewrite uint32_small by lia. rewrite uint8_small by lia. reflexivity. }
  unfold showProgress. rewrite Hcur. split.
  - intros Heq. apply Z.eqb_eq in Heq. now rewrite Heq.
  - intros Hne. apply Z.eqb_neq in Hne. rewrite Hne.
    cbn [currentState set_currentState emit effects EEPROM millis].
    split; [reflexivity|]. split; [reflexivity|]. split; [reflexivity|].
    rewrite Z.quot_div_nonneg by lia. reflexivity.
Qed.

Lemma progress_bar_bounded_witness :
  exists percent lit,
    percent = 50 /\
    lit = 8%nat /\
    onProgress 262144 524288 manager_updating_sample
    = Some (showProgress percent manager_updating_sample) /\
    currentState (showProgress percent manager_updating_sample)
    = Some (Updating (UpdatingState.mk 0 0 20 true true percent None)) /\
    EEPROM (showProgress percent manager_updating_sample) = erased_store /\
    millis (showProgress percent manager_updating_sample) = 1000 /\
    effects (showProgress percent manager_updating_sample)
    = [LedClear] ++ map (fun i => LedSetPixelColor i 0xFFFF00) (seq 0 lit)
      ++ [LedShow].
Proof.
  destruct (progress_bar_bounded 262144 524288 manager_updating_sample
              (UpdatingState.mk 0 0 20 true true 0 None))
    as (percent & lit & Hpct & _ & Hlit & _ & _ & Hrun & _ & Hnew).
  - reflexivity.
  - lia.
  - lia.
  - vm_compute. reflexivity.
  - exists percent, lit.
    assert (Hp : percent = 50) by (rewrite Hpct; reflexivity).
    split; [exact Hp|].
    split; [rewrite Hlit, Hp; reflexivity|].
    split; [exact Hrun|].
    apply Hnew. rewrite Hp. simpl. lia.
Defined.

(** X7: a due frame of Provisioning's rotating indicator clears the ring and
    lights exactly four pixels, all inside the 16-pixel ring, pairwise
    distinct and four positions apart starting at the phase, in the
    provisioning colour; the phase then advances by one modulo 16. *)
Theorem orange_animation_segments :
  forall (m : LuminaStateManager) (p : ProvisioningState.t),
    currentState m = Some (Provisioning p) ->
    is_uint8 (ProvisioningState.orangePhase p) ->
    100 <= uint32 (millis m - ProvisioningState.lastAnimUpdate p) ->
    exists p' k,
      currentState (updateOrangeAnimation m) = Some (Provisioning p') /\
      Z.of_nat k = ProvisioningState.orangePhase p mod 16 /\
      ProvisioningState.orangePhase p'
      = (ProvisioningState.orangePhase p + 1) mod 16 /\
      pixel_writes (drop (length (effects m)) (effects (updateOrangeAnimation m)))
      = map (fun i => (i, to32bit Colors.PROVISIONING))
            [k; (k + 4) mod 16; (k + 8) mod 16; (k + 12) mod 16]%nat /\
      NoDup [k; (k + 4) mod 16; (k + 8) mod 16; (k + 12) mod 16]%nat /\
      Forall (fun i => (i < LED_COUNT)%nat)
        [k; (k + 4) mod 16; (k + 8) mod 16; (k + 12) mod 16]%nat /\
      effects (updateOrangeAnimation m)
      = effects m
        ++ [LedClear]
        ++ map (fun i => LedSetPixelColor i (to32bit Colors.PROVISIONING))
               [k; (k + 4) mod 16; (k + 8) mod 16; (k + 12) mod 16]%nat
        ++ [LedShow].
Proof.
  intros m p Hcur Hphase Hdue. unfold is_uint8 in Hphase.
  unfold updateOrangeAnimation. rewrite Hcur.
  apply Z.ltb_ge in Hdue. rewrite Hdue.
  cbn [currentState set_currentState emit effects].
  change (Z.of_nat LED_COUNT) with 16.
  set (phase := ProvisioningState.orangePhase p) in *.
  assert (Hq : 0 <= phase mod 16 < 16) by (apply Z.mod_pos_bound; lia).
  exists (ProvisioningState.mk (ProvisioningState.stateStartTime p)
            (ProvisioningState.lastBroadcast p)
            (uint8 ((phase + 1) mod 16)) (millis m)).
  exists (Z.to_nat (phase mod 16)).
  split; [reflexivity|].
  split; [lia|].
  split.
  { cbn [ProvisioningState.orangePhase]. apply uint8_small.
    pose proof (Z.mod_pos_bound (phase + 1) 16). lia. }
  rewrite drop_app_length.
  cbn [map].
  replace (phase + 0 * 4) with phase by lia.
  rewrite <- (Z.add_mod_idemp_l phase (1 * 4)) by lia.
  rewrite <- (Z.add_mod_idemp_l phase (2 * 4)) by lia.
  rewrite <- (Z.add_mod_idemp_l phase (3 * 4)) by lia.
  remember (phase mod 16) as q eqn:Heq. clear Heq.
  assert (Hcases : q = 0 \/ q = 1 \/ q = 2 \/ q = 3 \/ q = 4 \/ q = 5 \/ q = 6
                   \/ q = 7 \/ q = 8 \/ q = 9 \/ q = 10 \/ q = 11 \/ q = 12
                   \/ q = 13 \/ q = 14 \/ q = 15) by lia.
  repeat (destruct Hcases as [->|Hcases]); [..|subst q];
    (split; [reflexivity|];
     split; [apply (bool_decide_unpack _); vm_compute; reflexivity|];
     split; [repeat constructor; vm_compute; lia|];
     reflexivity).
Qed.

Lemma orange_animation_segments_witness :
  exists p' k,
    currentState (updateOrangeAnimation manager_provisioning_sample)
    = Some (Provisioning p') /\
    Z.of_nat k = 0 mod 16 /\
    ProvisioningState.orangePhase p' = (0 + 1) mod 16 /\
    pixel_writes (drop (length (effects manager_provisioning_sample))
                    (effects (updateOrangeAnimation manager_provisioning_sample)))
    = map (fun i => (i, to32bit Colors.PROVISIONING))
          [k; (k + 4) mod 16; (k + 8) mod 16; (k + 12) mod 16]%nat /\
    NoDup [k; (k + 4) mod 16; (k + 8) mod 16; (k + 12) mod 16]%nat /\
    Forall (fun i => (i < LED_COUNT)%nat)
      [k; (k + 4) mod 16; (k + 8) mod 16; (k + 12) mod 16]%nat /\
    effects (updateOrangeAnimation manager_provisioning_sample)
    = effects manager_provisioning_sample
      ++ [LedClear]
      ++ map (fun i => LedSetPixelColor i (to32bit Colors.PROVISIONING))
             [k; (k + 4) mod 16; (k + 8) mod 16; (k + 12) mod 16]%nat
      ++ [LedShow].
Proof.
  apply (orange_animation_segments manager_provisioning_sample
           (ProvisioningState.mk 0 0 0 100)).
  - reflexivity.
  - unfold is_uint8. simpl. lia.
  - vm_compute. intros H. discriminate H.
Defined.

(** ** Status packets *)

Lemma uint32_sub_diag (z : Z) : uint32 (z - z) = 0.
Proof. now rewrite Z.sub_diag. Qed.

(** X8: Provisioning's presence broadcast is rate-limited to one packet per
    2000 ms: a call before the interval has elapsed changes nothing, a due call
    sends exactly [0x13][0x02][6]"Lumina" whatever the packet buffer held
    before, and a second call at the same clock reading sends nothing more. *)
Theorem presence_broadcast_layout :
  forall (env : Env) (m : LuminaStateManager) (p : ProvisioningState.t),
    currentState m = Some (Provisioning p) ->
    (uint32 (millis m - ProvisioningState.lastBroadcast p) < 2000 ->
     broadcastPresence env m = m) /\
    (2000 <= uint32 (millis m - ProvisioningState.lastBroadcast p) ->
     effects (broadcastPresence env m)
     = effects m
       ++ [UdpBroadcast UDP_PORT
             ([STATUS_STATE; STATE_PROVISIONING; 6] ++ cstr_bytes DEVICE_NAME)] /\
     EEPROM (broadcastPresence env m) = EEPROM m /\
     broadcastPresence env (broadcastPresence env m) = broadcastPresence env m).
Proof.
  intros env m p Hcur. split.
  - intros Hearly. unfold broadcastPresence. rewrite Hcur.
    apply Z.ltb_lt in Hearly. now rewrite Hearly.
  - intros Hdue.
    assert (Hrun : broadcastPresence env m
              = emit [UdpBroadcast UDP_PORT
                        ([STATUS_STATE; STATE_PROVISIONING; 6]
                         ++ cstr_bytes DEVICE_NAME)]
                  (set_currentState
                     (Some (Provisioning
                              (ProvisioningState.mk
                                 (ProvisioningState.stateStartTime p) (millis m)
                                 (ProvisioningState.orangePhase p)
                                 (ProvisioningState.lastAnimUpdate p)))) m)).
    { unfold broadcastPresence. rewrite Hcur.
      apply Z.ltb_ge in Hdue. rewrite Hdue. reflexivity. }
    rewrite Hrun. split; [reflexivity|]. split; [reflexivity|].
    unfold broadcastPresence at 1.
    cbn [currentState emit set_currentState millis ProvisioningState.lastBroadcast].
    rewrite uint32_sub_diag. reflexivity.
Qed.

Lemma presence_broadcast_layout_witness :
  broadcastPresence env_online manager_provisioning_recent
  = manager_provisioning_recent /\
  effects (broadcastPresence env_online manager_provisioning_sample)
  = effects manager_provisioning_sample
    ++ [UdpBroadcast UDP_PORT
          ([STATUS_STATE; STATE_PROVISIONING; 6] ++ cstr_bytes DEVICE_NAME)] /\
  EEPROM (broadcastPresence env_online manager_provisioning_sample)
  = EEPROM manager_provisioning_sample /\
  broadcastPresence env_online
    (broadcastPresence env_online manager_provisioning_sample)
  = broadcastPresence env_online manager_provisioning_sample.
Proof.
  destruct (presence_broadcast_layout env_online manager_provisioning_recent
              (ProvisioningState.mk 0 2500 0 100) eq_refl) as [Hearly _].
  destruct (presence_broadcast_layout env_online manager_provisioning_sample
              (ProvisioningState.mk 0 0 0 100) eq_refl) as [_ Hdue].
  split.
  - apply Hearly. vm_compute. reflexivity.
  - apply Hdue. vm_compute. intros H. discriminate H.
Defined.

(** X9: in Provisioning a get-status command is answered to the requester
    with [0x13][0x02][battery percent][5]"1.0.0", whatever the payload and
    whatever the reply buffer held before; nothing else happens. *)
Theorem provisioning_status_reply :
  forall (env : Env) (data : list Z) (m : LuminaStateManager),
    Provisioning_handleCommand env CMD_GET_STATUS data m
    = Ok (emit [UdpReply ([STATUS_STATE; STATE_PROVISIONING; lastBatteryPercent m; 5]
                          ++ cstr_bytes FIRMWARE_VERSION)] m).
Proof.
  intros env data m. unfold Provisioning_handleCommand.
  change (CMD_GET_STATUS =? CMD_PROVISION) with false.
  change (CMD_GET_STATUS =? CMD_GET_STATUS) with true.
  cbv iota. unfold uninitialized.
  generalize (lastBatteryPercent m). intros pct. reflexivity.
Qed.

(** X10: heartbeats are rate-limited, the "immediate" one of get-status
    included.  Right after a heartbeat was sent, a second sendHeartbeat at the
    same clock reading sends nothing, and a get-status command received in
    Connected less than HEARTBEAT_INTERVAL ms after the last heartbeat leaves
    the manager untouched: no packet is sent. *)
Theorem heartbeat_rate_limited :
  forall (fuel : nat) (env : Env) (data : list Z) (m : LuminaStateManager)
         (c : ConnectedState.t),
    currentState m = Some (Connected c) ->
    sendHeartbeat env (sendHeartbeat env m) = sendHeartbeat env m /\
    (uint32 (millis m - ConnectedState.lastHeartbeat c) < HEARTBEAT_INTERVAL ->
     handleCommand fuel env CMD_GET_STATUS data m = Ok m).
Proof.
  intros fuel env data m c Hcur. split.
  - destruct (uint32 (millis m - ConnectedState.lastHeartbeat c) <? HEARTBEAT_INTERVAL)
      eqn:Hdue.
    + assert (sendHeartbeat env m = m) as ->
        by (unfold sendHeartbeat; rewrite Hcur, Hdue; reflexivity).
      unfold sendHeartbeat. rewrite Hcur, Hdue. reflexivity.
    + assert (exists pkt,
                sendHeartbeat env m
                = emit [UdpBroadcast UDP_PORT pkt]
                    (set_currentState
                       (Some (Connected
                                (ConnectedState.mk
                                   (ConnectedState.stateStartTime c)
                                   (ConnectedState.currentStrategy c) (millis m)
                                   (ConnectedState.lastStrategyUpdate c)
                                   (ConnectedState.connectionCheckTime c)))) m))
        as [pkt ->]
        by (eexists; unfold sendHeartbeat; rewrite Hcur, Hdue; reflexivity).
      unfold sendHeartbeat.
      cbn [currentState emit set_currentState millis ConnectedState.lastHeartbeat].
      rewrite uint32_sub_diag. reflexivity.
  - intros Hearly. unfold handleCommand, Connected_handleCommand. rewrite Hcur.
    change (CMD_GET_STATUS =? CMD_SET_COLOR) with false.
    change (CMD_GET_STATUS =? CMD_SET_MOOD) with false.
    change (CMD_GET_STATUS =? CMD_SET_BRIGHTNESS) with false.
    change (CMD_GET_STATUS =? CMD_GET_STATUS) with true.
    cbv iota. unfold sendHeartbeat. rewrite Hcur.
    apply Z.ltb_lt in Hearly. now rewrite Hearly.
Qed.

Lemma heartbeat_rate_limited_witness :
  sendHeartbeat env_online (sendHeartbeat env_online manager_connected_recent)
  = sendHeartbeat env_online manager_connected_recent /\
  handleCommand 0 env_online CMD_GET_STATUS [] manager_connected_recent
  = Ok manager_connected_recent.
Proof.
  destruct (heartbeat_rate_limited 0 env_online [] manager_connected_recent
              (ConnectedState.mk 0 (CalmBreathingStrategy Colors.CONNECTED)
                 5000 0 0) eq_refl) as [Hidem Hquiet].
  split; [exact Hidem|].
  apply Hquiet. vm_compute. reflexivity.
Defined.

(** ** More on the credential store *)

(** A store whose cells spell a credential record loads as that record. *)
Lemma load_of_cells (ssid password s0 p0 : string) (e : EEPROMClass) :
  (String.length ssid <= 32)%nat ->
  (String.length password <= 64)%nat ->
  EEPROM_read ADDR_MAGIC e = EEPROM_MAGIC ->
  EEPROM_read ADDR_SSID_LEN e = strlen ssid ->
  EEPROM_read ADDR_PASS_LEN e = strlen password ->
  (forall i, (i < String.length ssid)%nat ->
             EEPROM_read (ADDR_SSID + i) e = char_to_uint8 (charAt ssid i)) ->
  (forall i, (i < String.length password)%nat ->
             EEPROM_read (ADDR_PASS + i) e = char_to_uint8 (charAt password i)) ->
  loadCredentials s0 p0 e = (true, ssid, password).
Proof.
  intros Hs Hp Hmagic Hslen Hplen Hsc Hpc. unfold loadCredentials.
  rewrite Hmagic, Hslen, Hplen, Z.eqb_refl. cbn [negb].
  assert ((32 <? strlen ssid) = false) as -> by (apply Z.ltb_ge; unfold strlen; lia).
  assert ((64 <? strlen password) = false) as -> by (apply Z.ltb_ge; unfold strlen; lia).
  unfold strlen. rewrite !Nat2Z.id.
  rewrite (read_chars_spec ADDR_SSID ssid e Hsc).
  rewrite (read_chars_spec ADDR_PASS password e Hpc).
  reflexivity.
Qed.

(** What the cells hold once saveCredentials has run, committed or not. *)
Lemma load_after_save (ok : bool) (ssid password s0 p0 : string) (e : EEPROMClass) :
  (String.length ssid <= 32)%nat ->
  (String.length password <= 64)%nat ->
  length (cells e) = EEPROM_SIZE ->
  loadCredentials s0 p0 (snd (saveCredentials ok ssid password e))
  = (true, ssid, password).
Proof.
  intros Hs Hp Hsize.
  rewrite save_accepts by assumption.
  set (e1 := EEPROM_write ADDR_MAGIC EEPROM_MAGIC e).
  set (e2 := EEPROM_write ADDR_SSID_LEN (strlen ssid) e1).
  set (e3 := write_chars ADDR_SSID ssid e2).
  set (e4 := EEPROM_write ADDR_PASS_LEN (strlen password) e3).
  set (e5 := write_chars ADDR_PASS password e4).
  assert (L1 : length (cells e1) = 512%nat) by (unfold e1; now rewrite write_length).
  assert (L2 : length (cells e2) = 512%nat) by (unfold e2; now rewrite write_length).
  assert (L3 : length (cells e3) = 512%nat) by (unfold e3; now rewrite write_chars_length).
  assert (L4 : length (cells e4) = 512%nat) by (unfold e4; now rewrite write_length).
  assert (Rd : forall a, EEPROM_read a (snd (EEPROM_commit ok e5)) = EEPROM_read a e5)
    by reflexivity.
  unfold EEPROM_SIZE in Hsize.
  apply load_of_cells; try assumption; try (intros i Hi); rewrite Rd;
    unfold ADDR_MAGIC, ADDR_SSID_LEN, ADDR_SSID, ADDR_PASS_LEN, ADDR_PASS in *.
  - unfold e5. rewrite write_chars_outside by lia.
    unfold e4. rewrite read_write_ne by lia.
    unfold e3. rewrite write_chars_outside by lia.
    unfold e2. rewrite read_write_ne by lia.
    unfold e1. rewrite read_write_eq by lia. reflexivity.
  - unfold e5. rewrite write_chars_outside by lia.
    unfold e4. rewrite read_write_ne by lia.
    unfold e3. rewrite write_chars_outside by lia.
    unfold e2. rewrite read_write_eq by lia.
    apply (strlen_uint8 ssid 32); lia.
  - unfold e5. rewrite write_chars_outside by lia.
    unfold e4. rewrite read_write_eq by lia.
    apply (strlen_uint8 password 64); lia.
  - unfold e5. rewrite write_chars_outside by lia.
    unfold e4. rewrite read_write_ne by lia.
    unfold e3. apply write_chars_inside; lia.
  - unfold e5. apply write_chars_inside; lia.
Qed.

Lemma save_keeps_size (ok : bool) (ssid password : string) (e : EEPROMClass) :
  length (cells (snd (saveCredentials ok ssid password e))) = length (cells e).
Proof.
  unfold saveCredentials.
  destruct ((32 <? String.length ssid)%nat || (64 <? String.length password)%nat);
    [reflexivity|].
  cbn [snd EEPROM_commit cells].
  now rewrite write_chars_length, write_length, write_chars_length, !write_length.
Qed.

Lemma length_append_char (s : string) (c : ascii) :
  String.length (append_char s c) = S (String.length s).
Proof.
  unfold append_char. induction s as [|a s IH]; simpl; [reflexivity | now rewrite IH].
Qed.

Lemma read_loop_length base e : forall n k acc,
  String.length
    (fold_left
       (fun s i => append_char s (uint8_to_char (EEPROM_read (base + i) e)))
       (seq k n) acc)
  = (String.length acc + n)%nat.
Proof.
  induction n as [|n IH]; intros k acc; simpl.
  - lia.
  - rewrite IH, length_append_char. lia.
Qed.

Lemma read_chars_length base n e : String.length (read_chars base n e) = n.
Proof. unfold read_chars. now rewrite read_loop_length. Qed.

(** X11: whatever the store holds, corrupted or not, a loadCredentials that
    reports success found the sentinel and returns an SSID of at most 32
    bytes and a password of at most 64 bytes, their lengths being the stored
    length bytes. *)
Theorem load_success_within_bounds :
  forall (e : EEPROMClass) (s0 p0 ssid password : string),
    loadCredentials s0 p0 e = (true, ssid, password) ->
    EEPROM_read ADDR_MAGIC e = EEPROM_MAGIC /\
    (String.length ssid <= 32)%nat /\
    (String.length password <= 64)%nat /\
    String.length ssid = Z.to_nat (EEPROM_read ADDR_SSID_LEN e) /\
    String.length password = Z.to_nat (EEPROM_read ADDR_PASS_LEN e).
Proof.
  intros e s0 p0 ssid password Hload. unfold loadCredentials in Hload.
  destruct (EEPROM_read ADDR_MAGIC e =? EEPROM_MAGIC) eqn:Hmagic;
    cbn [negb] in Hload; [|discriminate].
  destruct (32 <? EEPROM_read ADDR_SSID_LEN e) eqn:Hs; [discriminate|].
  destruct (64 <? EEPROM_read ADDR_PASS_LEN e) eqn:Hp; [discriminate|].
  injection Hload as <- <-.
  apply Z.eqb_eq in Hmagic. apply Z.ltb_ge in Hs, Hp.
  rewrite !read_chars_length. repeat split; try assumption; lia.
Qed.

Lemma load_success_within_bounds_witness :
  EEPROM_read ADDR_MAGIC saved_store = EEPROM_MAGIC /\
  (String.length "MyNet" <= 32)%nat /\
  (String.length "secret123" <= 64)%nat /\
  String.length "MyNet" = Z.to_nat (EEPROM_read ADDR_SSID_LEN saved_store) /\
  String.length "secret123" = Z.to_nat (EEPROM_read ADDR_PASS_LEN saved_store).
Proof.
  apply (load_success_within_bounds saved_store EmptyString EmptyString
           "MyNet" "secret123").
  vm_compute. reflexivity.
Defined.

(** X12: a saveCredentials that accepts its arguments writes only the
    sentinel cell, the two length cells and the first length-many cells of
    each slot: every other cell reads as before (so the tail of a longer,
    earlier SSID stays in its slot), and the store keeps its size. *)
Theorem save_frame :
  forall (ok : bool) (ssid password : string) (e : EEPROMClass) (a : nat),
    (String.length ssid <= 32)%nat ->
    (String.length password <= 64)%nat ->
    a <> ADDR_MAGIC -> a <> ADDR_SSID_LEN -> a <> ADDR_PASS_LEN ->
    ~ (ADDR_SSID <= a < ADDR_SSID + String.length ssid)%nat ->
    ~ (ADDR_PASS <= a < ADDR_PASS + String.length password)%nat ->
    EEPROM_read a (snd (saveCredentials ok ssid password e)) = EEPROM_read a e /\
    length (cells (snd (saveCredentials ok ssid password e))) = length (cells e).
Proof.
  intros ok ssid password e a Hs Hp H0 H1 H34 Hssid Hpass.
  split; [|apply save_keeps_size].
  rewrite save_accepts by assumption.
  change (EEPROM_read a (snd (EEPROM_commit ok ?x))) with (EEPROM_read a x).
  rewrite write_chars_outside by lia.
  rewrite read_write_ne by assumption.
  rewrite write_chars_outside by lia.
  rewrite !read_write_ne by assumption.
  reflexivity.
Qed.

Lemma save_frame_witness :
  EEPROM_read 5 (snd (saveCredentials true "Net" "pw" saved_store))
  = EEPROM_read 5 saved_store /\
  length (cells (snd (saveCredentials true "Net" "pw" saved_store)))
  = length (cells saved_store).
Proof.
  apply (save_frame true "Net" "pw" saved_store 5);
    unfold ADDR_MAGIC, ADDR_SSID_LEN, ADDR_PASS_LEN, ADDR_SSID, ADDR_PASS;
    simpl; lia.
Defined.

(** X13: saveCredentials is not atomic.  When the commit fails it reports
    failure, yet the sentinel and both fields are already in the store's
    working image: a loadCredentials that follows returns the new credentials,
    whatever was stored before. *)
Theorem save_commit_failure_leaves_image :
  forall (ssid password s0 p0 : string) (e : EEPROMClass),
    (String.length ssid <= 32)%nat ->
    (String.length password <= 64)%nat ->
    length (cells e) = EEPROM_SIZE ->
    fst (saveCredentials false ssid password e) = false /\
    loadCredentials s0 p0 (snd (saveCredentials false ssid password e))
    = (true, ssid, password).
Proof.
  intros ssid password s0 p0 e Hs Hp Hsize. split.
  - now rewrite save_accepts by assumption.
  - now apply load_after_save.
Qed.

Lemma save_commit_failure_leaves_image_witness :
  fst (saveCredentials false "MyNet" "secret123" erased_store) = false /\
  loadCredentials EmptyString EmptyString
    (snd (saveCredentials false "MyNet" "secret123" erased_store))
  = (true, "MyNet"%string, "secret123"%string).
Proof.
  apply (save_commit_failure_leaves_image "MyNet" "secret123"
           EmptyString EmptyString erased_store).
  - simpl; lia.
  - simpl; lia.
  - reflexivity.
Defined.

(** ** Provision commands that fit *)

Lemma cstr_bytes_length (s : string) : length (cstr_bytes s) = String.length s.
Proof.
  unfold cstr_bytes. rewrite length_map.
  induction s as [|c s IH]; simpl; [reflexivity | now rewrite IH].
Qed.

Lemma cstr_bytes_lookup (s : string) : forall i : nat,
  (i < String.length s)%nat ->
  cstr_bytes s !! i = Some (char_to_uint8 (charAt s i)).
Proof.
  induction s as [|c s IH]; intros i Hi; simpl in Hi; [lia|].
  destruct i as [|i]; [reflexivity|].
  change (cstr_bytes (String c s) !! S i) with (cstr_bytes s !! i).
  rewrite IH by lia. reflexivity.
Qed.

(** The character loop over a payload that holds the characters of [s]. *)
Lemma parse_loop_spec (data : list Z) (off : nat) : forall s k acc,
  (forall i, (i < String.length s)%nat ->
             data !! (off + (k + i))%nat = Some (char_to_uint8 (charAt s i))) ->
  fold_left
    (fun acc i =>
       do s <- acc;
       do v <- payload_at data (off + i);
       Ok (append_char s (uint8_to_char v)))
    (seq k (String.length s)) (Ok acc)
  = Ok (acc ++ s)%string.
Proof.
  induction s as [|c s IH]; intros k acc H; cbn [String.length seq fold_left].
  - now rewrite append_empty_r.
  - specialize (H 0%nat) as H0. cbn [String.length] in H0.
    rewrite Nat.add_0_r in H0. cbn [bind]. unfold payload_at at 2.
    rewrite H0 by lia.
    change (charAt (String c s) 0) with c. cbn [bind]. rewrite char_roundtrip.
    rewrite IH.
    + f_equal. apply append_char_assoc.
    + intros i Hi. specialize (H (S i)). simpl in H.
      replace (S k + i)%nat with (k + S i)%nat by lia.
      rewrite H by lia. reflexivity.
Qed.

Lemma parse_chars_spec (data : list Z) (off : nat) (s : string) :
  (forall i, (i < String.length s)%nat ->
             data !! (off + i)%nat = Some (char_to_uint8 (charAt s i))) ->
  parse_chars data off (String.length s) = Ok s.
Proof.
  intros H. unfold parse_chars.
  rewrite (parse_loop_spec data off s 0 EmptyString); [reflexivity|].
  intros i Hi. simpl. now apply H.
Qed.

Section ProvisionPayload.

Variables (ssid password : string) (extra : list Z).

Let data := provision_payload ssid password ++ extra.

Lemma provision_payload_length :
  length data
  = (2 + String.length ssid + String.length password + length extra)%nat.
Proof.
  unfold data, provision_payload.
  rewrite !length_app, !cstr_bytes_length. simpl. lia.
Qed.

Lemma provision_payload_ssidLen : data !! 0%nat = Some (strlen ssid).
Proof. reflexivity. Qed.

Lemma provision_payload_ssid (i : nat) :
  (i < String.length ssid)%nat ->
  data !! (1 + i)%nat = Some (char_to_uint8 (charAt ssid i)).
Proof.
  intros Hi. unfold data, provision_payload.
  change (([strlen ssid] ++ cstr_bytes ssid ++ [strlen password]
           ++ cstr_bytes password) ++ extra)
    with (strlen ssid :: ((cstr_bytes ssid ++ [strlen password]
                           ++ cstr_bytes password) ++ extra)).
  change ((strlen ssid :: ?l) !! (1 + i)%nat) with (l !! i).
  rewrite <- app_assoc.
  rewrite lookup_app_l by (rewrite cstr_bytes_length; lia).
  now apply cstr_bytes_lookup.
Qed.

Lemma provision_payload_passLen :
  data !! (1 + String.length ssid)%nat = Some (strlen password).
Proof.
  unfold data, provision_payload.
  change (([strlen ssid] ++ cstr_bytes ssid ++ [strlen password]
           ++ cstr_bytes password) ++ extra)
    with (strlen ssid :: ((cstr_bytes ssid ++ [strlen password]
                           ++ cstr_bytes password) ++ extra)).
  change ((strlen ssid :: ?l) !! (1 + String.length ssid)%nat)
    with (l !! String.length ssid).
  rewrite <- app_assoc.
  rewrite lookup_app_r by (rewrite cstr_bytes_length; lia).
  rewrite cstr_bytes_length, Nat.sub_diag. reflexivity.
Qed.

Lemma provision_payload_password (i : nat) :
  (i < String.length password)%nat ->
  data !! (2 + String.length ssid + i)%nat
  = Some (char_to_uint8 (charAt password i)).
Proof.
  intros Hi. unfold data, provision_payload.
  change (([strlen ssid] ++ cstr_bytes ssid ++ [strlen password]
           ++ cstr_bytes password) ++ extra)
    with (strlen ssid :: ((cstr_bytes ssid ++ [strlen password]
                           ++ cstr_bytes password) ++ extra)).
  change ((strlen ssid :: ?l) !! (2 + String.length ssid + i)%nat)
    with (l !! (1 + String.length ssid + i)%nat).
  rewrite <- app_assoc.
  rewrite lookup_app_r by (rewrite cstr_bytes_length; lia).
  rewrite cstr_bytes_length.
  replace (1 + String.length ssid + i - String.length ssid)%nat with (S i) by lia.
  rewrite lookup_app_l by (cbn [app length]; rewrite cstr_bytes_length; lia).
  change (cstr_bytes password !! i = Some (char_to_uint8 (charAt password i))).
  now apply cstr_bytes_lookup.
Qed.

Hypothesis Hssid : (String.length ssid <= 32)%nat.
Hypothesis Hpass : (String.length password <= 64)%nat.

(** Both handlers parse such a payload to the credentials it carries. *)

Lemma Provisioning_provision_parsed (env : Env) (m : LuminaStateManager) :
  Provisioning_handleCommand env CMD_PROVISION data m
  = let '(ok, m1) := mgr_saveCredentials env ssid password m in
    if ok then
      let m2 := emit [UdpReply [STATUS_STATE; STATE_SEARCHING]] m1 in
      let m3 := emit (fill_ring (to32bit Colors.CONNECTED) ++ [LedShow]) m2 in
      Ok (reboot (delay 2000 m3))
    else Ok m1.
Proof.
  unfold Provisioning_handleCommand.
  change (CMD_PROVISION =? CMD_PROVISION) with true. cbv iota.
  rewrite provision_payload_length.
  assert ((Z.of_nat (2 + String.length ssid + String.length password + length extra)
           <? 2) = false) as -> by (apply Z.ltb_ge; lia).
  unfold payload_at at 1. rewrite provision_payload_ssidLen. cbn [bind].
  assert ((32 <? strlen ssid) = false) as -> by (apply Z.ltb_ge; unfold strlen; lia).
  assert ((Z.of_nat (2 + String.length ssid + String.length password + length extra)
           <? strlen ssid + 2) = false) as ->
    by (apply Z.ltb_ge; unfold strlen; lia).
  cbn [orb].
  assert (Hn : Z.to_nat (strlen ssid) = String.length ssid)
    by (unfold strlen; apply Nat2Z.id).
  rewrite Hn.
  rewrite (parse_chars_spec data 1 ssid provision_payload_ssid). cbn [bind].
  unfold payload_at at 1. rewrite provision_payload_passLen. cbn [bind].
  assert ((64 <? strlen password) = false) as ->
    by (apply Z.ltb_ge; unfold strlen; lia).
  assert ((Z.of_nat (2 + String.length ssid + String.length password + length extra)
           <? strlen ssid + strlen password + 2) = false) as ->
    by (apply Z.ltb_ge; unfold strlen; lia).
  cbn [orb].
  assert (Hp : Z.to_nat (strlen password) = String.length password)
    by (unfold strlen; apply Nat2Z.id).
  rewrite Hp.
  rewrite (parse_chars_spec data (2 + String.length ssid) password
             provision_payload_password).
  reflexivity.
Qed.

Lemma Searching_provision_parsed (env : Env) (m : LuminaStateManager) :
  Searching_handleCommand env CMD_PROVISION data m
  = let '(ok, m1) := mgr_saveCredentials env ssid password m in
    if ok then Ok (reboot (delay 1000 m1)) else Ok m1.
Proof.
  unfold Searching_handleCommand.
  change (CMD_PROVISION =? CMD_PROVISION) with true.
  rewrite provision_payload_length.
  assert ((2 <=? Z.of_nat (2 + String.length ssid + String.length password
                            + length extra)) = true) as ->
    by (apply Z.leb_le; lia).
  cbn [andb].
  unfold payload_at at 1. rewrite provision_payload_ssidLen. cbn [bind].
  assert ((32 <? strlen ssid) = false) as -> by (apply Z.ltb_ge; unfold strlen; lia).
  assert ((Z.of_nat (2 + String.length ssid + String.length password + length extra)
           <? strlen ssid + 2) = false) as ->
    by (apply Z.ltb_ge; unfold strlen; lia).
  cbn [orb].
  assert (Hn : Z.to_nat (strlen ssid) = String.length ssid)
    by (unfold strlen; apply Nat2Z.id).
  rewrite Hn.
  rewrite (parse_chars_spec data 1 ssid provision_payload_ssid). cbn [bind].
  unfold payload_at at 1. rewrite provision_payload_passLen. cbn [bind].
  assert ((64 <? strlen password) = false) as ->
    by (apply Z.ltb_ge; unfold strlen; lia).
  assert ((Z.of_nat (2 + String.length ssid + String.length password + length extra)
           <? strlen ssid + strlen password + 2) = false) as ->
    by (apply Z.ltb_ge; unfold strlen; lia).
  cbn [orb].
  assert (Hp : Z.to_nat (strlen password) = String.length password)
    by (unfold strlen; apply Nat2Z.id).
  rewrite Hp.
  rewrite (parse_chars_spec data (2 + String.length ssid) password
             provision_payload_password).
  reflexivity.
Qed.

End ProvisionPayload.

Lemma mgr_save_accepts (env : Env) (ssid password : string) (m : LuminaStateManager) :
  (String.length ssid <= 32)%nat ->
  (String.length password <= 64)%nat ->
  mgr_saveCredentials env ssid password m
  = (flash_commit_ok env,
     set_EEPROM (snd (saveCredentials (flash_commit_ok env) ssid password (EEPROM m))) m).
Proof.
  intros Hs Hp. unfold mgr_saveCredentials.
  rewrite save_accepts by assumption. reflexivity.
Qed.

(** X14: round trip through Provisioning's handler.  A provision command
    carrying an SSID of at most 32 bytes and a password of at most 64 bytes
    (any bytes may follow them in the datagram), received while the flash
    commits, stores exactly these credentials: loadCredentials returns them
    afterwards.  The requester is answered [0x13][0x01], all 16 pixels are
    set to green (0x00FF00) and shown, and the device restarts after 4 s; the
    active state object is untouched. *)
Theorem provisioning_provision_roundtrip :
  forall (env : Env) (ssid password : string) (extra : list Z)
         (m : LuminaStateManager),
    (String.length ssid <= 32)%nat ->
    (String.length password <= 64)%nat ->
    length (cells (EEPROM m)) = EEPROM_SIZE ->
    flash_commit_ok env = true ->
    exists m',
      Provisioning_handleCommand env CMD_PROVISION
        (provision_payload ssid password ++ extra) m = Ok m' /\
      loadCredentials EmptyString EmptyString (EEPROM m') = (true, ssid, password) /\
      currentState m' = currentState m /\
      effects m'
      = effects m
        ++ [UdpReply [STATUS_STATE; STATE_SEARCHING]]
        ++ map (fun i => LedSetPixelColor i 0x00FF00) (seq 0 16)
        ++ [LedShow; Delay 2000; LedClear; LedShow; Delay 2000; Restart].
Proof.
  intros env ssid password extra m Hs Hp Hsize Hok.
  rewrite Provisioning_provision_parsed by assumption.
  rewrite mgr_save_accepts by assumption. rewrite Hok.
  eexists. split; [reflexivity|].
  destruct m as [cur e br bv bp t evs]. cbn [EEPROM] in Hsize.
  run_manager.
  split; [now apply load_after_save|].
  split; [reflexivity|].
  reflexivity.
Qed.

Lemma provisioning_provision_roundtrip_witness :
  exists m',
    Provisioning_handleCommand env_online CMD_PROVISION
      (provision_payload "MyNet" "secret123" ++ [0; 7]) manager_provisioning_sample
    = Ok m' /\
    loadCredentials EmptyString EmptyString (EEPROM m')
    = (true, "MyNet"%string, "secret123"%string) /\
    currentState m' = currentState manager_provisioning_sample /\
    effects m'
    = effects manager_provisioning_sample
      ++ [UdpReply [STATUS_STATE; STATE_SEARCHING]]
      ++ map (fun i => LedSetPixelColor i 0x00FF00) (seq 0 16)
      ++ [LedShow; Delay 2000; LedClear; LedShow; Delay 2000; Restart].
Proof.
  apply (provisioning_provision_roundtrip env_online "MyNet" "secret123" [0; 7]
           manager_provisioning_sample).
  - simpl; lia.
  - simpl; lia.
  - reflexivity.
  - reflexivity.
Defined.

(** X15: round trip through Searching's handler.  The same command stores the
    same credentials; Searching sends no acknowledgement and restarts after
    3 s without touching the link or its own state. *)
Theorem searching_provision_roundtrip :
  forall (env : Env) (ssid password : string) (extra : list Z)
         (m : LuminaStateManager),
    (String.length ssid <= 32)%nat ->
    (String.length password <= 64)%nat ->
    length (cells (EEPROM m)) = EEPROM_SIZE ->
    flash_commit_ok env = true ->
    exists m',
      Searching_handleCommand env CMD_PROVISION
        (provision_payload ssid password ++ extra) m = Ok m' /\
      loadCredentials EmptyString EmptyString (EEPROM m') = (true, ssid, password) /\
      currentState m' = currentState m /\
      effects m'
      = effects m ++ [Delay 1000; LedClear; LedShow; Delay 2000; Restart].
Proof.
  intros env ssid password extra m Hs Hp Hsize Hok.
  rewrite Searching_provision_parsed by assumption.
  rewrite mgr_save_accepts by assumption. rewrite Hok.
  eexists. split; [reflexivity|].
  destruct m as [cur e br bv bp t evs]. cbn [EEPROM] in Hsize.
  run_manager.
  split; [now apply load_after_save|].
  split; [reflexivity|].
  reflexivity.
Qed.

Lemma searching_provision_roundtrip_witness :
  exists m',
    Searching_handleCommand env_online CMD_PROVISION
      (provision_payload "Net" "pw" ++ []) manager_searching_sample = Ok m' /\
    loadCredentials EmptyString EmptyString (EEPROM m')
    = (true, "Net"%string, "pw"%string) /\
    currentState m' = currentState manager_searching_sample /\
    effects m'
    = effects manager_searching_sample
      ++ [Delay 1000; LedClear; LedShow; Delay 2000; Restart].
Proof.
  apply (searching_provision_roundtrip env_online "Net" "pw" []
           manager_searching_sample).
  - simpl; lia.
  - simpl; lia.
  - reflexivity.
  - reflexivity.
Defined.

(** X16: when the flash commit fails, a well-formed provision command is
    neither acknowledged nor followed by a restart in either state: the trace
    and the active state are as before, and only the store's working image
    has changed. *)
Theorem provision_commit_failure_is_silent :
  forall (env : Env) (ssid password : string) (extra : list Z)
         (m : LuminaStateManager),
    (String.length ssid <= 32)%nat ->
    (String.length password <= 64)%nat ->
    flash_commit_ok env = false ->
    Provisioning_handleCommand env CMD_PROVISION
      (provision_payload ssid password ++ extra) m
    = Ok (set_EEPROM (snd (saveCredentials false ssid password (EEPROM m))) m) /\
    Searching_handleCommand env CMD_PROVISION
      (provision_payload ssid password ++ extra) m
    = Ok (set_EEPROM (snd (saveCredentials false ssid password (EEPROM m))) m).
Proof.
  intros env ssid password extra m Hs Hp Hfail.
  rewrite Provisioning_provision_parsed, Searching_provision_parsed by assumption.
  rewrite mgr_save_accepts by assumption. rewrite Hfail.
  split; reflexivity.
Qed.

Lemma provision_commit_failure_is_silent_witness :
  Provisioning_handleCommand env_flash_failing CMD_PROVISION
    (provision_payload "MyNet" "secret123" ++ []) manager_provisioning_sample
  = Ok (set_EEPROM (snd (saveCredentials false "MyNet" "secret123"
                           (EEPROM manager_provisioning_sample)))
          manager_provisioning_sample) /\
  Searching_handleCommand env_flash_failing CMD_PROVISION
    (provision_payload "MyNet" "secret123" ++ []) manager_provisioning_sample
  = Ok (set_EEPROM (snd (saveCredentials false "MyNet" "secret123"
                           (EEPROM manager_provisioning_sample)))
          manager_provisioning_sample).
Proof.
  apply (provision_commit_failure_is_silent env_flash_failing "MyNet" "secret123"
           [] manager_provisioning_sample).
  - simpl; lia.
  - simpl; lia.
  - reflexivity.
Defined.

(** ** Commands *)





(** X18: while Updating, commands cannot change anything: whatever the opcode
    and payload, the handler leaves the active state, the store and the clock
    as they were.  Only a get-status request has an effect, and only while the
    link is up: one broadcast [0x13][0x04][last reported progress]. *)
Theorem updating_commands_are_read_only :
  forall (fuel : nat) (env : Env) (cmd : Z) (data : list Z)
         (m : LuminaStateManager) (u : UpdatingState.t),
    currentState m = Some (Updating u) ->
    exists m',
      handleCommand fuel env cmd data m = Ok m' /\
      currentState m' = currentState m /\
      EEPROM m' = EEPROM m /\
      millis m' = millis m /\
      effects m'
      = effects m
        ++ (if (cmd =? CMD_GET_STATUS) && wifi_connected env
            then [UdpBroadcast UDP_PORT
                    [STATUS_STATE; STATE_UPDATING; UpdatingState.lastProgress u]]
            else []).
Proof.
  intros fuel env cmd data m u Hcur.
  unfold handleCommand, Updating_handleCommand, sendUDP. rewrite Hcur.
  destruct (cmd =? CMD_GET_STATUS); destruct (wifi_connected env);
    cbn [negb andb snd]; eexists; (split; [reflexivity|]);
    cbn [emit currentState EEPROM millis effects];
    rewrite ?app_nil_r; repeat split; assumption.
Qed.

Lemma updating_commands_are_read_only_witness :
  exists m',
    handleCommand 0 env_online CMD_RESET [] manager_updating_sample = Ok m' /\
    currentState m' = currentState manager_updating_sample /\
    EEPROM m' = EEPROM manager_updating_sample /\
    millis m' = millis manager_updating_sample /\
    effects m'
    = effects manager_updating_sample
      ++ (if (CMD_RESET =? CMD_GET_STATUS) && wifi_connected env_online
          then [UdpBroadcast UDP_PORT [STATUS_STATE; STATE_UPDATING; 0]]
          else []).
Proof.
  apply (updating_commands_are_read_only 0 env_online CMD_RESET []
           manager_updating_sample (UpdatingState.mk 0 0 20 true true 0 None)).
  reflexivity.
Defined.

(** X19: what Connected ignores.  A set-colour command with fewer than 3
    payload bytes, a set-mood command with fewer than 4 and a set-brightness
    command with none leave the manager exactly as it was (the active strategy
    is not released); an opcode outside 0x01..0x04, 0x06 and 0xFF, the
    provision opcode 0x05 among them, only leaves the unknown-command
    diagnostic, so credentials cannot be changed while connected. *)
Theorem connected_ignores_short_and_unknown :
  forall (fuel : nat) (env : Env) (cmd : Z) (data : list Z)
         (m : LuminaStateManager) (c : ConnectedState.t),
    currentState m = Some (Connected c) ->
    ((length data < 3)%nat -> handleCommand fuel env CMD_SET_COLOR data m = Ok m) /\
    ((length data < 4)%nat -> handleCommand fuel env CMD_SET_MOOD data m = Ok m) /\
    (data = [] -> handleCommand fuel env CMD_SET_BRIGHTNESS data m = Ok m) /\
    (cmd <> CMD_SET_COLOR -> cmd <> CMD_SET_MOOD -> cmd <> CMD_SET_BRIGHTNESS ->
     cmd <> CMD_GET_STATUS -> cmd <> CMD_OTA_START -> cmd <> CMD_RESET ->
     handleCommand fuel env cmd data m
     = Ok (emit [Serial (DiagUnknownCommand cmd)] m)) /\
    handleCommand fuel env CMD_PROVISION data m
    = Ok (emit [Serial (DiagUnknownCommand CMD_PROVISION)] m).
Proof.
  intros fuel env cmd data m c Hcur.
  unfold handleCommand, Connected_handleCommand. rewrite Hcur.
  split; [|split; [|split; [|split]]].
  - intros Hlen. change (CMD_SET_COLOR =? CMD_SET_COLOR) with true. cbv iota.
    apply Nat.ltb_lt in Hlen. now rewrite Hlen.
  - intros Hlen. change (CMD_SET_MOOD =? CMD_SET_COLOR) with false.
    change (CMD_SET_MOOD =? CMD_SET_MOOD) with true. cbv iota.
    apply Nat.ltb_lt in Hlen. now rewrite Hlen.
  - intros ->. reflexivity.
  - intros H1 H2 H3 H4 H6 Hff.
    apply Z.eqb_neq in H1, H2, H3, H4, H6, Hff.
    now rewrite H1, H2, H3, H4, H6, Hff.
  - reflexivity.
Qed.

Lemma connected_ignores_short_and_unknown_witness :
  handleCommand 0 env_online CMD_SET_COLOR [255; 0] manager_connected_sample
  = Ok manager_connected_sample /\
  handleCommand 0 env_online CMD_SET_MOOD [1; 10; 20] manager_connected_sample
  = Ok manager_connected_sample /\
  handleCommand 0 env_online CMD_SET_BRIGHTNESS [] manager_connected_sample
  = Ok manager_connected_sample /\
  handleCommand 0 env_online 0x42 [255; 0] manager_connected_sample
  = Ok (emit [Serial (DiagUnknownCommand 0x42)] manager_connected_sample).
Proof.
  destruct (connected_ignores_short_and_unknown 0 env_online 0x42 [255; 0]
              manager_connected_sample
              (ConnectedState.mk 0 (CalmBreathingStrategy Colors.CONNECTED) 0 0 0)
              eq_refl) as (Hcolor & _ & _ & Hunknown & _).
  destruct (connected_ignores_short_and_unknown 0 env_online 0x42 [1; 10; 20]
              manager_connected_sample
              (ConnectedState.mk 0 (CalmBreathingStrategy Colors.CONNECTED) 0 0 0)
              eq_refl) as (_ & Hmood & _).
  destruct (connected_ignores_short_and_unknown 0 env_online 0x42 []
              manager_connected_sample
              (ConnectedState.mk 0 (CalmBreathingStrategy Colors.CONNECTED) 0 0 0)
              eq_refl) as (_ & _ & Hbright & _).
  split; [apply Hcolor; simpl; lia|].
  split; [apply Hmood; simpl; lia|].
  split; [apply Hbright; reflexivity|].
  apply Hunknown; unfold CMD_SET_COLOR, CMD_SET_MOOD, CMD_SET_BRIGHTNESS,
    CMD_GET_STATUS, CMD_OTA_START, CMD_RESET; lia.
Defined.

(** Installing a strategy in Connected: the old one is released first. *)
Lemma Connected_set_mood (fuel : nat) (env : Env) (m : LuminaStateManager)
    (c : ConnectedState.t) (moodType d1 d2 d3 : Z) (rest : list Z) :
  currentState m = Some (Connected c) ->
  handleCommand fuel env CMD_SET_MOOD (moodType :: d1 :: d2 :: d3 :: rest) m
  = do strategy <-
      (if moodType =? 0 then Ok (CalmBreathingStrategy (mkColor d1 d2 d3))
       else if moodType =? 1 then Ok (FocusStrategy (mkColor d1 d2 d3))
       else if moodType =? 2 then
         if (10 <=? length (moodType :: d1 :: d2 :: d3 :: rest))%nat then
           do d4 <- payload_at (moodType :: d1 :: d2 :: d3 :: rest) 4;
           do d5 <- payload_at (moodType :: d1 :: d2 :: d3 :: rest) 5;
           do d6 <- payload_at (moodType :: d1 :: d2 :: d3 :: rest) 6;
           do d7 <- payload_at (moodType :: d1 :: d2 :: d3 :: rest) 7;
           do d8 <- payload_at (moodType :: d1 :: d2 :: d3 :: rest) 8;
           do d9 <- payload_at (moodType :: d1 :: d2 :: d3 :: rest) 9;
           Ok (PartyStrategy (mkColor d1 d2 d3) (mkColor d4 d5 d6) (mkColor d7 d8 d9))
         else Ok (PartyStrategy (mkColor d1 d2 d3) Colors.CONNECTED Colors.SEARCHING)
       else Ok (SolidColorStrategy (mkColor d1 d2 d3)));
    Ok (set_currentState (Some (Connected (set_strategy strategy c)))
          (emit [DeleteStrategy (ConnectedState.currentStrategy c)] m)).
Proof.
  intros Hcur. unfold handleCommand, Connected_handleCommand. rewrite Hcur.
  change (CMD_SET_MOOD =? CMD_SET_COLOR) with false.
  change (CMD_SET_MOOD =? CMD_SET_MOOD) with true.
  cbn [length Nat.ltb Nat.leb].
  unfold payload_at at 1 2 3 4. cbn [lookup list_lookup bind].
  reflexivity.
Qed.

(** X20: a set-mood command of at least 4 payload bytes selects the strategy
    by its type byte and builds it from payload bytes 1..3: type 0 installs
    the breathing strategy, type 1 the focus strategy, type 2 the party
    strategy.  The party strategy takes its second and third colours from
    payload bytes 4..6 and 7..9 when the payload has at least 10 bytes;
    with 4 to 9 bytes the extra bytes are not used and the colours are the
    fixed green (0,255,0) and blue (0,50,255).  In every case the strategy
    that was active is released and nothing else changes. *)
Theorem set_mood_selects_strategy :
  forall (fuel : nat) (env : Env) (m : LuminaStateManager)
         (c : ConnectedState.t) (d1 d2 d3 : Z) (rest : list Z),
    currentState m = Some (Connected c) ->
    let install := fun strategy =>
      Ok (set_currentState (Some (Connected (set_strategy strategy c)))
            (emit [DeleteStrategy (ConnectedState.currentStrategy c)] m)) in
    handleCommand fuel env CMD_SET_MOOD (0 :: d1 :: d2 :: d3 :: rest) m
    = install (CalmBreathingStrategy (mkColor d1 d2 d3)) /\
    handleCommand fuel env CMD_SET_MOOD (1 :: d1 :: d2 :: d3 :: rest) m
    = install (FocusStrategy (mkColor d1 d2 d3)) /\
    ((length rest < 6)%nat ->
     handleCommand fuel env CMD_SET_MOOD (2 :: d1 :: d2 :: d3 :: rest) m
     = install (PartyStrategy (mkColor d1 d2 d3) Colors.CONNECTED Colors.SEARCHING)) /\
    (forall d4 d5 d6 d7 d8 d9 more,
       rest = d4 :: d5 :: d6 :: d7 :: d8 :: d9 :: more ->
       handleCommand fuel env CMD_SET_MOOD (2 :: d1 :: d2 :: d3 :: rest) m
       = install (PartyStrategy (mkColor d1 d2 d3) (mkColor d4 d5 d6)
                    (mkColor d7 d8 d9))).
Proof.
  intros fuel env m c d1 d2 d3 rest Hcur install.
  rewrite !(Connected_set_mood fuel env m c) by assumption. unfold install.
  split; [reflexivity|]. split; [reflexivity|]. split.
  - intros Hshort. cbn [Z.eqb Pos.eqb].
    assert ((10 <=? length (2%Z :: d1 :: d2 :: d3 :: rest))%nat = false) as ->
      by (apply Nat.leb_gt; simpl; lia).
    reflexivity.
  - intros d4 d5 d6 d7 d8 d9 more ->. reflexivity.
Qed.

Lemma set_mood_selects_strategy_witness :
  handleCommand 0 env_online CMD_SET_MOOD [1; 10; 20; 30] manager_connected_sample
  = Ok (set_currentState
          (Some (Connected (ConnectedState.mk 0 (FocusStrategy (mkColor 10 20 30))
                              0 0 0)))
          (emit [DeleteStrategy (CalmBreathingStrategy Colors.CONNECTED)]
             manager_connected_sample)) /\
  handleCommand 0 env_online CMD_SET_MOOD [2; 10; 20; 30; 1; 2; 3]
    manager_connected_sample
  = Ok (set_currentState
          (Some (Connected
                   (ConnectedState.mk 0
                      (PartyStrategy (mkColor 10 20 30) Colors.CONNECTED
                         Colors.SEARCHING) 0 0 0)))
          (emit [DeleteStrategy (CalmBreathingStrategy Colors.CONNECTED)]
             manager_connected_sample)).
Proof.
  destruct (set_mood_selects_strategy 0 env_online manager_connected_sample
              (ConnectedState.mk 0 (CalmBreathingStrategy Colors.CONNECTED) 0 0 0)
              10 20 30 [] eq_refl) as (_ & Hfocus & _).
  destruct (set_mood_selects_strategy 0 env_online manager_connected_sample
              (ConnectedState.mk 0 (CalmBreathingStrategy Colors.CONNECTED) 0 0 0)
              10 20 30 [1; 2; 3] eq_refl) as (_ & _ & Hparty & _).
  split; [exact Hfocus|].
  apply Hparty. simpl. lia.
Defined.

(** X21: a set-colour command of at least 3 payload bytes releases the active
    strategy and installs a solid colour made of payload bytes 0..2, ignoring
    any further bytes; a set-brightness command of at least one byte sets the
    global brightness to byte 0 and shows the ring, leaving the strategy
    alone.  Neither touches the store, the clock or the mode. *)
Theorem set_color_and_brightness :
  forall (fuel : nat) (env : Env) (m : LuminaStateManager)
         (c : ConnectedState.t) (d0 d1 d2 : Z) (rest : list Z),
    currentState m = Some (Connected c) ->
    handleCommand fuel env CMD_SET_COLOR (d0 :: d1 :: d2 :: rest) m
    = Ok (set_currentState
            (Some (Connected (set_strategy (SolidColorStrategy (mkColor d0 d1 d2)) c)))
            (emit [DeleteStrategy (ConnectedState.currentStrategy c)] m)) /\
    handleCommand fuel env CMD_SET_BRIGHTNESS (d0 :: rest) m
    = Ok (emit [LedSetBrightness d0; LedShow] m).
Proof.
  intros fuel env m c d0 d1 d2 rest Hcur.
  unfold handleCommand, Connected_handleCommand. rewrite Hcur.
  split; reflexivity.
Qed.

Lemma set_color_and_brightness_witness :
  handleCommand 0 env_online CMD_SET_COLOR [255; 128; 0; 9] manager_connected_sample
  = Ok (set_currentState
          (Some (Connected (ConnectedState.mk 0
                              (SolidColorStrategy (mkColor 255 128 0)) 0 0 0)))
          (emit [DeleteStrategy (CalmBreathingStrategy Colors.CONNECTED)]
             manager_connected_sample)) /\
  handleCommand 0 env_online CMD_SET_BRIGHTNESS [255; 9] manager_connected_sample
  = Ok (emit [LedSetBrightness 255; LedShow] manager_connected_sample).
Proof.
  apply (set_color_and_brightness 0 env_online manager_connected_sample
           (ConnectedState.mk 0 (CalmBreathingStrategy Colors.CONNECTED) 0 0 0)
           255 128 0 [9]).
  reflexivity.
Defined.

(** ** More on transitions *)

Lemma leave_effects_no_restart (to : string) (m : LuminaStateManager) :
  Forall (fun e => is_Restart e = false) (leave_effects to m).
Proof.
  unfold leave_effects.
  destruct (currentState m) as [[s|p|c|u]|]; repeat constructor.
Qed.

Lemma fill_ring_no_restart (c : Z) :
  Forall (fun e => is_Restart e = false) (fill_ring c).
Proof.
  unfold fill_ring. cbn [map seq LED_COUNT]. repeat constructor.
Qed.

Ltac no_restart :=
  repeat first
    [ assumption
    | apply leave_effects_no_restart
    | apply fill_ring_no_restart
    | constructor; [reflexivity|]
    | apply List.Forall_nil
    | apply Forall_app; split ].

(** What every completed transition leaves behind. *)
Lemma transitionTo_outcome (env : Env) (ns : LuminaState) (m : LuminaStateManager) :
  exists m' s' evs,
    transitionTo transition_fuel env (Some ns) m = Ok m' /\
    currentState m' = Some s' /\
    EEPROM m' = EEPROM m /\
    lastBatteryVoltage m' = lastBatteryVoltage m /\
    lastBatteryPercent m' = lastBatteryPercent m /\
    effects m' = effects m ++ evs /\
    Forall (fun e => is_Restart e = false) evs /\
    getName s'
    = match ns with
      | Searching _ =>
          if has_credentials (EEPROM m) then "Searching" else "Provisioning"
      | Provisioning _ => "Provisioning"
      | Connected _ => "Connected"
      | Updating _ =>
          if wifi_connected env then "Updating"
          else if has_credentials (EEPROM m) then "Searching" else "Provisioning"
      end%string.
Proof.
  unfold transition_fuel.
  rewrite transitionTo_unfold, install_after_leave.
  assert (Hleave : exists l, leave_effects (getName ns) m = l /\
                     Forall (fun e => is_Restart e = false) l)
    by (eexists; split; [reflexivity | apply leave_effects_no_restart]).
  destruct Hleave as (l & Hl & Hnr). rewrite Hl. clear Hl.
  destruct m as [cur e br bv bp t evs].
  cbn [EEPROM lastBatteryRead lastBatteryVoltage lastBatteryPercent millis effects].
  destruct ns as [s|p|c|u]; unfold onEnter; cbn [currentState].
  - pose proof (load_ok_indep (SearchingState.ssid s) (SearchingState.password s) e)
      as Hok.
    run_manager.
    destruct (loadCredentials (SearchingState.ssid s) (SearchingState.password s) e)
      as [[ok ssid] password].
    cbn [fst] in Hok. rewrite <- Hok. destruct ok; cbn [negb].
    + eexists; eexists; eexists. split; [reflexivity|]. run_manager.
      split; [reflexivity|]. repeat (split; [reflexivity|]).
      split; [no_restart|]. reflexivity.
    + rewrite transitionTo_fuel_Provisioning.
      eexists; eexists; eexists. split; [reflexivity|]. run_manager.
      split; [reflexivity|]. repeat (split; [reflexivity|]).
      split; [no_restart|]. reflexivity.
  - eexists; eexists; eexists. split; [reflexivity|]. run_manager.
    split; [reflexivity|]. repeat (split; [reflexivity|]).
    split; [no_restart|]. reflexivity.
  - eexists; eexists; eexists. split; [reflexivity|]. run_manager.
    split; [reflexivity|]. repeat (split; [reflexivity|]).
    split; [no_restart|]. reflexivity.
  - destruct (wifi_connected env); cbn [negb].
    + unfold setupOTA. destruct (UpdatingState.otaConfigured u);
        (eexists; eexists; eexists; split; [reflexivity|]; run_manager;
         split; [reflexivity|]; repeat (split; [reflexivity|]);
         split; [no_restart|]; reflexivity).
    + rewrite transitionTo_unfold, install_after_leave, onEnter_Searching.
      run_manager. unfold has_credentials.
      destruct (loadCredentials EmptyString EmptyString e)
        as [[[|] ssid] password]; cbn [fst].
      * eexists; eexists; eexists. split; [reflexivity|]. run_manager.
        split; [reflexivity|]. repeat (split; [reflexivity|]).
        split; [no_restart|]. reflexivity.
      * rewrite transitionTo_fuel_Provisioning.
        eexists; eexists; eexists. split; [reflexivity|]. run_manager.
        split; [reflexivity|]. repeat (split; [reflexivity|]).
        split; [no_restart|]. reflexivity.
Qed.

(** X22: every transitionTo with a non-null target returns with exactly one
    state installed, whatever the manager held before (even no state at all),
    and which one is decided by the target, the store and the link: a
    Provisioning or Connected target is installed as such; a Searching target
    stays when the store has loadable credentials and is replaced by
    Provisioning when it has none; an Updating target stays when the link is
    up, and with the link down is replaced by Searching when the store has
    loadable credentials and by Provisioning when it has none.  A transition
    never writes the credential store or the battery telemetry, it only
    appends to the effect trace, and it never restarts the device. *)
Theorem transition_installs_one_state :
  forall (env : Env) (ns : LuminaState) (m : LuminaStateManager),
  exists m' s' evs,
    transitionTo transition_fuel env (Some ns) m = Ok m' /\
    currentState m' = Some s' /\
    EEPROM m' = EEPROM m /\
    lastBatteryVoltage m' = lastBatteryVoltage m /\
    lastBatteryPercent m' = lastBatteryPercent m /\
    effects m' = effects m ++ evs /\
    Forall (fun e => is_Restart e = false) evs /\
    getName s'
    = match ns with
      | Searching _ =>
          if has_credentials (EEPROM m) then "Searching" else "Provisioning"
      | Provisioning _ => "Provisioning"
      | Connected _ => "Connected"
      | Updating _ =>
          if wifi_connected env then "Updating"
          else if has_credentials (EEPROM m) then "Searching" else "Provisioning"
      end%string.
Proof.
  intros env ns m. apply transitionTo_outcome.
Qed.

(** X23: saved credentials drive the next connection attempt.  After a
    saveCredentials of an SSID of at most 32 bytes and a password of at most
    64 bytes, entering Searching loads exactly these and keeps them in the
    state, and starts the station-mode connection with them as C strings:
    WiFi.begin gets each of them whole when it holds no NUL byte, and cut
    before its first NUL byte otherwise.  No transition to Provisioning is
    requested. *)
Theorem saved_credentials_drive_connection :
  forall (fuel : nat) (env : Env) (ok : bool) (ssid password : string)
         (m : LuminaStateManager),
    (String.length ssid <= 32)%nat ->
    (String.length password <= 64)%nat ->
    length (cells (EEPROM m)) = EEPROM_SIZE ->
    exists m' ssid' password',
      transitionTo (S fuel) env (Some createSearchingState)
        (set_EEPROM (snd (saveCredentials ok ssid password (EEPROM m))) m) = Ok m' /\
      currentState m'
      = Some (Searching (SearchingState.mk (millis m) BRIGHTNESS_MIN true (millis m)
                           ssid password (millis m))) /\
      effects m'
      = effects m ++ leave_effects "Searching" m
        ++ [Serial (DiagEntering "Searching"); WifiModeSTA;
            WifiBegin ssid' password';
            Serial (DiagHeapAfterTransition (free_heap env))] /\
      reads_as_c_string ssid ssid' /\
      reads_as_c_string password password'.
Proof.
  intros fuel env ok ssid password m Hs Hp Hsize.
  eexists. exists (c_str ssid), (c_str password). split.
  - apply (transitionTo_Searching_credentials fuel env _ ssid password).
    destruct m as [cur e br bv bp t evs]. cbn [set_EEPROM EEPROM] in *.
    now apply load_after_save.
  - destruct m as [cur e br bv bp t evs].
    split; [reflexivity|]. split; [reflexivity|].
    split; apply c_str_reads.
Qed.

Lemma saved_credentials_drive_connection_witness :
  exists m' ssid' password',
    transitionTo 1 env_online (Some createSearchingState)
      (set_EEPROM
         (snd (saveCredentials true (String "M" (String "y" (String zero "Net")))
                 "secret123" (EEPROM manager_provisioning_sample)))
         manager_provisioning_sample) = Ok m' /\
    currentState m'
    = Some (Searching (SearchingState.mk (millis manager_provisioning_sample)
                         BRIGHTNESS_MIN true (millis manager_provisioning_sample)
                         (String "M" (String "y" (String zero "Net"))) "secret123"
                         (millis manager_provisioning_sample))) /\
    effects m'
    = effects manager_provisioning_sample
      ++ leave_effects "Searching" manager_provisioning_sample
      ++ [Serial (DiagEntering "Searching"); WifiModeSTA;
          WifiBegin ssid' password';
          Serial (DiagHeapAfterTransition (free_heap env_online))] /\
    reads_as_c_string (String "M" (String "y" (String zero "Net"))) ssid' /\
    reads_as_c_string "secret123" password'.
Proof.
  apply (saved_credentials_drive_connection 0 env_online true
           (String "M" (String "y" (String zero "Net"))) "secret123"
           manager_provisioning_sample).
  - simpl; lia.
  - simpl; lia.
  - reflexivity.
Defined.

(** X24: Provisioning's timeout hands over to Searching, and without stored
    credentials Searching's enter hook sends the device straight back: the
    timeout then ends in a fresh Provisioning state whose timer starts at the
    current clock reading, after the access point was torn down and set up
    again. *)
Theorem provisioning_timeout_without_credentials :
  forall (fuel : nat) (env : Env) (m : LuminaStateManager)
         (p : ProvisioningState.t),
    currentState m = Some (Provisioning p) ->
    has_credentials (EEPROM m) = false ->
    exists m' p',
      Provisioning_handleTimeout (S (S fuel)) env m = Ok m' /\
      currentState m' = Some (Provisioning p') /\
      ProvisioningState.stateStartTime p' = millis m /\
      ProvisioningState.orangePhase p' = 0 /\
      EEPROM m' = EEPROM m /\
      effects m'
      = effects m
        ++ [Serial (DiagTransitioning "Provisioning" "Searching");
            Serial (DiagExiting "Provisioning"); UdpStop; WifiSoftAPdisconnect;
            LedClear; LedShow; UdpStop; DeleteState "Provisioning";
            Serial (DiagEntering "Searching"); Serial DiagNoSavedCredentials;
            Serial (DiagTransitioning "Searching" "Provisioning");
            Serial (DiagExiting "Searching"); LedClear; LedShow;
            DeleteState "Searching";
            Serial (DiagEntering "Provisioning"); WifiDisconnect; Delay 100;
            WifiModeAP; WifiSoftAP AP_SSID AP_PASSWORD; UdpBegin UDP_PORT;
            Serial (DiagHeapAfterTransition (free_heap env));
            Serial (DiagHeapAfterTransition (free_heap env))].
Proof.
  intros fuel env m p Hcur Hnone. unfold Provisioning_handleTimeout.
  destruct (transitionTo_Searching_no_credentials fuel env m Hnone) as [p' Hp'].
  rewrite Hp'.
  destruct m as [cur e br bv bp t evs]. cbn [currentState] in Hcur. subst cur.
  assert (Hstart : ProvisioningState.stateStartTime p' = t /\
                   ProvisioningState.orangePhase p' = 0).
  { pose proof Hp' as Hq.
    rewrite transitionTo_unfold, install_after_leave, onEnter_Searching in Hq.
    unfold has_credentials in Hnone. cbn [EEPROM] in Hnone, Hq.
    destruct (loadCredentials EmptyString EmptyString e) as [[ok ssid] password].
    cbn [fst] in Hnone. subst ok.
    rewrite transitionTo_fuel_Provisioning in Hq. cbn [bind millis] in Hq.
    unfold emit in Hq. cbn [currentState] in Hq.
    injection Hq as Hq _. rewrite <- Hq. split; reflexivity. }
  destruct Hstart as [Hs0 Hph].
  exists (mkManager (Some (Provisioning p')) e br bv bp (uint32 (t + 100))
            (effects (mkManager (Some (Provisioning p)) e br bv bp t evs)
             ++ leave_effects "Searching"
                  (mkManager (Some (Provisioning p)) e br bv bp t evs)
             ++ [Serial (DiagEntering "Searching"); Serial DiagNoSavedCredentials;
                 Serial (DiagTransitioning "Searching" "Provisioning");
                 Serial (DiagExiting "Searching"); LedClear; LedShow;
                 DeleteState "Searching"]
             ++ provisioning_enter_effects
             ++ [Serial (DiagHeapAfterTransition (free_heap env));
                 Serial (DiagHeapAfterTransition (free_heap env))])), p'.
  split; [reflexivity|]. split; [reflexivity|].
  split; [exact Hs0|]. split; [exact Hph|]. split; reflexivity.
Qed.

Lemma provisioning_timeout_without_credentials_witness :
  exists m' p',
    Provisioning_handleTimeout 2 env_online manager_provisioning_sample = Ok m' /\
    currentState m' = Some (Provisioning p') /\
    ProvisioningState.stateStartTime p' = millis manager_provisioning_sample /\
    ProvisioningState.orangePhase p' = 0 /\
    EEPROM m' = EEPROM manager_provisioning_sample /\
    effects m'
    = effects manager_provisioning_sample
      ++ [Serial (DiagTransitioning "Provisioning" "Searching");
          Serial (DiagExiting "Provisioning"); UdpStop; WifiSoftAPdisconnect;
          LedClear; LedShow; UdpStop; DeleteState "Provisioning";
          Serial (DiagEntering "Searching"); Serial DiagNoSavedCredentials;
          Serial (DiagTransitioning "Searching" "Provisioning");
          Serial (DiagExiting "Searching"); LedClear; LedShow;
          DeleteState "Searching";
          Serial (DiagEntering "Provisioning"); WifiDisconnect; Delay 100;
          WifiModeAP; WifiSoftAP AP_SSID AP_PASSWORD; UdpBegin UDP_PORT;
          Serial (DiagHeapAfterTransition (free_heap env_online));
          Serial (DiagHeapAfterTransition (free_heap env_online))].
Proof.
  apply (provisioning_timeout_without_credentials 0 env_online
           manager_provisioning_sample (ProvisioningState.mk 0 0 0 100)).
  - reflexivity.
  - vm_compute. reflexivity.
Defined.

(** ** Link polling in Searching and Connected *)

(** X25: attemptConnection only polls the link.  Within 5000 ms of the last
    attempt it does nothing at all.  Once 5000 ms have passed it stamps the
    attempt time; with the link still down nothing else happens (no new
    WiFi.begin, no effect of any kind), and with the link up the device
    leaves Searching for Connected, whose strategy is the breathing green
    one. *)
Theorem attempt_connection_polls_link :
  forall (fuel : nat) (env : Env) (m : LuminaStateManager)
         (s : SearchingState.t),
    currentState m = Some (Searching s) ->
    let stamped :=
      Searching (SearchingState.mk (SearchingState.stateStartTime s)
                   (SearchingState.pulseValue s) (SearchingState.pulseDirection s)
                   (SearchingState.lastPulseUpdate s)
                   (SearchingState.ssid s) (SearchingState.password s)
                   (millis m)) in
    (uint32 (millis m - SearchingState.lastConnectionAttempt s) < 5000 ->
     attemptConnection (S fuel) env m = Ok m) /\
    (5000 <= uint32 (millis m - SearchingState.lastConnectionAttempt s) ->
     wifi_connected env = false ->
     attemptConnection (S fuel) env m
     = Ok (set_currentState (Some stamped) m)) /\
    (5000 <= uint32 (millis m - SearchingState.lastConnectionAttempt s) ->
     wifi_connected env = true ->
     exists m',
       attemptConnection (S fuel) env m = Ok m' /\
       currentState m'
       = Some (Connected (ConnectedState.mk (millis m)
                            (CalmBreathingStrategy Colors.CONNECTED)
                            0 (millis m) (millis m))) /\
       EEPROM m' = EEPROM m /\
       effects m'
       = effects m
         ++ [Serial (DiagTransitioning "Searching" "Connected");
             Serial (DiagExiting "Searching"); LedClear; LedShow;
             DeleteState "Searching"]
         ++ connected_enter_effects
         ++ [Serial (DiagHeapAfterTransition (free_heap env))]).
Proof.
  intros fuel env m s Hcur stamped. unfold attemptConnection. rewrite Hcur.
  split; [|split].
  - intros Hrecent.
    destruct (Z.ltb_spec (uint32 (millis m - SearchingState.lastConnectionAttempt s))
                5000); [reflexivity | lia].
  - intros Hdue Hdown.
    destruct (Z.ltb_spec (uint32 (millis m - SearchingState.lastConnectionAttempt s))
                5000); [lia|].
    rewrite Hdown. reflexivity.
  - intros Hdue Hup.
    destruct (Z.ltb_spec (uint32 (millis m - SearchingState.lastConnectionAttempt s))
                5000); [lia|].
    rewrite Hup, transitionTo_fuel_Connected.
    eexists. split; [reflexivity|].
    destruct m as [cur e br bv bp t evs]. repeat split; reflexivity.
Qed.

Lemma attempt_connection_polls_link_witness :
  attemptConnection 1 env_offline manager_searching_due
  = Ok (set_currentState
          (Some (Searching (SearchingState.mk 0 198 true 0 "MyNet" "secret123" 6000)))
          manager_searching_due) /\
  exists m',
    attemptConnection 1 env_online manager_searching_due = Ok m' /\
    currentState m'
    = Some (Connected (ConnectedState.mk 6000
                         (CalmBreathingStrategy Colors.CONNECTED) 0 6000 6000)).
Proof.
  split.
  - destruct (attempt_connection_polls_link 0 env_offline manager_searching_due
                (SearchingState.mk 0 198 true 0 "MyNet" "secret123" 0) eq_refl)
      as (_ & H & _).
    apply H; [vm_compute; discriminate | reflexivity].
  - destruct (attempt_connection_polls_link 0 env_online manager_searching_due
                (SearchingState.mk 0 198 true 0 "MyNet" "secret123" 0) eq_refl)
      as (_ & _ & H).
    destruct H as (m' & H1 & H2 & _); [vm_compute; discriminate | reflexivity |].
    exists m'. split; assumption.
Defined.

(** X26: checkConnection is throttled to one poll per 5000 ms.  A poll
    that finds the link up only stamps the poll time.  A poll that finds the
    link down leaves Connected: with loadable credentials in the store the
    device ends in Searching, which holds them and restarts the station-mode
    connection with them as C strings (each whole when it holds no NUL byte,
    cut before its first NUL byte otherwise); without credentials it ends in
    Provisioning. *)
Theorem check_connection_falls_back :
  forall (fuel : nat) (env : Env) (m : LuminaStateManager)
         (c : ConnectedState.t),
    currentState m = Some (Connected c) ->
    let stamped :=
      Connected (ConnectedState.mk (ConnectedState.stateStartTime c)
                   (ConnectedState.currentStrategy c)
                   (ConnectedState.lastHeartbeat c)
                   (ConnectedState.lastStrategyUpdate c) (millis m)) in
    (uint32 (millis m - ConnectedState.connectionCheckTime c) < 5000 ->
     checkConnection (S (S fuel)) env m = Ok m) /\
    (5000 <= uint32 (millis m - ConnectedState.connectionCheckTime c) ->
     wifi_connected env = true ->
     checkConnection (S (S fuel)) env m = Ok (set_currentState (Some stamped) m)) /\
    (5000 <= uint32 (millis m - ConnectedState.connectionCheckTime c) ->
     wifi_connected env = false ->
     forall ssid password,
       loadCredentials EmptyString EmptyString (EEPROM m) = (true, ssid, password) ->
       exists m' ssid' password',
         checkConnection (S (S fuel)) env m = Ok m' /\
         currentState m'
         = Some (Searching (SearchingState.mk (millis m) BRIGHTNESS_MIN true
                              (millis m) ssid password (millis m))) /\
         effects m'
         = effects m
           ++ [Serial (DiagTransitioning "Connected" "Searching");
               Serial (DiagExiting "Connected"); UdpStop; LedClear; LedShow;
               DeleteStrategy (ConnectedState.currentStrategy c); UdpStop;
               DeleteState "Connected";
               Serial (DiagEntering "Searching"); WifiModeSTA;
               WifiBegin ssid' password';
               Serial (DiagHeapAfterTransition (free_heap env))] /\
         reads_as_c_string ssid ssid' /\
         reads_as_c_string password password') /\
    (5000 <= uint32 (millis m - ConnectedState.connectionCheckTime c) ->
     wifi_connected env = false ->
     has_credentials (EEPROM m) = false ->
     exists m' p,
       checkConnection (S (S fuel)) env m = Ok m' /\
       currentState m' = Some (Provisioning p) /\
       EEPROM m' = EEPROM m).
Proof.
  intros fuel env m c Hcur stamped. unfold checkConnection. rewrite Hcur.
  destruct (Z.ltb_spec (uint32 (millis m - ConnectedState.connectionCheckTime c))
              5000) as [Hlt|Hge].
  - split; [reflexivity|]. repeat split; intros; lia.
  - split; [intros; lia|]. split; [|split].
    + intros _ Hup. rewrite Hup. reflexivity.
    + intros _ Hdown ssid password Hload. rewrite Hdown. cbn [negb].
      rewrite (transitionTo_Searching_credentials (S fuel) env _ ssid password).
      * eexists. exists (c_str ssid), (c_str password). split; [reflexivity|].
        destruct m as [cur e br bv bp t evs].
        split; [reflexivity|]. split; [reflexivity|]. split; apply c_str_reads.
      * destruct m as [cur e br bv bp t evs]. exact Hload.
    + intros _ Hdown Hnone. rewrite Hdown. cbn [negb].
      destruct (transitionTo_Searching_no_credentials fuel env
                  (set_currentState (Some stamped) m)) as [p Hp].
      * destruct m as [cur e br bv bp t evs]. exact Hnone.
      * fold stamped. rewrite Hp. eexists; eexists.
        split; [reflexivity|]. split; [reflexivity|].
        destruct m as [cur e br bv bp t evs]. reflexivity.
Qed.

Lemma check_connection_falls_back_witness :
  (exists m' p,
     checkConnection 2 env_offline manager_connected_recent = Ok m' /\
     currentState m' = Some (Provisioning p) /\
     EEPROM m' = EEPROM manager_connected_recent)
  /\
  (exists m' ssid' password',
     checkConnection 2 env_offline (set_EEPROM saved_store manager_connected_recent)
     = Ok m' /\
     currentState m'
     = Some (Searching (SearchingState.mk 6000 BRIGHTNESS_MIN true 6000
                          "MyNet" "secret123" 6000)) /\
     effects m'
     = [Serial (DiagTransitioning "Connected" "Searching");
        Serial (DiagExiting "Connected"); UdpStop; LedClear; LedShow;
        DeleteStrategy (CalmBreathingStrategy Colors.CONNECTED); UdpStop;
        DeleteState "Connected";
        Serial (DiagEntering "Searching"); WifiModeSTA;
        WifiBegin ssid' password';
        Serial (DiagHeapAfterTransition (free_heap env_offline))] /\
     reads_as_c_string "MyNet" ssid' /\
     reads_as_c_string "secret123" password').
Proof.
  split.
  - destruct (check_connection_falls_back 0 env_offline manager_connected_recent
                (ConnectedState.mk 0 (CalmBreathingStrategy Colors.CONNECTED) 5000 0 0)
                eq_refl) as (_ & _ & _ & H).
    apply H.
    + vm_compute; discriminate.
    + reflexivity.
    + vm_compute; reflexivity.
  - destruct (check_connection_falls_back 0 env_offline
                (set_EEPROM saved_store manager_connected_recent)
                (ConnectedState.mk 0 (CalmBreathingStrategy Colors.CONNECTED) 5000 0 0)
                eq_refl) as (_ & _ & H & _).
    apply H.
    + vm_compute; discriminate.
    + reflexivity.
    + vm_compute; reflexivity.
Defined.

(** ** What the Connected commands can and cannot do *)

(** X27: an update-start command in Connected arms the update service only
    when the link is up: the device then ends in Updating with the service
    configured under the device name.  With the link down the service is
    never armed, and the device ends in Searching or in Provisioning instead
    of returning to Connected. *)
Theorem ota_start_needs_link :
  forall (env : Env) (data : list Z) (m : LuminaStateManager)
         (c : ConnectedState.t),
    currentState m = Some (Connected c) ->
    (wifi_connected env = true ->
     exists m',
       handleCommand transition_fuel env CMD_OTA_START data m = Ok m' /\
       currentState m'
       = Some (Updating (UpdatingState.mk (millis m) (millis m) 20 true true 0 None)) /\
       effects m'
       = effects m
         ++ [Serial (DiagTransitioning "Connected" "Updating");
             Serial (DiagExiting "Connected"); UdpStop; LedClear; LedShow;
             DeleteStrategy (ConnectedState.currentStrategy c); UdpStop;
             DeleteState "Connected";
             Serial (DiagEntering "Updating"); OtaArm DEVICE_NAME;
             Serial (DiagHeapAfterTransition (free_heap env))]) /\
    (wifi_connected env = false ->
     exists m' s' evs,
       handleCommand transition_fuel env CMD_OTA_START data m = Ok m' /\
       currentState m' = Some s' /\
       (getName s' = "Searching"%string \/ getName s' = "Provisioning"%string) /\
       effects m' = effects m ++ evs /\
       forall hostname, ~ In (OtaArm hostname) evs).
Proof.
  intros env data m c Hcur.
  unfold handleCommand, Connected_handleCommand. rewrite Hcur.
  change (CMD_OTA_START =? CMD_SET_COLOR) with false.
  change (CMD_OTA_START =? CMD_SET_MOOD) with false.
  change (CMD_OTA_START =? CMD_SET_BRIGHTNESS) with false.
  change (CMD_OTA_START =? CMD_GET_STATUS) with false.
  change (CMD_OTA_START =? CMD_OTA_START) with true.
  cbv iota. unfold transition_fuel.
  rewrite transitionTo_unfold, install_after_leave, onEnter_Updating.
  destruct m as [cur e br bv bp t evs0]. cbn [currentState] in Hcur. subst cur.
  split.
  - intros ->. eexists. split; [reflexivity|]. run_manager.
    split; reflexivity.
  - intros ->.
    rewrite transitionTo_unfold, install_after_leave, onEnter_Searching.
    cbn [EEPROM].
    destruct (loadCredentials EmptyString EmptyString e) as [[[|] ssid] password].
    + eexists; eexists; eexists. split; [reflexivity|]. run_manager.
      split; [reflexivity|]. split; [now left|]. split; [reflexivity|].
      intros hostname Hin. cbn [In leave_effects currentState app] in Hin.
      intuition discriminate.
    + rewrite transitionTo_fuel_Provisioning.
      eexists; eexists; eexists. split; [reflexivity|]. run_manager.
      split; [reflexivity|]. split; [now right|]. split; [reflexivity|].
      intros hostname Hin.
      cbn [In leave_effects currentState app provisioning_enter_effects] in Hin.
      intuition discriminate.
Qed.

Lemma ota_start_needs_link_witness :
  exists m',
    handleCommand transition_fuel env_online CMD_OTA_START [] manager_connected_recent
    = Ok m' /\
    currentState m'
    = Some (Updating (UpdatingState.mk 6000 6000 20 true true 0 None)).
Proof.
  destruct (ota_start_needs_link env_online [] manager_connected_recent
              (ConnectedState.mk 0 (CalmBreathingStrategy Colors.CONNECTED) 5000 0 0)
              eq_refl) as [H _].
  destruct (H eq_refl) as (m' & H1 & H2 & _).
  exists m'. split; assumption.
Defined.

Ltac installed :=
  cbn [lookup list_lookup bind];
  eexists; eexists; (split; [reflexivity|]); run_manager;
  (split; [reflexivity|]); (split; [reflexivity|]); no_restart.

(** X28: in Connected only the reset command can touch the credential store
    or restart the device.  Every other command byte, with any payload,
    returns without a fault, leaves the store as it was, only appends to the
    effect trace and appends no restart. *)
Theorem connected_only_reset_wipes_or_restarts :
  forall (env : Env) (cmd : Z) (data : list Z) (m : LuminaStateManager)
         (c : ConnectedState.t),
    currentState m = Some (Connected c) ->
    cmd <> CMD_RESET ->
    exists m' evs,
      handleCommand transition_fuel env cmd data m = Ok m' /\
      EEPROM m' = EEPROM m /\
      effects m' = effects m ++ evs /\
      Forall (fun e => is_Restart e = false) evs.
Proof.
  intros env cmd data m c Hcur Hreset.
  assert (Hidle : exists m' evs,
            Ok m = Ok m' /\ EEPROM m' = EEPROM m /\
            effects m' = effects m ++ evs /\
            Forall (fun e => is_Restart e = false) evs).
  { exists m, []. rewrite app_nil_r. repeat split. constructor. }
  unfold handleCommand, Connected_handleCommand. rewrite Hcur.
  destruct (cmd =? CMD_SET_COLOR).
  { destruct data as [|x0 [|x1 [|x2 rest]]]; cbn [length Nat.ltb Nat.leb];
      try exact Hidle.
    unfold payload_at. cbn [lookup list_lookup bind].
    eexists; eexists. split; [reflexivity|]. run_manager.
    split; [reflexivity|]. split; [reflexivity|]. no_restart. }
  destruct (cmd =? CMD_SET_MOOD).
  { destruct data as [|moodType [|d1 [|d2 [|d3 rest]]]];
      cbn [length Nat.ltb Nat.leb]; try exact Hidle.
    unfold payload_at at 1 2 3 4. cbn [lookup list_lookup bind].
    destruct (moodType =? 0); [installed|].
    destruct (moodType =? 1); [installed|].
    destruct (moodType =? 2); [|installed].
    destruct rest as [|d4 [|d5 [|d6 [|d7 [|d8 [|d9 more]]]]]];
      cbn [length Nat.leb]; unfold payload_at; installed. }
  destruct (cmd =? CMD_SET_BRIGHTNESS).
  { destruct data as [|x0 rest]; cbn [length Nat.ltb Nat.leb]; try exact Hidle.
    unfold payload_at. cbn [lookup list_lookup bind].
    eexists; eexists. split; [reflexivity|]. run_manager.
    split; [reflexivity|]. split; [reflexivity|]. no_restart. }
  destruct (cmd =? CMD_GET_STATUS).
  { unfold sendHeartbeat. rewrite Hcur.
    match goal with
    | |- context [if ?b then m else _] => destruct b
    end; [exact Hidle|].
    eexists; eexists. split; [reflexivity|]. run_manager.
    split; [reflexivity|]. split; [reflexivity|]. no_restart. }
  destruct (cmd =? CMD_OTA_START).
  { destruct (transitionTo_outcome env createUpdatingState m)
      as (m' & s' & evs & Hrun & _ & Hstore & _ & _ & Hevs & Hno & _).
    exists m', evs. repeat split; assumption. }
  destruct (Z.eqb_spec cmd CMD_RESET) as [Heq|_]; [contradiction|].
  eexists; eexists. split; [reflexivity|]. run_manager.
  split; [reflexivity|]. split; [reflexivity|]. no_restart.
Qed.

Lemma connected_only_reset_wipes_or_restarts_witness :
  exists m' evs,
    handleCommand transition_fuel env_offline CMD_OTA_START [] manager_connected_recent
    = Ok m' /\
    EEPROM m' = EEPROM manager_connected_recent /\
    effects m' = effects manager_connected_recent ++ evs /\
    Forall (fun e => is_Restart e = false) evs.
Proof.
  apply (connected_only_reset_wipes_or_restarts env_offline CMD_OTA_START []
           manager_connected_recent
           (ConnectedState.mk 0 (CalmBreathingStrategy Colors.CONNECTED) 5000 0 0)).
  - reflexivity.
  - vm_compute; discriminate.
Defined.

(** ** The party strategy *)

(** X29: the party strategy paints the ring with a fixed pattern of three
    bands, five pixels of the first colour, five of the second and six of the
    third, rotated by one pixel every 50 ms: pixel i shows entry
    (i + (time / 50) mod 16) mod 16 of that pattern.  All 16 pixels are
    written in index order and shown once. *)
Theorem party_bands_rotate :
  forall (color1 color2 color3 : Color) (time : Z),
    Party_apply color1 color2 color3 time
    = map (fun i =>
             LedSetPixelColor i
               (nth ((i + Z.to_nat ((time / 50) mod 16)) mod 16)
                  (replicate 5 (to32bit color1) ++ replicate 5 (to32bit color2)
                   ++ replicate 6 (to32bit color3)) 0))
          (seq 0 16)
      ++ [LedShow].
Proof.
  intros color1 color2 color3 time. unfold Party_apply.
  change (Z.of_nat LED_COUNT) with 16.
  pose proof (Z.mod_pos_bound (time / 50) 16 eq_refl) as Hoffset.
  generalize dependent ((time / 50) mod 16). intros offset Hoffset.
  assert (Hcases : offset = 0 \/ offset = 1 \/ offset = 2 \/ offset = 3 \/
                   offset = 4 \/ offset = 5 \/ offset = 6 \/ offset = 7 \/
                   offset = 8 \/ offset = 9 \/ offset = 10 \/ offset = 11 \/
                   offset = 12 \/ offset = 13 \/ offset = 14 \/ offset = 15) by lia.
  repeat (destruct Hcases as [->|Hcases]; [reflexivity|]).
  subst offset. reflexivity.
Qed.

(** ** The end of an update *)

(** X30: the success animation of an update sweeps the ring in index
    order: each of the 16 pixels is set to green (0x00FF00), shown and held
    for 50 ms before the next one.  The sweep blocks for 800 ms in total (the
    clock advances by 800 modulo 2^32) and changes neither the active state
    nor the credential store. *)
Theorem update_end_sweeps_green :
  forall m : LuminaStateManager,
    effects (onEnd m)
    = effects m
      ++ flat_map (fun i => [LedSetPixelColor i 0x00FF00; LedShow; Delay 50])
           (seq 0 16) /\
    millis (onEnd m) = uint32 (millis m + 800) /\
    currentState (onEnd m) = currentState m /\
    EEPROM (onEnd m) = EEPROM m.
Proof.
  intros [cur e br bv bp t evs]. unfold onEnd.
  cbn [seq fold_left LED_COUNT]. run_manager.
  split; [reflexivity|]. split; [|split; reflexivity].
  repeat (rewrite uint32_add_idemp || rewrite <- Z.add_assoc). f_equal.
Qed.
